(** * The civic-clerk meeting scraper: a shallow embedding and its properties

    The development follows the Python sources
    [playwright_meeting_scraper/{base,firestone}.py],
    [selenium_meeting_scraper/{base,firestone}.py] and [scraper_cli.py].
    Part I embeds the data
    and the functions; Part II states and proves the properties.

    Conventions of the embedding.
    - A Python [str] is a Rocq [string] that holds it in UTF-8; patterns,
      [strip] and the sanitizer of file names work on its code points, with
      the white space of Unicode.  The table of the alphanumeric code
      points beyond ASCII, which decides the class [\w] there, belongs to
      the runtime and is a parameter.  Digits ([\d], [int]) and
      [str.lower] are those of ASCII.
    - A value that the browser hands back as JSON is a [Py.value]; a JSON
      object with scalar fields is a [gmap string Py.value].
    - A driver call that may raise returns a [res]; code that appends to the
      shared [files] list runs in a state-and-exception monad whose state
      survives a raised exception, as the Python list does. *)

From Stdlib Require Import ZArith Ascii String List Lia Bool.
From stdpp Require Import base option list gmap strings pretty.

Open Scope string_scope.
Open Scope list_scope.

(* ===================================================================== *)
(** * Part I: the embedding                                               *)
(* ===================================================================== *)

(** ** Python values *)

Module Py.

(** The scalar values found in a serialised [remoteFile] payload. *)
Inductive value : Type :=
| VNone
| VBool (b : bool)
| VInt (n : Z)
| VStr (s : string).

#[global] Instance value_eq_dec : EqDecision value.
Proof. solve_decision. Defined.

(** [bool(v)]: what an [if v:] tests. *)
Definition truthy (v : value) : bool :=
  match v with
  | VNone => false
  | VBool b => b
  | VInt n => negb (n =? 0)%Z
  | VStr s => negb (String.eqb s "")
  end.

(** [str(v)]: how an f-string renders [{v}]. *)
Definition str (v : value) : string :=
  match v with
  | VNone => "None"
  | VBool true => "True"
  | VBool false => "False"
  | VInt n => pretty n
  | VStr s => s
  end.

Definition lower_char (c : ascii) : ascii :=
  let n := nat_of_ascii c in
  if (65 <=? n)%nat && (n <=? 90)%nat then ascii_of_nat (n + 32) else c.

(** [s.lower()] *)
Fixpoint lower (s : string) : string :=
  match s with
  | EmptyString => EmptyString
  | String c s' => String (lower_char c) (lower s')
  end.

(** [d.get(k)] and [d.get(k, default)] *)
Definition get (d : gmap string value) (k : string) : value :=
  default VNone (d !! k).

Definition get_or (d : gmap string value) (k : string) (dflt : value) : value :=
  default dflt (d !! k).

(** Truth value of an optional dict: [None] and [{}] are false. *)
Definition truthy_dict (o : option (gmap string value)) : bool :=
  match o with
  | None => false
  | Some d => negb (bool_decide (d = ∅))
  end.

(** [a or b] on optional dicts. *)
Definition or_dict (a b : option (gmap string value))
  : option (gmap string value) :=
  if truthy_dict a then a else b.

(** [v or "N/A"] *)
Definition or_str (v : value) (s : string) : value :=
  if truthy v then v else VStr s.

(** *** Text

    A [string] holds a Python [str] in UTF-8.  [points] gives its code
    points and [text] the string of a list of code points.  A byte that
    belongs to no well-formed sequence stands for the code point
    [U+DC00 + byte], as under the error handler [surrogateescape], so that
    no byte is lost. *)

Definition between (lo hi n : N) : bool := ((lo <=? n) && (n <=? hi))%N.

(** A continuation byte, [10xxxxxx]. *)
Definition continuation (n : N) : bool := between 128 191 n.

(** The code point of a sequence of two, three and four bytes: the
    shortest form only, no surrogate, nothing beyond [U+10FFFF]. *)
Definition point2 (n0 n1 : N) : option N :=
  if between 194 223 n0 && continuation n1
  then Some ((n0 - 192) * 64 + (n1 - 128))%N
  else None.

Definition point3 (n0 n1 n2 : N) : option N :=
  if between 224 239 n0 && continuation n1 && continuation n2 then
    let c := ((n0 - 224) * 4096 + (n1 - 128) * 64 + (n2 - 128))%N in
    if (2048 <=? c)%N && negb (between 55296 57343 c) then Some c else None
  else None.

Definition point4 (n0 n1 n2 n3 : N) : option N :=
  if between 240 244 n0 && continuation n1 && continuation n2
     && continuation n3 then
    let c := ((n0 - 240) * 262144 + (n1 - 128) * 4096
              + (n2 - 128) * 64 + (n3 - 128))%N in
    if between 65536 1114111 c then Some c else None
  else None.

(** The code point of a byte that stands alone. *)
Definition escape (n : N) : N := if (n <? 128)%N then n else (56320 + n)%N.

Fixpoint points (s : string) : list N :=
  match s with
  | EmptyString => []
  | String b0 s0 =>
      let n0 := N_of_ascii b0 in
      match s0 with
      | EmptyString => [escape n0]
      | String b1 s1 =>
          let n1 := N_of_ascii b1 in
          match point2 n0 n1 with
          | Some c => c :: points s1
          | None =>
              match s1 with
              | EmptyString => escape n0 :: points s0
              | String b2 s2 =>
                  let n2 := N_of_ascii b2 in
                  match point3 n0 n1 n2 with
                  | Some c => c :: points s2
                  | None =>
                      match s2 with
                      | EmptyString => escape n0 :: points s0
                      | String b3 s3 =>
                          match point4 n0 n1 n2 (N_of_ascii b3) with
                          | Some c => c :: points s3
                          | None => escape n0 :: points s0
                          end
                      end
                  end
              end
          end
      end
  end.

(** The bytes of a code point. *)
Definition encode (c : N) : list N :=
  if (c <? 128)%N then [c]
  else if (c <? 2048)%N then [192 + c / 64; 128 + c mod 64]%N
  else if between 56448 56575 c then [c - 56320]%N
  else if (c <? 65536)%N then
    [224 + c / 4096; 128 + (c / 64) mod 64; 128 + c mod 64]%N
  else
    [240 + c / 262144; 128 + (c / 4096) mod 64; 128 + (c / 64) mod 64;
     128 + c mod 64]%N.

Fixpoint bytes (l : list N) : string :=
  match l with
  | [] => EmptyString
  | n :: l' => String (ascii_of_N n) (bytes l')
  end.

Definition text (l : list N) : string := bytes (concat (map encode l)).

(** *** Character classes of the runtime, on code points *)

(** [c.isspace()], also the class [\s] of a [str] pattern: TAB, LF, VT,
    FF, CR, FS, GS, RS, US and the space, and beyond ASCII the line and
    paragraph separators and the spaces [U+0085], [U+00A0], [U+1680],
    [U+2000] to [U+200A], [U+2028], [U+2029], [U+202F], [U+205F] and
    [U+3000]. *)
Definition is_space (c : N) : bool :=
  between 9 13 c || between 28 32 c
  || (c =? 133)%N || (c =? 160)%N || (c =? 5760)%N
  || between 8192 8202 c
  || (c =? 8232)%N || (c =? 8233)%N || (c =? 8239)%N || (c =? 8287)%N
  || (c =? 12288)%N.

(** The digits [0] to [9]. *)
Definition is_digit (c : N) : bool := between 48 57 c.

(** The class [[A-Za-z]]. *)
Definition is_alpha (c : N) : bool := between 65 90 c || between 97 122 c.

(** The class [\w] of a [str] pattern: the letters and digits of ASCII
    and the underscore, and beyond ASCII the code points for which
    [str.isalnum] holds.  That table belongs to the Unicode database of the
    runtime; it is the parameter [isalnum]. *)
Definition is_word (isalnum : N -> bool) (c : N) : bool :=
  if (c <? 128)%N then is_alpha c || is_digit c || (c =? 95)%N
  else isalnum c.

(** [needle in s] on strings. *)
Fixpoint contains (needle s : string) : bool :=
  String.prefix needle s
  || match s with
     | EmptyString => false
     | String _ s' => contains needle s'
     end.

(** [s.lstrip()], [s.rstrip()], [s.strip()], on code points and on a
    string. *)
Fixpoint lstrip (l : list N) : list N :=
  match l with
  | [] => []
  | c :: l' => if is_space c then lstrip l' else l
  end.

Fixpoint rstrip (l : list N) : list N :=
  match l with
  | [] => []
  | c :: l' =>
      match rstrip l' with
      | [] => if is_space c then [] else [c]
      | r => c :: r
      end
  end.

Definition strip_points (l : list N) : list N := rstrip (lstrip l).

Definition strip (s : string) : string := text (strip_points (points s)).

(** [s[:n]] *)
Fixpoint take_str (n : nat) (s : string) : string :=
  match n, s with
  | S n', String c s' => String c (take_str n' s')
  | _, _ => EmptyString
  end.

(** [s.replace(old, new)] for a single character [old]. *)
Fixpoint replace_char (old : ascii) (new s : string) : string :=
  match s with
  | EmptyString => EmptyString
  | String c s' =>
      if Ascii.eqb c old then new +:+ replace_char old new s'
      else String c (replace_char old new s')
  end.

(** [s.endswith(suffix)] *)
Definition endswith (s suffix : string) : bool :=
  (String.length suffix <=? String.length s)%nat
  && String.eqb
       (String.substring (String.length s - String.length suffix)
          (String.length suffix) s)
       suffix.

(** [int(s)] on a string of decimal digits. *)
Definition digit_value (c : ascii) : Z := Z.of_nat (nat_of_ascii c - 48).

Fixpoint int_acc (acc : Z) (s : string) : Z :=
  match s with
  | EmptyString => acc
  | String c s' => int_acc (10 * acc + digit_value c) s'
  end.

Definition int (s : string) : Z := int_acc 0 s.

End Py.

(** ** Regular expressions ([re])

    The fragment of the pattern language that the sources use, with the
    backtracking semantics of the [re] module: quantifiers are greedy, the
    first alternative that lets the rest of the pattern match wins, and
    [search] returns the leftmost match. *)

Module Re.

Inductive regex : Type :=
| Chr (c : ascii)                  (* a literal character of ASCII *)
| Cls (p : N -> bool)              (* a character class *)
| Plus (p : N -> bool)             (* class+ *)
| Rep (n : nat) (p : N -> bool)    (* class{n} *)
| Opt (r : regex)                  (* r? *)
| Cat (r1 r2 : regex)              (* r1 r2 *)
| Group (r : regex).               (* ( r ), capturing *)

(** Greedy repetition of a class with backtracking: the longest run is
    tried first, then shorter ones. *)
Fixpoint star {R} (p : N -> bool) (s : list N) (k : list N -> option R)
  : option R :=
  match s with
  | c :: s' =>
      if p c then
        match star p s' k with
        | Some x => Some x
        | None => k s
        end
      else k s
  | [] => k s
  end.

Definition plus {R} (p : N -> bool) (s : list N) (k : list N -> option R)
  : option R :=
  match s with
  | c :: s' => if p c then star p s' k else None
  | [] => None
  end.

Fixpoint rep {R} (n : nat) (p : N -> bool) (s : list N)
    (k : list N -> option R) : option R :=
  match n with
  | O => k s
  | S n' =>
      match s with
      | c :: s' => if p c then rep n' p s' k else None
      | [] => None
      end
  end.

(** [matched s rest]: the text consumed between [s] and its suffix [rest]. *)
Definition matched (s rest : list N) : list N :=
  firstn (length s - length rest) s.

(** [run r s caps k]: match [r] at the start of [s], then continue with [k]
    on the remaining text and the groups captured so far (in the order in
    which the groups close). *)
Fixpoint run {R} (r : regex) (s : list N) (caps : list (list N))
    (k : list N -> list (list N) -> option R) : option R :=
  match r with
  | Chr c =>
      match s with
      | c' :: s' => if (N_of_ascii c =? c')%N then k s' caps else None
      | [] => None
      end
  | Cls p =>
      match s with
      | c' :: s' => if p c' then k s' caps else None
      | [] => None
      end
  | Plus p => plus p s (fun s' => k s' caps)
  | Rep n p => rep n p s (fun s' => k s' caps)
  | Opt r' =>
      match run r' s caps k with
      | Some x => Some x
      | None => k s caps
      end
  | Cat r1 r2 => run r1 s caps (fun s' caps' => run r2 s' caps' k)
  | Group r' => run r' s caps (fun s' caps' => k s' (caps' ++ [matched s s']))
  end.

(** [re.match]: the groups and the rest of the text. *)
Definition match_at (r : regex) (s : list N)
  : option (list (list N) * list N) :=
  run r s [] (fun rest caps => Some (caps, rest)).

(** [re.search] on code points: the groups of the leftmost match. *)
Fixpoint search_points (r : regex) (s : list N) : option (list (list N)) :=
  match match_at r s with
  | Some (caps, _) => Some caps
  | None =>
      match s with
      | [] => None
      | _ :: s' => search_points r s'
      end
  end.

(** [re.search(r, s)]: the groups, as strings. *)
Definition search (r : regex) (s : string) : option (list string) :=
  option_map (map Py.text) (search_points r (Py.points s)).

(** [m.group(i)], for [i >= 1]. *)
Definition group (caps : list string) (i : nat) : string :=
  nth (i - 1) caps "".

(** [re.sub(r, repl, s)] on code points, for a pattern that matches no
    empty text: the non-overlapping matches are replaced from left to
    right.  [fuel] bounds the number of steps; [sub] gives one more than the
    length of [s]. *)
Fixpoint sub_from (fuel : nat) (r : regex) (repl s : list N) : list N :=
  match fuel with
  | O => s
  | S fuel' =>
      match s with
      | [] => []
      | c :: s' =>
          match match_at r s with
          | Some (_, rest) =>
              if (length rest <? length s)%nat
              then repl ++ sub_from fuel' r repl rest
              else c :: sub_from fuel' r repl s'
          | None => c :: sub_from fuel' r repl s'
          end
      end
  end.

Definition sub (r : regex) (repl s : list N) : list N :=
  sub_from (S (length s)) r repl s.

End Re.

(** ** Calendar dates ([datetime.date]) *)

Module Datetime.

Record date : Type := mkDate { year : Z; month : Z; day : Z }.

#[global] Instance date_eq_dec : EqDecision date.
Proof. solve_decision. Defined.

(** [a < b] on dates compares year, month, day in that order. *)
Definition date_ltb (a b : date) : bool :=
  (year a <? year b)%Z
  || ((year a =? year b)%Z
      && ((month a <? month b)%Z
          || ((month a =? month b)%Z && (day a <? day b)%Z))).

Definition is_leap (y : Z) : bool :=
  ((y mod 4 =? 0) && (negb (y mod 100 =? 0) || (y mod 400 =? 0)))%Z.

Definition days_in_month (y m : Z) : Z :=
  if (m =? 2)%Z then (if is_leap y then 29 else 28)%Z
  else if ((m =? 4) || (m =? 6) || (m =? 9) || (m =? 11))%Z then 30%Z
  else 31%Z.

(** [datetime(year, month, day).date()]; [None] stands for the
    [ValueError] of an out-of-range component. *)
Definition make_date (y m d : Z) : option date :=
  if ((1 <=? y) && (y <=? 9999) && (1 <=? m) && (m <=? 12)
      && (1 <=? d) && (d <=? days_in_month y m))%Z
  then Some (mkDate y m d) else None.

End Datetime.

(** ** Exceptions, and code that appends to a list while it may raise *)

Module Exn.

(** The outcome of a call that may raise. *)
Inductive res (A : Type) : Type :=
| Ok (a : A)
| Raise.

Arguments Ok {A} a.
Arguments Raise {A}.

#[global] Instance res_ret : MRet res := fun A a => Ok a.

#[global] Instance res_bind : MBind res := fun A B f r =>
  match r with
  | Ok a => f a
  | Raise => Raise
  end.

(** [try: r  except: pass] on a computation of local variables: [a] is
    what the variables hold when [r] raises. *)
Definition rescue {A} (r : res A) (a : A) : A :=
  match r with
  | Ok a' => a'
  | Raise => a
  end.

(** A computation over a mutable state [S]: what was written before an
    exception stays written. *)
Definition M (S A : Type) : Type := S -> res A * S.

#[global] Instance M_ret {S} : MRet (M S) := fun A a st => (Ok a, st).

#[global] Instance M_bind {S} : MBind (M S) := fun A B f m st =>
  match m st with
  | (Ok a, st') => f a st'
  | (Raise, st') => (Raise, st')
  end.

Definition lift {S A} (r : res A) : M S A := fun st => (r, st).

Definition modify {S} (f : S -> S) : M S unit := fun st => (Ok tt, f st).

(** [try: m  except Exception: h] *)
Definition catch {S A} (m h : M S A) : M S A := fun st =>
  match m st with
  | (Ok a, st') => (Ok a, st')
  | (Raise, st') => h st'
  end.

(** How one turn of a [for] loop ends: go on with the next element (at the
    end of the body or by [continue]), or [break]. *)
Inductive ctl : Type := Next | Break.

Fixpoint for_ {S A} (l : list A) (body : A -> M S ctl) : M S unit :=
  match l with
  | [] => mret tt
  | x :: l' =>
      c ← body x;
      match c with
      | Next => for_ l' body
      | Break => mret tt
      end
  end.

End Exn.

(** ** Records shared by the two backends *)

Module Data.

(** A file dict, as [scrape_meeting_files] builds it.  A key that only some
    of the four dict literals carry is an [option]: [None] is the absent
    key. *)
Record file_info : Type := mkFileInfo {
  name : Py.value;
  type_ : string;
  download_url : Py.value;
  section : option (option string);
  file_id : option Py.value;
  plain_text : option bool;
  has_stream_url : option bool;
  is_attachment : option bool;
  download_button_id : option (option string);
  download_button_type : option string;
  file_name_text : option string;
  file_data : option (option (gmap string Py.value))
}.

(** A meeting dict, as [scrape_meetings] builds it. *)
Record meeting : Type := mkMeeting {
  event_id : option string;
  title : string;
  url : string;
  href : string;
  date : option Datetime.date
}.

End Data.

(** ** The component tree seen by the inspection script

    Both [inspect_button_handlers] functions send the same script to the
    browser (Playwright l. 164-225, Selenium l. 157-217).  A fiber carries
    its own data and a [return] pointer to its parent. *)

Module React.

(** The value of a [remoteFile] property: [null] or an object. *)
Inductive js_value : Type :=
| JNull
| JObject (o : gmap string Py.value).

(** A props object: its [remoteFile] property, if it has one, and whether
    it has any other property. *)
Record props : Type := mkProps {
  remoteFile : option js_value;
  other_props : bool
}.

(** The data a fiber node holds itself. *)
Record node : Type := mkNode {
  displayName : option string;      (* fiber.type && fiber.type.displayName *)
  memoizedProps : option props;
  pendingProps : option props
}.

Inductive fiber : Type :=
| Root (n : node)
| Child (n : node) (parent : fiber).

Definition self (f : fiber) : node :=
  match f with Root n => n | Child n _ => n end.

(** [fiber.return] *)
Definition return_ (f : fiber) : option fiber :=
  match f with Root _ => None | Child _ p => Some p end.

(** [fiber.memoizedProps && fiber.memoizedProps.remoteFile], when true. *)
Definition memoized_remoteFile (n : node) : option (gmap string Py.value) :=
  match memoizedProps n with
  | Some p =>
      match remoteFile p with
      | Some (JObject o) => Some o
      | _ => None
      end
  | None => None
  end.

(** [findComponentWithRemoteFile(fiber, depth)]; the [!fiber] test is the
    [option] of [return_] and of the caller. *)
Fixpoint findComponentWithRemoteFile (f : fiber) (depth : nat)
  : option (gmap string Py.value) :=
  if (10 <? depth)%nat then None else
  match
    (if bool_decide (displayName (self f) = Some "DownloadFileButton")
     then memoized_remoteFile (self f) else None)
  with
  | Some rf => Some rf
  | None =>
      match memoized_remoteFile (self f) with
      | Some rf => Some rf
      | None =>
          match f with
          | Child _ parent => findComponentWithRemoteFile parent (S depth)
          | Root _ => None
          end
      end
  end.

(** A DOM element as the script sees it: whether evaluating the script on
    it throws, its attributes, its [onclick] source, and its enumerable
    keys with the fiber stored under each (if the value is one). *)
Record element : Type := mkElement {
  evaluate_throws : bool;
  attributes : list (string * string);
  onclick : option string;
  keys : list (string * option fiber)
}.

(** [findReactFiber(element)] *)
Definition findReactFiber (el : element) : option fiber :=
  match
    list_find
      (fun kv => String.prefix "__reactInternalInstance" (fst kv)
                 || String.prefix "__reactFiber" (fst kv) = true)
      (keys el)
  with
  | Some (_, (_, v)) => v
  | None => None
  end.

(** The [handlers] object the script returns. *)
Record handlers : Type := mkHandlers {
  h_onclick : option string;
  h_dataAttributes : list (string * string);
  h_reactProps : option props;
  h_remoteFile : option (gmap string Py.value)
}.

Definition script (el : element) : handlers :=
  let data :=
    filter (fun a => String.prefix "data-" (fst a) = true) (attributes el) in
  match findReactFiber el with
  | Some f =>
      mkHandlers (onclick el) data
        (match memoizedProps (self f) with
         | Some p => Some p
         | None => pendingProps (self f)
         end)
        (findComponentWithRemoteFile f 0)
  | None => mkHandlers (onclick el) data None None
  end.

(** The ancestry of a fiber, itself first. *)
Fixpoint chain (f : fiber) : list node :=
  match f with
  | Root n => [n]
  | Child n parent => n :: chain parent
  end.

(** A props dict is true in Python when it has a key. *)
Definition truthy_props (o : option props) : bool :=
  match o with
  | Some p => bool_decide (is_Some (remoteFile p)) || other_props p
  | None => false
  end.

End React.

(** ** The Playwright package

    [playwright_meeting_scraper/firestone.py] first, then the two methods of
    [playwright_meeting_scraper/base.py] that the properties are about. *)

Module Playwright.

(** *** Constants ([firestone.py], l. 9-10) *)

Definition BASE_URL : string := "https://firestoneco.portal.civicclerk.com".
Definition API_BASE_URL : string := "https://firestoneco.api.civicclerk.com/v1/".

(** *** The date of a meeting entry ([firestone.py], l. 13-77) *)

(** The link of a meeting entry, as the driver reports it. *)
Record link : Type := mkLink {
  data_date : Exn.res (option string);    (* get_attribute("data-date") *)
  aria_label : Exn.res (option string);   (* get_attribute("aria-label") *)
  h2_text : Exn.res (option string)       (* the h2 of dateDetails, .text_content() *)
}.

(** The pattern [([A-Za-z]+),?\s+([A-Za-z]+)\.?\s+(\d+),?\s+(\d{4})]. *)
Definition aria_pattern : Re.regex :=
  Re.Cat (Re.Group (Re.Plus Py.is_alpha))
  (Re.Cat (Re.Opt (Re.Chr ","))
  (Re.Cat (Re.Plus Py.is_space)
  (Re.Cat (Re.Group (Re.Plus Py.is_alpha))
  (Re.Cat (Re.Opt (Re.Chr "."))
  (Re.Cat (Re.Plus Py.is_space)
  (Re.Cat (Re.Group (Re.Plus Py.is_digit))
  (Re.Cat (Re.Opt (Re.Chr ","))
  (Re.Cat (Re.Plus Py.is_space)
          (Re.Group (Re.Rep 4 Py.is_digit)))))))))).

(** The pattern [([A-Za-z]+)\s+(\d+),?\s+(\d{4})]. *)
Definition h2_pattern : Re.regex :=
  Re.Cat (Re.Group (Re.Plus Py.is_alpha))
  (Re.Cat (Re.Plus Py.is_space)
  (Re.Cat (Re.Group (Re.Plus Py.is_digit))
  (Re.Cat (Re.Opt (Re.Chr ","))
  (Re.Cat (Re.Plus Py.is_space)
          (Re.Group (Re.Rep 4 Py.is_digit)))))).

(** [month_map.get(key)] *)
Definition month_map (key : string) : option Z :=
  if String.eqb key "jan" then Some 1%Z
  else if String.eqb key "feb" then Some 2%Z
  else if String.eqb key "mar" then Some 3%Z
  else if String.eqb key "apr" then Some 4%Z
  else if String.eqb key "may" then Some 5%Z
  else if String.eqb key "jun" then Some 6%Z
  else if String.eqb key "jul" then Some 7%Z
  else if String.eqb key "aug" then Some 8%Z
  else if String.eqb key "sep" then Some 9%Z
  else if String.eqb key "oct" then Some 10%Z
  else if String.eqb key "nov" then Some 11%Z
  else if String.eqb key "dec" then Some 12%Z
  else None.

(** What follows a match (l. 38-49 and l. 61-71): the month name, the day
    and the year are turned into a date.  [datetime(year, month, day)]
    raises when there is no such day; an unknown month name gives nothing. *)
Definition date_of_parts (month_name day year : string)
  : Exn.res (option Datetime.date) :=
  match month_map (Py.take_str 3 (Py.lower month_name)) with
  | Some month =>
      match Datetime.make_date (Py.int year) month (Py.int day) with
      | Some d => Exn.Ok (Some d)
      | None => Exn.Raise
      end
  | None => Exn.Ok None
  end.

(** The second source (l. 34-49). *)
Definition date_of_aria_label (aria_label : string)
  : Exn.res (option Datetime.date) :=
  match Re.search aria_pattern aria_label with
  | Some m => date_of_parts (Re.group m 2) (Re.group m 3) (Re.group m 4)
  | None => Exn.Ok None
  end.

(** The body of the [try] of the third source (l. 53-71). *)
Definition date_of_h2 (l : link) : Exn.res (option Datetime.date) :=
  date_text ← h2_text l;
  match date_text with
  | Some text =>
      if negb (String.eqb text "") then
        match Re.search h2_pattern (Py.strip text) with
        | Some m => date_of_parts (Re.group m 1) (Re.group m 2) (Re.group m 3)
        | None => Exn.Ok None
        end
      else Exn.Ok None
  | None => Exn.Ok None
  end.

Section DateExtractor.

(** [datetime.fromisoformat(s).date()], [None] standing for the
    [ValueError] of a string that the library does not accept. *)
Variable fromisoformat : string -> option Datetime.date.

(** The first source (l. 23-30): a [ValueError] of the library is caught
    and the next source is tried. *)
Definition date_of_timestamp (data_date : option string)
  : option Datetime.date :=
  match data_date with
  | Some s =>
      if negb (String.eqb s "")
      then fromisoformat (Py.replace_char "Z" "+00:00" s)
      else None
  | None => None
  end.

(** The second source (l. 33-49), which has no [try] of its own. *)
Definition date_of_label (aria_label : option string)
  : Exn.res (option Datetime.date) :=
  match aria_label with
  | Some a =>
      if negb (String.eqb a "") then date_of_aria_label a else Exn.Ok None
  | None => Exn.Ok None
  end.

(** The body of the outer [try] (l. 22-75). *)
Definition extract_meeting_date_body (link_locator : link)
  : Exn.res (option Datetime.date) :=
  data_date ← data_date link_locator;
  match date_of_timestamp data_date with
  | Some d => Exn.Ok (Some d)
  | None =>
      aria_label ← aria_label link_locator;
      from_aria_label ← date_of_label aria_label;
      match from_aria_label with
      | Some d => Exn.Ok (Some d)
      | None => Exn.Ok (Exn.rescue (date_of_h2 link_locator) None)
      end
  end.

(** [extract_meeting_date]: whatever the body raises gives [None]. *)
Definition extract_meeting_date (link_locator : link) : option Datetime.date :=
  Exn.rescue (extract_meeting_date_body link_locator) None.

End DateExtractor.

(** *** The component inspector ([firestone.py], l. 157-229) *)

(** [inspect_button_handlers]: any exception of [page.evaluate] is caught
    and [None] is returned. *)
Definition inspect_button_handlers (element_handle : React.element)
  : option React.handlers :=
  if React.evaluate_throws element_handle then None
  else Some (React.script element_handle).

(** *** The URL builder ([firestone.py], l. 232-261) *)

Definition build_download_url
    (remote_file : option (gmap string Py.value))
    (is_attachment plain_text : bool) : Py.value :=
  if negb (Py.truthy_dict remote_file) then Py.VNone else
  match remote_file with
  | None => Py.VNone
  | Some rf =>
      let file_id := Py.get rf "fileId" in
      if negb (Py.truthy file_id) then Py.VNone else
      let stream_url := Py.get rf "streamUrl" in
      if Py.truthy stream_url then stream_url else
      if is_attachment then
        Py.VStr (API_BASE_URL +:+ "Meetings/GetAttachmentFile(fileId="
                 +:+ Py.str file_id +:+ ")")
      else
        Py.VStr (API_BASE_URL +:+ "Meetings/GetMeetingFileStream(fileId="
                 +:+ Py.str file_id +:+ ",plainText="
                 +:+ Py.lower (Py.str (Py.VBool plain_text)) +:+ ")")
  end.

(** *** The files page, as the driver reports it

    Each field is the outcome of one driver call of [scrape_meeting_files],
    in the order in which the function makes them. *)

(** The page probes of the fallbacks (l. 536-557). *)
Record probe : Type := mkProbe {
  iframe_count : Exn.res nat;               (* #pdfViewerIframe .count() *)
  iframe_src : Exn.res (option string);     (* .get_attribute("src") *)
  links_count : Exn.res nat;                (* download links .count() *)
  link_href : Exn.res (option string)       (* .first.get_attribute('href') *)
}.

Record menu_item : Type := mkMenuItem {
  label_count : Exn.res nat;                (* file_type_elem.count() *)
  label_text : Exn.res (option string);     (* .text_content() *)
  download_count : Exn.res nat;             (* download_elem.count() *)
  download_handle : Exn.res React.element;  (* .element_handle() *)
  fallback_probe : probe;
  close_click : Exn.res unit                (* body click, primary section *)
}.

Record primary_entry : Type := mkPrimaryEntry {
  pe_name_count : Exn.res nat;
  pe_name_text : Exn.res (option string);
  pe_button_count : Exn.res nat;
  pe_button_id : Exn.res (option string);
  pe_button_handle : Exn.res React.element;
  pe_click : Exn.res unit;
  pe_menu_visible : Exn.res unit;           (* menu.wait_for(state="visible") *)
  pe_menu_items : Exn.res (list menu_item)  (* menu_items.count(), .nth(j) *)
}.

Record attachment_entry : Type := mkAttachmentEntry {
  ae_header_count : Exn.res nat;
  ae_header_text : Exn.res (option string);
  ae_name_count : Exn.res nat;
  ae_name_text : Exn.res (option string);
  ae_report_count : Exn.res nat;            (* reportFiles button *)
  ae_attach_count : Exn.res nat;            (* attachmentFiles button *)
  ae_button_recount : Exn.res nat;          (* download_btn.count(), l. 643 *)
  ae_button_id : Exn.res (option string);
  ae_button_handle : Exn.res React.element;
  ae_click : Exn.res unit;
  ae_menu_visible : Exn.res unit;
  ae_menu_items : Exn.res (list menu_item);
  ae_close_click : Exn.res unit             (* body click after the menu loop *)
}.

Record page : Type := mkPage {
  goto : Exn.res unit;
  files_selector : Exn.res unit;            (* wait_for_selector("#files") *)
  file_items : Exn.res (list primary_entry);
  attachments_selector : Exn.res unit;      (* wait_for_selector("#AttachmentsList") *)
  all_items : Exn.res (list attachment_entry)
}.

(** The state of the walk: the [files] list and [current_section]. *)
Record walk : Type := mkWalk {
  files : list Data.file_info;
  current_section : option string
}.

Definition append (f : Data.file_info) : Exn.M walk unit :=
  Exn.modify (fun w => mkWalk (files w ++ [f]) (current_section w)).

Definition set_section (s : option string) : Exn.M walk unit :=
  Exn.modify (fun w => mkWalk (files w) s).

Definition get_section : Exn.M walk (option string) :=
  fun w => (Exn.Ok (current_section w), w).

(** [elem.text_content().strip()]: [None.strip()] raises. *)
Definition stripped (t : option string) : Exn.res string :=
  match t with
  | Some s => Exn.Ok (Py.strip s)
  | None => Exn.Raise
  end.

(** [props['remoteFile']] as a Python value. *)
Definition py_of_js (v : React.js_value) : option (gmap string Py.value) :=
  match v with
  | React.JNull => None
  | React.JObject o => Some o
  end.

(** The reference found in a [handlers] dict (l. 498-504, 657-664,
    705-713): [handlers['remoteFile']] if it is true, else
    [handlers['reactProps']['remoteFile']] if the props have that key. *)
Definition reference_of (handlers : option React.handlers)
  : option (gmap string Py.value) :=
  match handlers with
  | None => None
  | Some h =>
      if Py.truthy_dict (React.h_remoteFile h) then React.h_remoteFile h
      else if React.truthy_props (React.h_reactProps h) then
        match React.h_reactProps h with
        | Some props =>
            match React.remoteFile props with
            | Some v => py_of_js v
            | None => None
            end
        | None => None
        end
      else None
  end.

(** The same for the trigger of a primary file (l. 452-470): the name of
    the payload replaces the displayed name, and the props' reference is
    asked for its [streamUrl], which raises when it is [None]. *)
Definition primary_reference (handlers : option React.handlers)
    (file_name : Py.value)
  : Exn.res (option (gmap string Py.value) * Py.value) :=
  match handlers with
  | None => Exn.Ok (None, file_name)
  | Some h =>
      if Py.truthy_dict (React.h_remoteFile h) then
        match React.h_remoteFile h with
        | Some rf => Exn.Ok (Some rf, Py.get_or rf "name" file_name)
        | None => Exn.Ok (None, file_name)
        end
      else if React.truthy_props (React.h_reactProps h) then
        match React.h_reactProps h with
        | Some props =>
            match React.remoteFile props with
            | Some (React.JObject o) => Exn.Ok (Some o, file_name)
            | Some React.JNull => Exn.Raise
            | None => Exn.Ok (None, file_name)
            end
        | None => Exn.Ok (None, file_name)
        end
      else Exn.Ok (None, file_name)
  end.

(** [v[:80] if v else 'None'] inside a [print]: slicing raises on a value
    that is not a string. *)
Definition printable_prefix (v : Py.value) : Exn.res string :=
  if Py.truthy v then
    match v with
    | Py.VStr s => Exn.Ok (Py.take_str 80 s)
    | _ => Exn.Raise
    end
  else Exn.Ok "None".

Definition of_attribute (a : option string) : Py.value :=
  match a with
  | Some s => Py.VStr s
  | None => Py.VNone
  end.

(** [not download_url or download_url == "N/A"] *)
Definition unresolved (download_url : Py.value) : bool :=
  negb (Py.truthy download_url) || bool_decide (download_url = Py.VStr "N/A").

(** The pattern [fileId=(\d+)]. *)
Definition fileId_pattern : Re.regex :=
  Re.Cat (Re.Chr "f") (Re.Cat (Re.Chr "i") (Re.Cat (Re.Chr "l")
  (Re.Cat (Re.Chr "e") (Re.Cat (Re.Chr "I") (Re.Cat (Re.Chr "d")
  (Re.Cat (Re.Chr "=") (Re.Group (Re.Plus Py.is_digit)))))))).

(** The local variables that the fallbacks may assign. *)
Record locals : Type := mkLocals {
  l_download_url : Py.value;
  l_file_id : Py.value;
  l_plain_text : bool
}.

Section Walker.

(** [unquote(parse_qs(urlparse(src).query)["file"][0])] when the query has
    a [file] parameter, [None] when it has none; the three functions belong
    to [urllib.parse] and may raise. *)
Variable query_file : string -> Exn.res (option string).

(** The body of the [try] of the first fallback (l. 536-550). *)
Definition iframe_fallback (p : probe) (l : locals) : Exn.res locals :=
  n ← iframe_count p;
  if (0 <? n)%nat then
    iframe_src ← iframe_src p;
    match iframe_src with
    | Some src =>
        if negb (String.eqb src "") && Py.contains "fileId" src then
          q ← query_file src;
          match q with
          | Some file_url =>
              match Re.search fileId_pattern file_url with
              | Some caps =>
                  let file_id := Re.group caps 1 in
                  let plain_text := Py.contains "plainText=true" file_url in
                  Exn.Ok (mkLocals
                    (Py.VStr (API_BASE_URL
                       +:+ "Meetings/GetMeetingFileStream(fileId="
                       +:+ file_id +:+ ",plainText="
                       +:+ Py.lower (Py.str (Py.VBool plain_text)) +:+ ")"))
                    (Py.VStr file_id) plain_text)
              | None =>
                  Exn.Ok (mkLocals (Py.VStr file_url)
                            (l_file_id l) (l_plain_text l))
              end
          | None => Exn.Ok l
          end
        else Exn.Ok l
    | None => Exn.Ok l
    end
  else Exn.Ok l.

(** The handler of that [try] (l. 551-564): look for a download link, then
    settle on ["N/A"]. *)
Definition link_fallback (p : probe) (l : locals) : locals :=
  let l' :=
    Exn.rescue
      (n ← links_count p;
       if (0 <? n)%nat then
         href ← link_href p;
         let l1 := mkLocals (of_attribute href) (l_file_id l) (l_plain_text l) in
         Exn.Ok (Exn.rescue (printable_prefix (of_attribute href);; Exn.Ok l1) l1)
       else Exn.Ok l)
      l in
  if unresolved (l_download_url l')
  then mkLocals (Py.VStr "N/A") (l_file_id l') (l_plain_text l')
  else l'.

Definition fallbacks (p : probe) (l : locals) : locals :=
  if unresolved (l_download_url l) then
    match iframe_fallback p l with
    | Exn.Ok l' => l'
    | Exn.Raise => link_fallback p l
    end
  else l.

(** One turn of the menu loop of a primary file (l. 481-593). *)
Definition primary_menu_item
    (remote_file : option (gmap string Py.value)) (file_name : Py.value)
    (mi : menu_item) : Exn.M walk Exn.ctl :=
  Exn.catch
    (n ← Exn.lift (label_count mi);
     if (n =? 0)%nat then mret Exn.Next else
     t ← Exn.lift (label_text mi);
     file_type ← Exn.lift (stripped t);
     d ← Exn.lift (download_count mi);
     if (d =? 0)%nat then mret Exn.Next else
     download_elem_handle ← Exn.lift (download_handle mi);
     let item_handlers := inspect_button_handlers download_elem_handle in
     let menu_remote_file := reference_of item_handlers in
     let file_data := Py.or_dict menu_remote_file remote_file in
     let plain_text := Py.contains "Plain Text" file_type in
     let l0 :=
       match file_data with
       | Some fd =>
           if Py.truthy_dict file_data then
             let file_id := Py.get fd "fileId" in
             let file_type_code := Py.get_or fd "fileType" (Py.VInt 1) in
             let is_attachment := bool_decide (file_type_code = Py.VInt 3) in
             mkLocals (build_download_url file_data is_attachment plain_text)
                      file_id plain_text
           else mkLocals Py.VNone Py.VNone plain_text
       | None => mkLocals Py.VNone Py.VNone plain_text
       end in
     let l := fallbacks (fallback_probe mi) l0 in
     append
       (Data.mkFileInfo file_name file_type
          (Py.or_str (l_download_url l) "N/A")
          None
          (Some (l_file_id l))
          (Some (l_plain_text l))
          (Some (match file_data with
                 | Some fd =>
                     Py.truthy_dict file_data && Py.truthy (Py.get fd "streamUrl")
                 | None => false
                 end))
          None None None None None);;
     Exn.lift (close_click mi);;
     mret Exn.Break)
    (mret Exn.Next).

(** The inner [try] of a primary file (l. 427-597): from the trigger to
    the menu loop; its handler goes on with the next file. *)
Definition primary_trigger (e : primary_entry) (file_name : string)
  : Exn.M walk unit :=
  Exn.catch
    (n ← Exn.lift (pe_button_count e);
     if (n =? 0)%nat then
       append
         (Data.mkFileInfo (Py.VStr file_name) "Unknown" (Py.VStr "N/A")
            None None None None None None None None None)
     else
       download_btn_id ← Exn.lift (pe_button_id e);
       download_btn_handle ← Exn.lift (pe_button_handle e);
       let handlers := inspect_button_handlers download_btn_handle in
       r ← Exn.lift (primary_reference handlers (Py.VStr file_name));
       Exn.lift (pe_click e);;
       Exn.lift (pe_menu_visible e);;
       menu_items ← Exn.lift (pe_menu_items e);
       Exn.for_ menu_items (primary_menu_item (fst r) (snd r)))
    (mret tt).

(** One turn of the loop over the primary files (l. 416-597).  The [try]
    that opens the turn (l. 417) has no handler of its own in the source:
    what is raised while the name is read reaches the handler of the
    section. *)
Definition primary_file (e : primary_entry) : Exn.M walk Exn.ctl :=
  n ← Exn.lift (pe_name_count e);
  if (n =? 0)%nat then mret Exn.Next else
  t ← Exn.lift (pe_name_text e);
  file_name ← Exn.lift (stripped t);
  primary_trigger e file_name;;
  mret Exn.Next.

(** The primary section (l. 411-599). *)
Definition primary_section (p : page) : Exn.M walk unit :=
  Exn.catch
    (items ← Exn.lift (file_items p);
     Exn.for_ items primary_file)
    (mret tt).

(** One turn of the menu loop of an attachment (l. 684-758). *)
Definition attachment_menu_item
    (remote_file : option (gmap string Py.value)) (file_name : string)
    (download_btn_id : option string) (download_btn_type : string)
    (mi : menu_item) : Exn.M walk Exn.ctl :=
  Exn.catch
    (n ← Exn.lift (label_count mi);
     if (n =? 0)%nat then mret Exn.Next else
     t ← Exn.lift (label_text mi);
     file_type_text ← Exn.lift (stripped t);
     d ← Exn.lift (download_count mi);
     if (d =? 0)%nat then mret Exn.Next else
     download_elem_handle ← Exn.lift (download_handle mi);
     let item_handlers := inspect_button_handlers download_elem_handle in
     let menu_remote_file := reference_of item_handlers in
     let file_data := Py.or_dict menu_remote_file remote_file in
     let plain_text := Py.contains "Plain Text" file_type_text in
     let truthy_data := Py.truthy_dict file_data in
     let file_id :=
       match file_data with
       | Some fd => if truthy_data then Py.get fd "fileId" else Py.VNone
       | None => Py.VNone
       end in
     let file_type_code :=
       match file_data with
       | Some fd =>
           if truthy_data then Py.get_or fd "fileType" (Py.VInt 3)
           else Py.VInt 3
       | None => Py.VInt 3
       end in
     let is_attachment := bool_decide (file_type_code = Py.VInt 3) in
     download_url ←
       (if truthy_data then
          let u := build_download_url file_data is_attachment plain_text in
          Exn.lift (printable_prefix u);;
          mret u
        else mret Py.VNone);
     current_section ← get_section;
     append
       (Data.mkFileInfo (Py.VStr file_name) file_type_text
          (Py.or_str download_url "N/A")
          (Some current_section)
          (Some file_id)
          (Some plain_text)
          None
          (Some is_attachment)
          (Some download_btn_id)
          (Some download_btn_type)
          (Some file_name)
          (Some file_data));;
     mret Exn.Next)
    (mret Exn.Next).

(** The trigger of an attachment row and its menu (l. 644-769). *)
Definition attachment_trigger (e : attachment_entry) (file_name : string)
    (download_btn_type : string) : Exn.M walk unit :=
  download_btn_id ← Exn.lift (ae_button_id e);
  download_btn_handle ← Exn.lift (ae_button_handle e);
  let handlers := inspect_button_handlers download_btn_handle in
  let remote_file := reference_of handlers in
  Exn.lift (ae_click e);;
  Exn.catch
    (Exn.lift (ae_menu_visible e);;
     menu_items ← Exn.lift (ae_menu_items e);
     Exn.for_ menu_items
       (attachment_menu_item remote_file file_name
          download_btn_id download_btn_type);;
     Exn.lift (ae_close_click e))
    (mret tt).

(** The [else] of l. 770-777: a row without download button. *)
Definition attachment_without_trigger (file_name : string)
  : Exn.M walk Exn.ctl :=
  current_section ← get_section;
  append
    (Data.mkFileInfo (Py.VStr file_name) "Attachment" (Py.VStr "N/A")
       (Some current_section)
       None None None None None None None None);;
  mret Exn.Next.

(** The test of l. 643 once a button locator was chosen, and its two
    branches. *)
Definition attachment_with_button (e : attachment_entry) (file_name : string)
    (download_btn_type : string) : Exn.M walk Exn.ctl :=
  c ← Exn.lift (ae_button_recount e);
  if (0 <? c)%nat then
    attachment_trigger e file_name download_btn_type;;
    mret Exn.Next
  else attachment_without_trigger file_name.

(** A row that is not a section header (l. 623-777). *)
Definition attachment_file (e : attachment_entry) : Exn.M walk Exn.ctl :=
  n ← Exn.lift (ae_name_count e);
  if (n =? 0)%nat then mret Exn.Next else
  t ← Exn.lift (ae_name_text e);
  file_name ← Exn.lift (stripped t);
  r ← Exn.lift (ae_report_count e);
  download_btn_type ←
    (if (0 <? r)%nat then mret (Some "reportFiles")
     else
       a ← Exn.lift (ae_attach_count e);
       if (0 <? a)%nat then mret (Some "attachmentFiles") else mret None);
  match download_btn_type with
  | Some btn_type => attachment_with_button e file_name btn_type
  | None => attachment_without_trigger file_name
  end.

(** One turn of the loop over the attachment rows (l. 611-780). *)
Definition attachment_row (e : attachment_entry) : Exn.M walk Exn.ctl :=
  Exn.catch
    (h ← Exn.lift (ae_header_count e);
     is_header ←
       (if (0 <? h)%nat then
          section_text ← Exn.lift (ae_header_text e);
          match section_text with
          | Some s =>
              if negb (String.eqb s "") && negb (String.eqb (Py.strip s) "")
              then set_section (Some (Py.strip s));; mret true
              else mret false
          | None => mret false
          end
        else mret false);
     if is_header : bool then mret Exn.Next else attachment_file e)
    (mret Exn.Next).

(** The attachments section (l. 602-784). *)
Definition attachments_section (p : page) : Exn.M walk unit :=
  Exn.catch
    (Exn.lift (attachments_selector p);;
     items ← Exn.lift (all_items p);
     set_section None;;
     Exn.for_ items attachment_row)
    (mret tt).

(** [FirestoneScraper.scrape_meeting_files] (l. 381-787).  The two calls
    that report on the scripts of the page (l. 399-407) catch their own
    exceptions and only print. *)
Definition scrape_meeting_files (p : page) : Exn.res (list Data.file_info) :=
  match goto p with
  | Exn.Raise => Exn.Raise
  | Exn.Ok _ =>
      match files_selector p with
      | Exn.Raise => Exn.Ok []
      | Exn.Ok _ =>
          let w := snd ((primary_section p;; attachments_section p)
                          (mkWalk [] None)) in
          Exn.Ok (files w)
      end
  end.

End Walker.

(** *** The date-range filter ([base.py], l. 99-127) *)

(** [Scraper.filter_meetings_by_date_range].  A
    [date] object is always true, so [not start_date] tests for [None]. *)
Definition filter_meetings_by_date_range
    (meetings : list Data.meeting)
    (start_date end_date : option Datetime.date) : list Data.meeting :=
  if negb (bool_decide (is_Some start_date))
     && negb (bool_decide (is_Some end_date))
  then meetings
  else
    fold_left
      (fun filtered meeting =>
         match Data.date meeting with
         | None => filtered
         | Some meeting_date =>
             if match start_date with
                | Some s => Datetime.date_ltb meeting_date s
                | None => false
                end
             then filtered
             else if match end_date with
                     | Some e => Datetime.date_ltb e meeting_date
                     | None => false
                     end
             then filtered
             else filtered ++ [meeting]
         end)
      meetings [].

(** *** Saving a file under a safe name ([base.py], l. 236-261) *)

Section Names.

(** [str.isalnum] on a code point beyond ASCII. *)
Variable isalnum : N -> bool.

(** The pattern [[^\w\s-]]. *)
Definition unsafe_char : Re.regex :=
  Re.Cls (fun c => negb (Py.is_word isalnum c || Py.is_space c || (c =? 45)%N)).

(** The pattern [[-\s]+]. *)
Definition separators : Re.regex :=
  Re.Plus (fun c => (c =? 45)%N || Py.is_space c).

(** The two substitutions of l. 249-250, on the code points of the name. *)
Definition sanitize_points (file_name : list N) : list N :=
  let safe_name := Py.strip_points (Re.sub unsafe_char [] file_name) in
  Re.sub separators [45%N] safe_name.

Definition sanitize (file_name : string) : string :=
  Py.text (sanitize_points (Py.points file_name)).

(** The extension chosen at l. 241-246. *)
Definition extension (f : Data.file_info) : string :=
  if default false (Data.plain_text f) then ".txt"
  else if Py.endswith (Py.lower (Data.type_ f)) "pdf" then ".pdf"
  else ".pdf".

(** One turn of the loop of the direct fetch: the name of the file that is
    written, [None] when the record is skipped for want of a URL.  [re.sub]
    raises when the name is not a string. *)
Definition saved_filename (f : Data.file_info) : Exn.res (option string) :=
  let file_name := Data.name f in
  let url := Data.download_url f in
  if Py.truthy url && negb (bool_decide (url = Py.VStr "N/A")) then
    match file_name with
    | Py.VStr file_name => Exn.Ok (Some (sanitize file_name +:+ extension f))
    | _ => Exn.Raise
    end
  else Exn.Ok None.

End Names.

End Playwright.

(** ** The Selenium package

    The URL builder of [selenium_meeting_scraper/firestone.py] (l. 12-13,
    224-253), the date-range filter of [selenium_meeting_scraper/base.py]
    (l. 94-122) and the date extractor of [firestone.py] (l. 16-78). *)

Module Selenium.

Definition BASE_URL : string := "https://firestoneco.portal.civicclerk.com".
Definition API_BASE_URL : string := "https://firestoneco.api.civicclerk.com/v1/".

Definition build_download_url
    (remote_file : option (gmap string Py.value))
    (is_attachment plain_text : bool) : Py.value :=
  if negb (Py.truthy_dict remote_file) then Py.VNone else
  match remote_file with
  | None => Py.VNone
  | Some rf =>
      let file_id := Py.get rf "fileId" in
      if negb (Py.truthy file_id) then Py.VNone else
      let stream_url := Py.get rf "streamUrl" in
      if Py.truthy stream_url then stream_url else
      if is_attachment then
        Py.VStr (API_BASE_URL +:+ "Meetings/GetAttachmentFile(fileId="
                 +:+ Py.str file_id +:+ ")")
      else
        Py.VStr (API_BASE_URL +:+ "Meetings/GetMeetingFileStream(fileId="
                 +:+ Py.str file_id +:+ ",plainText="
                 +:+ Py.lower (Py.str (Py.VBool plain_text)) +:+ ")")
  end.

(** [Scraper.filter_meetings_by_date_range] *)
Definition filter_meetings_by_date_range
    (meetings : list Data.meeting)
    (start_date end_date : option Datetime.date) : list Data.meeting :=
  if negb (bool_decide (is_Some start_date))
     && negb (bool_decide (is_Some end_date))
  then meetings
  else
    fold_left
      (fun filtered meeting =>
         match Data.date meeting with
         | None => filtered
         | Some meeting_date =>
             if match start_date with
                | Some s => Datetime.date_ltb meeting_date s
                | None => false
                end
             then filtered
             else if match end_date with
                     | Some e => Datetime.date_ltb e meeting_date
                     | None => false
                     end
             then filtered
             else filtered ++ [meeting]
         end)
      meetings [].

(** *** The date of a meeting entry ([firestone.py], l. 16-78) *)

(** The link of a meeting entry, as the driver reports it.  The date block
    is reached by two [find_element] calls, which raise when the element
    is missing, and read through [.text], which is always a string. *)
Record link : Type := mkLink {
  data_date : Exn.res (option string);    (* get_attribute("data-date") *)
  aria_label : Exn.res (option string);   (* get_attribute("aria-label") *)
  h2_text : Exn.res string                (* l. 56-58, before [.strip()] *)
}.

(** The pattern [([A-Za-z]+),?\s+([A-Za-z]+)\.?\s+(\d+),?\s+(\d{4})]. *)
Definition aria_pattern : Re.regex :=
  Re.Cat (Re.Group (Re.Plus Py.is_alpha))
  (Re.Cat (Re.Opt (Re.Chr ","))
  (Re.Cat (Re.Plus Py.is_space)
  (Re.Cat (Re.Group (Re.Plus Py.is_alpha))
  (Re.Cat (Re.Opt (Re.Chr "."))
  (Re.Cat (Re.Plus Py.is_space)
  (Re.Cat (Re.Group (Re.Plus Py.is_digit))
  (Re.Cat (Re.Opt (Re.Chr ","))
  (Re.Cat (Re.Plus Py.is_space)
          (Re.Group (Re.Rep 4 Py.is_digit)))))))))).

(** The pattern [([A-Za-z]+)\s+(\d+),?\s+(\d{4})]. *)
Definition h2_pattern : Re.regex :=
  Re.Cat (Re.Group (Re.Plus Py.is_alpha))
  (Re.Cat (Re.Plus Py.is_space)
  (Re.Cat (Re.Group (Re.Plus Py.is_digit))
  (Re.Cat (Re.Opt (Re.Chr ","))
  (Re.Cat (Re.Plus Py.is_space)
          (Re.Group (Re.Rep 4 Py.is_digit)))))).

(** [month_map.get(key)] *)
Definition month_map (key : string) : option Z :=
  if String.eqb key "jan" then Some 1%Z
  else if String.eqb key "feb" then Some 2%Z
  else if String.eqb key "mar" then Some 3%Z
  else if String.eqb key "apr" then Some 4%Z
  else if String.eqb key "may" then Some 5%Z
  else if String.eqb key "jun" then Some 6%Z
  else if String.eqb key "jul" then Some 7%Z
  else if String.eqb key "aug" then Some 8%Z
  else if String.eqb key "sep" then Some 9%Z
  else if String.eqb key "oct" then Some 10%Z
  else if String.eqb key "nov" then Some 11%Z
  else if String.eqb key "dec" then Some 12%Z
  else None.

(** What follows a match (l. 41-52 and l. 62-72). *)
Definition date_of_parts (month_name day year : string)
  : Exn.res (option Datetime.date) :=
  match month_map (Py.take_str 3 (Py.lower month_name)) with
  | Some month =>
      match Datetime.make_date (Py.int year) month (Py.int day) with
      | Some d => Exn.Ok (Some d)
      | None => Exn.Raise
      end
  | None => Exn.Ok None
  end.

(** The second source (l. 36-52). *)
Definition date_of_aria_label (aria_label : string)
  : Exn.res (option Datetime.date) :=
  match Re.search aria_pattern aria_label with
  | Some m => date_of_parts (Re.group m 2) (Re.group m 3) (Re.group m 4)
  | None => Exn.Ok None
  end.

(** The body of the [try] of the third source (l. 56-72): the text is
    searched whether it is empty or not. *)
Definition date_of_h2 (l : link) : Exn.res (option Datetime.date) :=
  text ← h2_text l;
  let date_text := Py.strip text in
  match Re.search h2_pattern date_text with
  | Some m => date_of_parts (Re.group m 1) (Re.group m 2) (Re.group m 3)
  | None => Exn.Ok None
  end.

Section DateExtractor.

(** [datetime.fromisoformat(s).date()], [None] standing for the
    [ValueError] of a string that the library does not accept. *)
Variable fromisoformat : string -> option Datetime.date.

(** The first source (l. 26-33). *)
Definition date_of_timestamp (data_date : option string)
  : option Datetime.date :=
  match data_date with
  | Some s =>
      if negb (String.eqb s "")
      then fromisoformat (Py.replace_char "Z" "+00:00" s)
      else None
  | None => None
  end.

(** The second source (l. 36-52), which has no [try] of its own. *)
Definition date_of_label (aria_label : option string)
  : Exn.res (option Datetime.date) :=
  match aria_label with
  | Some a =>
      if negb (String.eqb a "") then date_of_aria_label a else Exn.Ok None
  | None => Exn.Ok None
  end.

(** The body of the outer [try] (l. 24-76). *)
Definition extract_meeting_date_body (link_element : link)
  : Exn.res (option Datetime.date) :=
  data_date ← data_date link_element;
  match date_of_timestamp data_date with
  | Some d => Exn.Ok (Some d)
  | None =>
      aria_label ← aria_label link_element;
      from_aria_label ← date_of_label aria_label;
      match from_aria_label with
      | Some d => Exn.Ok (Some d)
      | None => Exn.Ok (Exn.rescue (date_of_h2 link_element) None)
      end
  end.

(** [extract_meeting_date]: whatever the body raises gives [None]. *)
Definition extract_meeting_date (link_element : link) : option Datetime.date :=
  Exn.rescue (extract_meeting_date_body link_element) None.

End DateExtractor.

End Selenium.

(** ** The list of meetings

    [FirestoneScraper.scrape_meetings] of
    [playwright_meeting_scraper/firestone.py] (l. 271-378). *)

Module Listing.

(** An entry of the event list, as the driver reports it: each field is
    the outcome of one call, in the order in which the method makes them. *)
Record entry : Type := mkEntry {
  li_anchor_count : Exn.res nat;          (* li.locator("a[href]").count(), l. 303 *)
  li_link_count : Exn.res nat;            (* link.count(), l. 313 *)
  li_href : Exn.res (option string);      (* link.get_attribute("href") *)
  li_data_id : Exn.res (option string);   (* link.get_attribute("data-id") *)
  li_title_count : Exn.res nat;           (* title_element.count() *)
  li_title_text : Exn.res (option string);      (* title_element.text_content() *)
  li_link_text_test : Exn.res (option string);  (* link.text_content(), the test of l. 332 *)
  li_link_text : Exn.res (option string);       (* link.text_content(), the value of l. 332 *)
  li_link : Playwright.link               (* what extract_meeting_date reads *)
}.

(** The portal page. *)
Record portal : Type := mkPortal {
  pt_launch : Exn.res unit;               (* l. 273-276: browser, context, page *)
  pt_goto : Exn.res unit;                 (* l. 279 *)
  pt_table : Exn.res unit;                (* wait_for_selector("#event-list-table") *)
  pt_list : Exn.res unit;                 (* wait_for_selector("#Event-list") *)
  pt_first_item : Exn.res unit;           (* wait_for_selector of l. 291 *)
  pt_items : Exn.res (list entry);        (* all_li.count(), all_li.nth(i) *)
  pt_close : Exn.res unit                 (* l. 377-378 *)
}.

(** [bool(t)] for a text that is [None] or a string. *)
Definition nonempty (t : option string) : bool :=
  match t with
  | Some s => negb (String.eqb s "")
  | None => false
  end.

(** The title of an entry (l. 325-332): the fallback is taken when the
    [try] raises, not when the title element is missing. *)
Definition title_of (li : entry) : Exn.res string :=
  match
    (n ← li_title_count li;
     if (0 <? n)%nat then
       t ← li_title_text li;
       Playwright.stripped t
     else Exn.Ok "")
  with
  | Exn.Ok title => Exn.Ok title
  | Exn.Raise =>
      test ← li_link_text_test li;
      if nonempty test then
        t ← li_link_text li;
        Playwright.stripped t
      else Exn.Ok ""
  end.

Section Lister.

Variable fromisoformat : string -> option Datetime.date.

(** [urllib.parse.urljoin] *)
Variable urljoin : string -> string -> string.

(** The body of the [try] of one entry (l. 311-345): the meeting that is
    appended, [None] for a [continue]. *)
Definition meeting_of (li : entry) : Exn.res (option Data.meeting) :=
  n ← li_link_count li;
  if (n =? 0)%nat then Exn.Ok None else
  href ← li_href li;
  match href with
  | Some href =>
      if String.eqb href "" then Exn.Ok None else
      event_id ← li_data_id li;
      title ← title_of li;
      let meeting_date :=
        Playwright.extract_meeting_date fromisoformat (li_link li) in
      let full_url :=
        if negb (String.prefix "http" href)
        then urljoin Playwright.BASE_URL href else href in
      Exn.Ok (Some (Data.mkMeeting event_id title full_url href meeting_date))
  | None => Exn.Ok None
  end.

(** One turn of the loop of l. 309-348: what an entry raises is caught and
    the entry is left out. *)
Definition add_meeting (meetings : list Data.meeting) (li : entry)
  : list Data.meeting :=
  match meeting_of li with
  | Exn.Ok (Some m) => meetings ++ [m]
  | Exn.Ok None => meetings
  | Exn.Raise => meetings
  end.

(** One turn of the loop of l. 300-304, which no inner [try] guards. *)
Definition with_anchor (li_elements : Exn.res (list entry)) (li : entry)
  : Exn.res (list entry) :=
  li_elements ← li_elements;
  n ← li_anchor_count li;
  if (0 <? n)%nat then Exn.Ok (li_elements ++ [li]) else Exn.Ok li_elements.

(** [scrape_meetings]: whatever the [try] of l. 278 raises gives [[]]. *)
Definition scrape_meetings (p : portal) : Exn.res (list Data.meeting) :=
  pt_launch p;;
  let meetings :=
    Exn.rescue
      (pt_goto p;; pt_table p;; pt_list p;; pt_first_item p;;
       all_li ← pt_items p;
       li_elements ← fold_left with_anchor all_li (Exn.Ok []);
       Exn.Ok (fold_left add_meeting li_elements []))
      [] in
  pt_close p;;
  Exn.Ok meetings.

End Lister.

End Listing.

(** ** Meetings with their files

    [Scraper.scrape_meetings_with_files] of
    [playwright_meeting_scraper/base.py] (l. 129-279).  The two abstract
    methods that it calls are given by their outcomes.  The method of
    [selenium_meeting_scraper/base.py] (l. 124-279) has the same text but
    for the way in which the browser is started and closed. *)

Module Pipeline.

(** [meetings[-n:]] for [n > 0]: the last [n] elements, all of them when
    there are fewer. *)
Definition last_meetings {A} (n : Z) (meetings : list A) : list A :=
  drop (length meetings - Z.to_nat n) meetings.

(** The meetings that are processed (l. 145-187); [None] stands for an
    early [return []]. *)
Definition select_meetings (listed : Exn.res (list Data.meeting))
    (max_meetings : option Z) (start_date end_date : option Datetime.date)
  : option (list Data.meeting) :=
  match listed with
  | Exn.Raise => None
  | Exn.Ok [] => None
  | Exn.Ok meetings =>
      let bounded :=
        bool_decide (is_Some start_date) || bool_decide (is_Some end_date) in
      let meetings :=
        if bounded
        then Playwright.filter_meetings_by_date_range meetings start_date end_date
        else meetings in
      if bounded && (length meetings =? 0)%nat then None else
      match max_meetings with
      | Some n =>
          if (0 <? n)%Z then
            if (length meetings =? 0)%nat then None
            else Some (last_meetings n meetings)
          else Some meetings
      | None => Some meetings
      end
  end.

(** A meeting dict of the result: the [files] key is there once it was
    assigned. *)
Record scraped : Type := mkScraped {
  s_meeting : Data.meeting;
  s_files : option (list Data.file_info)
}.

(** What happens while one meeting is processed: each field is the outcome
    of one call. *)
Record visit : Type := mkVisit {
  v_files : Exn.res (list Data.file_info);   (* self.scrape_meeting_files(...) *)
  v_makedirs : Exn.res unit;                 (* os.makedirs(meeting_download_dir) *)
  v_click_download : Exn.res unit;           (* self._download_files_via_clicks(...) *)
  v_download_file : Py.value -> string -> bool;  (* self.download_file(url, filepath) *)
  v_getsize : string -> Exn.res unit         (* os.path.getsize(filepath) *)
}.

Record session : Type := mkSession {
  launch : Exn.res unit;                     (* l. 190-205 *)
  visit_at : nat -> visit;                   (* the turns of the loop of l. 208 *)
  close : Exn.res unit                       (* l. 276-277 *)
}.

(** The state of the loop: the meeting dicts and the calls of
    [download_file] made so far, each with its URL and its path. *)
Record run : Type := mkRun {
  r_meetings : list scraped;
  r_fetched : list (Py.value * string)
}.

(** [meeting['files'] = files] on the [i]-th meeting. *)
Definition set_files (i : nat) (files : list Data.file_info)
  : Exn.M run unit :=
  Exn.modify (fun r =>
    mkRun (alter (fun s => mkScraped (s_meeting s) (Some files)) i (r_meetings r))
          (r_fetched r)).

Definition fetch (url : Py.value) (filepath : string) : Exn.M run unit :=
  Exn.modify (fun r => mkRun (r_meetings r) (r_fetched r ++ [(url, filepath)])).

Section Processing.

(** [os.path.join] *)
Variable path_join : string -> string -> string.

(** [str.isalnum] on a code point beyond ASCII. *)
Variable isalnum : N -> bool.

(** One turn of the loop of the direct fetch (l. 236-261). *)
Definition direct_fetch (v : visit) (meeting_download_dir : string)
    (f : Data.file_info) : Exn.M run Exn.ctl :=
  filename ← Exn.lift (Playwright.saved_filename isalnum f);
  match filename with
  | Some filename =>
      let url := Data.download_url f in
      let filepath := path_join meeting_download_dir filename in
      fetch url filepath;;
      if v_download_file v url filepath
      then Exn.lift (v_getsize v filepath);; mret Exn.Next
      else mret Exn.Next
  | None => mret Exn.Next
  end.

(** One turn of the loop over the meetings (l. 208-267). *)
Definition meeting_turn (s : session) (download_files : bool)
    (download_dir : string) (use_click_download : bool)
    (im : nat * Data.meeting) : Exn.M run Exn.ctl :=
  let v := visit_at s (fst im) in
  found ←
    Exn.catch
      (files ← Exn.lift (v_files v);
       set_files (fst im) files;;
       mret (Some files))
      (set_files (fst im) [];;
       mret None);
  match found with
  | None => mret Exn.Next
  | Some files =>
      if download_files then
        let meeting_download_dir :=
          path_join download_dir
            ("event_"
             +:+ Py.str (Playwright.of_attribute (Data.event_id (snd im)))) in
        Exn.lift (v_makedirs v);;
        if use_click_download then
          Exn.lift (v_click_download v);;
          mret Exn.Next
        else
          Exn.for_ files (direct_fetch v meeting_download_dir);;
          mret Exn.Next
      else mret Exn.Next
  end.

(** The loop of l. 208-267 over the selected meetings, from dicts without
    a [files] key. *)
Definition process (s : session) (download_files : bool)
    (download_dir : string) (use_click_download : bool)
    (meetings : list Data.meeting) : Exn.res unit * run :=
  Exn.for_ (zip (seq 0 (length meetings)) meetings)
    (meeting_turn s download_files download_dir use_click_download)
    (mkRun (map (fun m => mkScraped m None) meetings) []).

(** [scrape_meetings_with_files]: the handler of l. 269 returns the
    meetings as they are when the loop raises. *)
Definition scrape_meetings_with_files
    (listed : Exn.res (list Data.meeting)) (s : session)
    (download_files : bool) (download_dir : string)
    (max_meetings : option Z) (start_date end_date : option Datetime.date)
    (use_click_download : bool) : Exn.res (list scraped) :=
  match select_meetings listed max_meetings start_date end_date with
  | None => Exn.Ok []
  | Some meetings =>
      launch s;;
      let r :=
        snd (process s download_files download_dir use_click_download
               meetings) in
      close s;;
      Exn.Ok (r_meetings r)
  end.

End Processing.

End Pipeline.

(** ** The command line ([scraper_cli.py]) *)

Module Cli.

Section Main.

(** [datetime.strptime(s, '%Y-%m-%d').date()], [None] standing for the
    [ValueError] of a string in another format. *)
Variable strptime : string -> option Datetime.date.

(** One bound of the range (l. 114-119, 121-126); [Raise] stands for the
    error message and the [return]. *)
Definition parse_bound (arg : option string) : Exn.res (option Datetime.date) :=
  match arg with
  | Some s =>
      if negb (String.eqb s "") then
        match strptime s with
        | Some d => Exn.Ok (Some d)
        | None => Exn.Raise
        end
      else Exn.Ok None
  | None => Exn.Ok None
  end.

(** The bounds with which [main] goes on (l. 111-130), [None] when it
    returns with an error message. *)
Definition parse_dates (start end_ : option string)
  : option (option Datetime.date * option Datetime.date) :=
  match parse_bound start with
  | Exn.Raise => None
  | Exn.Ok start_date =>
      match parse_bound end_ with
      | Exn.Raise => None
      | Exn.Ok end_date =>
          match start_date, end_date with
          | Some s, Some e =>
              if Datetime.date_ltb e s then None
              else Some (start_date, end_date)
          | _, _ => Some (start_date, end_date)
          end
      end
  end.

End Main.

(** The filter of the scraper class that l. 105-108 import.  The import
    of the Playwright package raises: the package has no [__init__.py]
    that would export the class, and its [firestone.py] does not parse
    (the [try] of l. 417 has no handler).  The Selenium package exports
    its class. *)
Definition filter_of (backend : string)
  : Exn.res (list Data.meeting -> option Datetime.date ->
             option Datetime.date -> list Data.meeting) :=
  if String.eqb backend "playwright" then Exn.Raise
  else Exn.Ok Selenium.filter_meetings_by_date_range.

(** The meetings that [--meetings-only] shows (l. 105-108, 137-149), from
    the list that [scrape_meetings] returns. *)
Definition meetings_only (backend : string) (meetings : list Data.meeting)
    (start_date end_date : option Datetime.date) (meeting_count : option Z)
  : Exn.res (list Data.meeting) :=
  filter_meetings_by_date_range ← filter_of backend;
  let meetings :=
    if bool_decide (is_Some start_date) || bool_decide (is_Some end_date)
    then filter_meetings_by_date_range meetings start_date end_date
    else meetings in
  match meeting_count with
  | Some n =>
      if (0 <? n)%Z then Exn.Ok (Pipeline.last_meetings n meetings)
      else Exn.Ok meetings
  | None => Exn.Ok meetings
  end.

End Cli.

(** ** The scripts of a page

    [get_js_source] of [playwright_meeting_scraper/firestone.py]
    (l. 80-109); the function of the Selenium package (l. 81-108) has the
    same body after the call of the driver. *)

Module Bundle.

(** An entry of the list that the browser hands back. *)
Record script_tag : Type := mkScriptTag {
  src : string;
  script_type : string;
  async : bool;
  defer : bool
}.

(** The loop of l. 100-104, which stops at the first match. *)
Fixpoint main_script (scripts : list script_tag) : option string :=
  match scripts with
  | [] => None
  | script :: scripts' =>
      if Py.contains "main." (src script) && Py.endswith (src script) ".js"
      then Some (src script)
      else main_script scripts'
  end.

(** [get_js_source]: [scripts] is the outcome of [page.evaluate]. *)
Definition get_js_source (scripts : Exn.res (list script_tag))
  : option string * list script_tag :=
  match scripts with
  | Exn.Ok scripts => (main_script scripts, scripts)
  | Exn.Raise => (None, [])
  end.

End Bundle.

(** ** Downloads by clicks

    [FirestoneScraper._download_files_via_clicks] of
    [playwright_meeting_scraper/firestone.py] (l. 789-932).  The clicks on
    the body that close a menu (l. 917-921, 927-931) are inside handlers
    that catch everything; the calls of [wait_for_timeout] and the
    registration of the download listener are left out. *)

Module ClickDownload.

(** A download button, as the driver reports it when it is clicked
    (l. 888-914). *)
Record button : Type := mkButton {
  bt_scroll : Exn.res unit;               (* scroll_into_view_if_needed() *)
  bt_click : Exn.res unit;                (* download_btn.click() *)
  bt_id : Exn.res (option string);        (* get_attribute("id") *)
  bt_menu_visible : Exn.res unit;         (* menu.wait_for(state="visible") *)
  bt_menu_count : Exn.res nat;            (* menu_items.count() *)
  bt_span_count : Exn.res nat;            (* download_span.count() *)
  bt_span_click : Exn.res unit            (* download_span.click() *)
}.

(** An item of the files list (l. 829-840). *)
Record main_item : Type := mkMainItem {
  it_name_count : Exn.res nat;
  it_name_text : Exn.res (option string);
  it_button_count : Exn.res nat;
  it_button : button
}.

(** A row of the attachments list (l. 851-878). *)
Record row : Type := mkRow {
  rw_header_count : Exn.res nat;
  rw_name_count : Exn.res nat;
  rw_name_text : Exn.res (option string);
  rw_attach_count : Exn.res nat;          (* button[data-testid='attachmentFiles'] *)
  rw_attach : button;
  rw_report_count : Exn.res nat;          (* button[data-testid='reportFiles'] *)
  rw_report : button
}.

Record files_page : Type := mkFilesPage {
  fp_goto : Exn.res unit;                 (* l. 795 *)
  fp_files : Exn.res unit;                (* wait_for_selector("#files") *)
  fp_attachments : Exn.res unit;          (* wait_for_selector("#AttachmentsList") *)
  fp_items : Exn.res (list main_item);    (* list_items.count(), .nth(i) *)
  fp_rows : Exn.res (list row)            (* all_items.count(), .nth(i) *)
}.

(** What is clicked: a download button, then the download entry of its
    menu. *)
Inductive event : Type :=
| Opened (file_name : string)
| Started (file_name : string).

(** The body of the [try] of a main item (l. 831-838): the pair that is
    appended, [None] when nothing is. *)
Definition main_button (it : main_item) : Exn.res (option (string * button)) :=
  n ← it_name_count it;
  if (n =? 0)%nat then Exn.Ok None else
  t ← it_name_text it;
  file_name ← Playwright.stripped t;
  c ← it_button_count it;
  if (0 <? c)%nat then Exn.Ok (Some (file_name, it_button it))
  else Exn.Ok None.

(** The body of the [try] of an attachment row (l. 853-876). *)
Definition attachment_button (rw : row) : Exn.res (option (string * button)) :=
  h ← rw_header_count rw;
  if (0 <? h)%nat then Exn.Ok None else
  n ← rw_name_count rw;
  if (n =? 0)%nat then Exn.Ok None else
  t ← rw_name_text rw;
  file_name ← Playwright.stripped t;
  if Py.contains "No Attachment File" file_name then Exn.Ok None else
  a ← rw_attach_count rw;
  if (0 <? a)%nat then Exn.Ok (Some (file_name, rw_attach rw)) else
  r ← rw_report_count rw;
  if (0 <? r)%nat then Exn.Ok (Some (file_name, rw_report rw))
  else Exn.Ok None.

(** One turn of a loop that collects buttons: what the body raises is
    caught and the turn appends nothing. *)
Definition collect {A} (body : A -> Exn.res (option (string * button)))
    (buttons : list (string * button)) (x : A) : list (string * button) :=
  match body x with
  | Exn.Ok (Some b) => buttons ++ [b]
  | Exn.Ok None => buttons
  | Exn.Raise => buttons
  end.

(** The buttons of the files list (l. 823-842) and of the attachments
    list (l. 845-880). *)
Definition main_files_buttons (p : files_page) : list (string * button) :=
  Exn.rescue
    (items ← fp_items p;
     Exn.Ok (fold_left (collect main_button) items []))
    [].

Definition attachment_buttons (p : files_page) : list (string * button) :=
  Exn.rescue
    (rows ← fp_rows p;
     Exn.Ok (fold_left (collect attachment_button) rows []))
    [].

Definition click (e : event) : Exn.M (list event) unit :=
  Exn.modify (fun log => log ++ [e]).

(** One turn of the loop of the clicks (l. 886-931). *)
Definition click_turn (b : string * button) : Exn.M (list event) Exn.ctl :=
  Exn.catch
    (Exn.lift (bt_scroll (snd b));;
     Exn.lift (bt_click (snd b));;
     click (Opened (fst b));;
     download_btn_id ← Exn.lift (bt_id (snd b));
     match download_btn_id with
     | Some id =>
         if negb (String.eqb id "") then
           Exn.lift (bt_menu_visible (snd b));;
           n ← Exn.lift (bt_menu_count (snd b));
           if (0 <? n)%nat then
             c ← Exn.lift (bt_span_count (snd b));
             if (0 <? c)%nat then
               Exn.lift (bt_span_click (snd b));;
               click (Started (fst b));;
               mret Exn.Next
             else mret Exn.Next
           else mret Exn.Next
         else mret Exn.Next
     | None => mret Exn.Next
     end)
    (mret Exn.Next).

(** [_download_files_via_clicks]: the clicks that are made.  What the
    navigation raises leaves the method; when a list does not appear the
    method returns without a click. *)
Definition download_files_via_clicks (p : files_page)
  : Exn.res unit * list event :=
  match fp_goto p with
  | Exn.Raise => (Exn.Raise, [])
  | Exn.Ok _ =>
      match (fp_files p;; fp_attachments p) with
      | Exn.Raise => (Exn.Ok tt, [])
      | Exn.Ok _ =>
          let all_buttons := main_files_buttons p ++ attachment_buttons p in
          Exn.for_ all_buttons click_turn []
      end
  end.

End ClickDownload.

(** ** The files page in the Selenium package

    The first section of [FirestoneScraper.scrape_meeting_files] of
    [selenium_meeting_scraper/firestone.py] (l. 467-640) and the menu
    loop of its second section (l. 718-784).  The driver raises where an
    element is missing; the inspector (l. 154-221) sends the script of
    [React.script] and catches what it raises. *)

Module SeleniumWalk.

Import Playwright.

(** [inspect_button_handlers(driver, element)] *)
Definition inspect_button_handlers (element : React.element)
  : option React.handlers :=
  if React.evaluate_throws element then None
  else Some (React.script element).

(** The page probes of the fallbacks (l. 568-593). *)
Record probe : Type := mkProbe {
  sp_iframe : Exn.res unit;                 (* find_element(By.ID, "pdfViewerIframe") *)
  sp_iframe_src : Exn.res (option string);  (* iframe.get_attribute("src") *)
  sp_links : Exn.res nat;                   (* len(find_elements(...)) *)
  sp_link_href : Exn.res (option string)    (* download_links[0].get_attribute('href') *)
}.

Record menu_item : Type := mkMenuItem {
  sm_label_text : Exn.res string;           (* find_element(...).text, l. 525 *)
  sm_download : Exn.res React.element;      (* find_element(...), l. 528 *)
  sm_probe : probe;
  sm_close_click : Exn.res unit             (* l. 620 *)
}.

Record primary_entry : Type := mkPrimaryEntry {
  se_name_text : Exn.res string;            (* find_element(...).text, l. 477-478 *)
  se_button : Exn.res React.element;        (* item.find_element(...), l. 482 *)
  se_button_id : Exn.res (option string);   (* get_attribute("id") *)
  se_click : Exn.res unit;
  se_menu : Exn.res unit;                   (* wait.until(...), l. 518 *)
  se_menu_items : Exn.res (list menu_item)  (* menu.find_elements(...) *)
}.

(** The reference found in the [handlers] of a menu item (l. 532-538). *)
Definition reference_of (handlers : option React.handlers)
  : option (gmap string Py.value) :=
  match handlers with
  | None => None
  | Some h =>
      if Py.truthy_dict (React.h_remoteFile h) then React.h_remoteFile h
      else if React.truthy_props (React.h_reactProps h) then
        match React.h_reactProps h with
        | Some props =>
            match React.remoteFile props with
            | Some v => py_of_js v
            | None => None
            end
        | None => None
        end
      else None
  end.

(** The reference and the name after the trigger was inspected
    (l. 489-511): [remote_file.get('name')] has no default here, and the
    props' reference is asked for its [streamUrl], which raises when it
    is [None]. *)
Definition primary_reference (handlers : option React.handlers)
    (file_name : Py.value)
  : Exn.res (option (gmap string Py.value) * Py.value) :=
  match handlers with
  | None => Exn.Ok (None, file_name)
  | Some h =>
      if Py.truthy_dict (React.h_remoteFile h) then
        match React.h_remoteFile h with
        | Some rf => Exn.Ok (Some rf, Py.get rf "name")
        | None => Exn.Ok (None, file_name)
        end
      else if React.truthy_props (React.h_reactProps h) then
        match React.h_reactProps h with
        | Some props =>
            match React.remoteFile props with
            | Some (React.JObject o) => Exn.Ok (Some o, file_name)
            | Some React.JNull => Exn.Raise
            | None => Exn.Ok (None, file_name)
            end
        | None => Exn.Ok (None, file_name)
        end
      else Exn.Ok (None, file_name)
  end.

(** [v[:80]] inside a [print]: slicing raises on a value that is not a
    string. *)
Definition prefix80 (v : Py.value) : Exn.res string :=
  match v with
  | Py.VStr s => Exn.Ok (Py.take_str 80 s)
  | _ => Exn.Raise
  end.

Section Walker.

(** [unquote(parse_qs(urlparse(src).query)["file"][0])] when the query has
    a [file] parameter, [None] when it has none. *)
Variable query_file : string -> Exn.res (option string).

(** The body of the [try] of the first fallback (l. 569-583). *)
Definition iframe_fallback (p : probe) (l : locals) : Exn.res locals :=
  sp_iframe p;;
  iframe_src ← sp_iframe_src p;
  match iframe_src with
  | Some src =>
      if negb (String.eqb src "") && Py.contains "fileId" src then
        q ← query_file src;
        match q with
        | Some file_url =>
            match Re.search fileId_pattern file_url with
            | Some caps =>
                let file_id := Re.group caps 1 in
                let plain_text := Py.contains "plainText=true" file_url in
                Exn.Ok (mkLocals
                  (Py.VStr (Selenium.API_BASE_URL
                     +:+ "Meetings/GetMeetingFileStream(fileId="
                     +:+ file_id +:+ ",plainText="
                     +:+ Py.lower (Py.str (Py.VBool plain_text)) +:+ ")"))
                  (Py.VStr file_id) plain_text)
            | None =>
                Exn.Ok (mkLocals (Py.VStr file_url)
                          (l_file_id l) (l_plain_text l))
            end
        | None => Exn.Ok l
        end
      else Exn.Ok l
  | None => Exn.Ok l
  end.

(** The handler of that [try] (l. 584-597). *)
Definition link_fallback (p : probe) (l : locals) : locals :=
  let l' :=
    Exn.rescue
      (n ← sp_links p;
       if (0 <? n)%nat then
         href ← sp_link_href p;
         let l1 := mkLocals (of_attribute href) (l_file_id l) (l_plain_text l) in
         Exn.Ok (Exn.rescue (prefix80 (of_attribute href);; Exn.Ok l1) l1)
       else Exn.Ok l)
      l in
  if unresolved (l_download_url l')
  then mkLocals (Py.VStr "N/A") (l_file_id l') (l_plain_text l')
  else l'.

Definition fallbacks (p : probe) (l : locals) : locals :=
  if unresolved (l_download_url l) then
    match iframe_fallback p l with
    | Exn.Ok l' => l'
    | Exn.Raise => link_fallback p l
    end
  else l.

(** One turn of the menu loop of a primary file (l. 523-626). *)
Definition primary_menu_item
    (remote_file : option (gmap string Py.value)) (file_name : Py.value)
    (mi : menu_item) : Exn.M walk Exn.ctl :=
  Exn.catch
    (t ← Exn.lift (sm_label_text mi);
     let file_type := Py.strip t in
     download_elem ← Exn.lift (sm_download mi);
     let item_handlers := inspect_button_handlers download_elem in
     let menu_remote_file := reference_of item_handlers in
     let file_data := Py.or_dict menu_remote_file remote_file in
     let plain_text := Py.contains "Plain Text" file_type in
     let l0 :=
       match file_data with
       | Some fd =>
           if Py.truthy_dict file_data then
             let file_id := Py.get fd "fileId" in
             let file_type_code := Py.get_or fd "fileType" (Py.VInt 1) in
             let is_attachment := bool_decide (file_type_code = Py.VInt 3) in
             mkLocals
               (Selenium.build_download_url file_data is_attachment plain_text)
               file_id plain_text
           else mkLocals Py.VNone Py.VNone plain_text
       | None => mkLocals Py.VNone Py.VNone plain_text
       end in
     let l := fallbacks (sm_probe mi) l0 in
     append
       (Data.mkFileInfo file_name file_type
          (Py.or_str (l_download_url l) "N/A")
          None
          (Some (l_file_id l))
          (Some (l_plain_text l))
          (Some (match file_data with
                 | Some fd =>
                     Py.truthy_dict file_data && Py.truthy (Py.get fd "streamUrl")
                 | None => false
                 end))
          None None None None None);;
     Exn.lift (sm_close_click mi);;
     mret Exn.Break)
    (mret Exn.Next).

(** The record of l. 630-634. *)
Definition unknown (file_name : Py.value) : Exn.M walk unit :=
  append
    (Data.mkFileInfo file_name "Unknown" (Py.VStr "N/A")
       None None None None None None None None None).

(** The inner [try] of a primary file (l. 481-634).  Its handler appends
    the record of a file without button under the name that [file_name]
    holds when the exception is raised: the displayed name before the
    payload was read, the name of the payload after. *)
Definition primary_trigger (e : primary_entry) (file_name : string)
  : Exn.M walk unit :=
  Exn.catch
    (download_btn ← Exn.lift (se_button e);
     download_btn_id ← Exn.lift (se_button_id e);
     let handlers := inspect_button_handlers download_btn in
     r ← Exn.lift (primary_reference handlers (Py.VStr file_name));
     Exn.catch
       (Exn.lift (se_click e);;
        Exn.lift (se_menu e);;
        menu_items ← Exn.lift (se_menu_items e);
        Exn.for_ menu_items (primary_menu_item (fst r) (snd r)))
       (unknown (snd r)))
    (unknown (Py.VStr file_name)).

(** One turn of the loop over the primary files (l. 474-638): the [try]
    of l. 475 has its handler at l. 636. *)
Definition primary_file (e : primary_entry) : Exn.M walk Exn.ctl :=
  Exn.catch
    (t ← Exn.lift (se_name_text e);
     let file_name := Py.strip t in
     primary_trigger e file_name;;
     mret Exn.Next)
    (mret Exn.Next).

(** The primary section (l. 470-640); [file_items] is the outcome of
    l. 471-472. *)
Definition primary_section (file_items : Exn.res (list primary_entry))
  : Exn.M walk unit :=
  Exn.catch
    (items ← Exn.lift file_items;
     Exn.for_ items primary_file)
    (mret tt).

End Walker.

(** One turn of the menu loop of an attachment (l. 718-784): the URL that
    was built is printed through [download_url[:80]] without a test. *)
Definition attachment_menu_item
    (remote_file : option (gmap string Py.value)) (file_name : string)
    (download_btn_id : option string) (download_btn_type : string)
    (mi : menu_item) : Exn.M walk Exn.ctl :=
  Exn.catch
    (t ← Exn.lift (sm_label_text mi);
     let file_type_text := Py.strip t in
     download_elem ← Exn.lift (sm_download mi);
     let item_handlers := inspect_button_handlers download_elem in
     let menu_remote_file := reference_of item_handlers in
     let file_data := Py.or_dict menu_remote_file remote_file in
     let plain_text := Py.contains "Plain Text" file_type_text in
     let truthy_data := Py.truthy_dict file_data in
     let file_id :=
       match file_data with
       | Some fd => if truthy_data then Py.get fd "fileId" else Py.VNone
       | None => Py.VNone
       end in
     let file_type_code :=
       match file_data with
       | Some fd =>
           if truthy_data then Py.get_or fd "fileType" (Py.VInt 3)
           else Py.VInt 3
       | None => Py.VInt 3
       end in
     let is_attachment := bool_decide (file_type_code = Py.VInt 3) in
     download_url ←
       (if truthy_data then
          let u := Selenium.build_download_url file_data is_attachment plain_text in
          Exn.lift (prefix80 u);;
          mret u
        else mret Py.VNone);
     current_section ← get_section;
     append
       (Data.mkFileInfo (Py.VStr file_name) file_type_text
          (Py.or_str download_url "N/A")
          (Some current_section)
          (Some file_id)
          (Some plain_text)
          None
          (Some is_attachment)
          (Some download_btn_id)
          (Some download_btn_type)
          (Some file_name)
          (Some file_data));;
     mret Exn.Next)
    (mret Exn.Next).

End SeleniumWalk.

(** ** The URL builder as the specification words it (section 4.3)

    A field of a reference is _present_ when the payload carries it with a
    non-empty value.  The three rules are applied in order. *)

Module UrlRules.

Definition present (ref : option (gmap string Py.value)) (k : string)
  : option Py.value :=
  match ref with
  | None => None
  | Some r =>
      match r !! k with
      | Some v => if Py.truthy v then Some v else None
      | None => None
      end
  end.

Definition attachment_url (id : Py.value) : string :=
  Playwright.API_BASE_URL +:+ "Meetings/GetAttachmentFile(fileId="
    +:+ Py.str id +:+ ")".

Definition stream_url (id : Py.value) (plain : bool) : string :=
  Playwright.API_BASE_URL +:+ "Meetings/GetMeetingFileStream(fileId="
    +:+ Py.str id +:+ ",plainText="
    +:+ (if plain then "true" else "false") +:+ ")".

Definition url_rules (ref : option (gmap string Py.value))
    (is_attachment is_plain_text : bool) : Py.value :=
  match present ref "fileId" with
  | None => Py.VNone                                   (* rule 1 *)
  | Some id =>
      match present ref "streamUrl" with
      | Some u => u                                    (* rule 2 *)
      | None =>                                        (* rule 3 *)
          if is_attachment then Py.VStr (attachment_url id)
          else Py.VStr (stream_url id is_plain_text)
      end
  end.

End UrlRules.

(** ** File name sanitization as the specification words it (section 4.5)

    Everything but word characters, white space and hyphens is stripped,
    then the runs of hyphens and white space are collapsed into single
    hyphens.  A name is the list of its code points. *)

Module FilenameRules.

Definition hyphen : N := 45.

Definition kept (isalnum : N -> bool) (c : N) : bool :=
  Py.is_word isalnum c || Py.is_space c || (c =? hyphen)%N.

Definition separator (c : N) : bool :=
  (c =? hyphen)%N || Py.is_space c.

Fixpoint keep_only (p : N -> bool) (s : list N) : list N :=
  match s with
  | [] => []
  | c :: s' => if p c then c :: keep_only p s' else keep_only p s'
  end.

(** Each maximal run of characters of the class [p] becomes one [r]. *)
Fixpoint collapse_runs (p : N -> bool) (r : N) (s : list N) : list N :=
  match s with
  | [] => []
  | c :: s' =>
      if p c then
        match s' with
        | c' :: _ =>
            if p c' then collapse_runs p r s'
            else r :: collapse_runs p r s'
        | [] => [r]
        end
      else c :: collapse_runs p r s'
  end.

(** What is left after the leading characters of the class [p]. *)
Fixpoint drop_class (p : N -> bool) (s : list N) : list N :=
  match s with
  | [] => []
  | c :: s' => if p c then drop_class p s' else s
  end.

(** The characters of the name as the specification describes it. *)
Definition strip_and_collapse (isalnum : N -> bool) (file_name : list N)
  : list N :=
  collapse_runs separator hyphen (keep_only (kept isalnum) file_name).

(** The characters of the name that is computed: white space at both ends
    goes after the first step. *)
Definition strip_trim_collapse (isalnum : N -> bool) (file_name : list N)
  : list N :=
  collapse_runs separator hyphen
    (Py.strip_points (keep_only (kept isalnum) file_name)).

Fixpoint all_chars (p : N -> bool) (s : list N) : bool :=
  match s with
  | [] => true
  | c :: s' => p c && all_chars p s'
  end.

(** Two characters [r] in a row. *)
Fixpoint doubled (r : N) (s : list N) : bool :=
  match s with
  | c :: (c' :: _) as s' => ((c =? r)%N && (c' =? r)%N) || doubled r s'
  | _ => false
  end.

Definition word_or_hyphen (isalnum : N -> bool) (c : N) : bool :=
  Py.is_word isalnum c || (c =? hyphen)%N.

End FilenameRules.

(** ** The date-range filter as a specification

    A meeting is in range when it has a date [d] with [start <= d] for a
    given start bound and [d <= end] for a given end bound. *)

Module DateRange.

Definition date_le (a b : Datetime.date) : Prop :=
  (Datetime.year a < Datetime.year b
   \/ (Datetime.year a = Datetime.year b
       /\ (Datetime.month a < Datetime.month b
           \/ (Datetime.month a = Datetime.month b
               /\ Datetime.day a <= Datetime.day b))))%Z.

#[global] Instance date_le_dec a b : Decision (date_le a b).
Proof. unfold date_le. apply _. Defined.

Definition in_bound_below (start : option Datetime.date) (d : Datetime.date)
  : Prop :=
  match start with Some s => date_le s d | None => True end.

Definition in_bound_above (stop : option Datetime.date) (d : Datetime.date)
  : Prop :=
  match stop with Some e => date_le d e | None => True end.

Definition in_range (start stop : option Datetime.date) (m : Data.meeting)
  : Prop :=
  match Data.date m with
  | Some d => in_bound_below start d /\ in_bound_above stop d
  | None => False
  end.

#[global] Instance in_range_dec start stop m : Decision (in_range start stop m).
Proof.
  unfold in_range, in_bound_below, in_bound_above.
  destruct (Data.date m), start, stop; apply _.
Defined.

(** One turn of the loop of the filter (l. 114-125). *)
Definition keep (start stop : option Datetime.date)
    (filtered : list Data.meeting) (m : Data.meeting) : list Data.meeting :=
  match Data.date m with
  | None => filtered
  | Some meeting_date =>
      if match start with
         | Some s => Datetime.date_ltb meeting_date s
         | None => false
         end
      then filtered
      else if match stop with
              | Some e => Datetime.date_ltb e meeting_date
              | None => false
              end
      then filtered
      else filtered ++ [m]
  end.

End DateRange.

(** ** Vocabulary for the properties of the walk *)

Module WalkSpec.

Import Exn Playwright.

(** The invariant of a file record: its [download_url] is a true value,
    hence neither [None] nor the empty string. *)
Definition settled (f : Data.file_info) : Prop :=
  Py.truthy (Data.download_url f) = true.




(** A computation that keeps a property of the [files] list, whether it
    returns or raises. *)
Definition keeps {A} (P : Data.file_info -> Prop) (m : M walk A) : Prop :=
  forall w, Forall P (files w) -> Forall P (files (snd (m w))).

(** *** Where a call raises *)

(** A computation that always returns. *)
Definition returns {A} (m : M walk A) : Prop :=
  forall w, exists a w', m w = (Ok a, w').

(** A turn of a loop that returns and leaves the walk as it was. *)
Definition skipped (m : M walk ctl) : Prop :=
  forall w, m w = (Ok Next, w).

(** A call made for the menu item raises before its record is built. *)
Definition item_fails (mi : menu_item) : bool :=
  match label_count mi with
  | Raise => true
  | Ok O => false
  | Ok (S _) =>
      match label_text mi with
      | Ok (Some _) =>
          match download_count mi with
          | Raise => true
          | Ok O => false
          | Ok (S _) =>
              match download_handle mi with
              | Raise => true
              | Ok _ => false
              end
          end
      | _ => true
      end
  end.

(** A call made for the trigger of a primary file raises before its menu
    is walked. *)
Definition trigger_fails (e : primary_entry) : bool :=
  match pe_button_count e with
  | Raise => true
  | Ok O => false
  | Ok (S _) =>
      match pe_button_id e, pe_button_handle e, pe_click e,
            pe_menu_visible e, pe_menu_items e with
      | Ok _, Ok _, Ok _, Ok _, Ok _ => false
      | _, _, _, _, _ => true
      end
  end.

(** A call made for the trigger of an attachment row raises before its
    menu is walked. *)
Definition row_trigger_fails (e : attachment_entry) : bool :=
  match ae_button_recount e with
  | Raise => true
  | Ok O => false
  | Ok (S _) =>
      match ae_button_id e, ae_button_handle e, ae_click e,
            ae_menu_visible e, ae_menu_items e with
      | Ok _, Ok _, Ok _, Ok _, Ok _ => false
      | _, _, _, _, _ => true
      end
  end.

(** A call made for a row that is not a header raises before its menu is
    walked. *)
Definition file_row_fails (e : attachment_entry) : bool :=
  match ae_name_count e with
  | Raise => true
  | Ok O => false
  | Ok (S _) =>
      match ae_name_text e with
      | Ok (Some _) =>
          match ae_report_count e with
          | Raise => true
          | Ok (S _) => row_trigger_fails e
          | Ok O =>
              match ae_attach_count e with
              | Raise => true
              | Ok (S _) => row_trigger_fails e
              | Ok O => false
              end
          end
      | _ => true
      end
  end.

(** A call made for an attachment row raises before its menu is walked. *)
Definition row_fails (e : attachment_entry) : bool :=
  match ae_header_count e with
  | Raise => true
  | Ok O => file_row_fails e
  | Ok (S _) =>
      match ae_header_text e with
      | Raise => true
      | Ok (Some t) =>
          if negb (String.eqb t "") && negb (String.eqb (Py.strip t) "")
          then false
          else file_row_fails e
      | Ok None => file_row_fails e
      end
  end.

(** The record of a primary file for which neither a reference nor a
    fallback gave a URL. *)
Definition unresolved_record (file_name file_type : string) : Data.file_info :=
  Data.mkFileInfo (Py.VStr file_name) file_type (Py.VStr "N/A")
    None (Some Py.VNone) (Some (Py.contains "Plain Text" file_type))
    (Some false) None None None None None.

(** Appending to the walk. *)
Definition extend (w : walk) (rs : list Data.file_info) : walk :=
  mkWalk (files w ++ rs) (current_section w).

(** *** What a page shows when no call raises *)


(** The label of a menu item, as the walk reads it. *)
Definition label (mi : menu_item) : string :=
  match label_text mi with
  | Ok (Some t) => Py.strip t
  | _ => ""
  end.












End WalkSpec.

(** ** Fixtures: small pages used in the examples below *)

Module Fixtures.

Import Exn React Playwright.

(** An element whose own fiber holds the payload [o]. *)
Definition element_with (o : gmap string Py.value) : element :=
  mkElement false [("data-testid", "downloadFileButton")] None
    [("__reactFiber$k3", Some (Child (mkNode None (Some (mkProps None true)) None)
                                 (Root (mkNode (Some "DownloadFileButton")
                                          (Some (mkProps (Some (JObject o)) true))
                                          None))))].

(** An element without React data. *)
Definition bare_element : element :=
  mkElement false [("data-testid", "files")] None [].

(** An element on which the inspection script throws. *)
Definition throwing_element : element :=
  mkElement true [("data-testid", "files")] None [].

(** A page state without preview frame and download links. *)
Definition no_probe : probe :=
  mkProbe (Ok 0%nat) (Ok None) (Ok 0%nat) (Ok None).

Definition item (label : string) (el : element) : menu_item :=
  mkMenuItem (Ok 1%nat) (Ok (Some label)) (Ok 1%nat) (Ok el) no_probe (Ok tt).

Definition primary (file_name : string) (btn : element) (items : list menu_item)
  : primary_entry :=
  mkPrimaryEntry (Ok 1%nat) (Ok (Some file_name)) (Ok 1%nat) (Ok (Some "btn"))
    (Ok btn) (Ok tt) (Ok tt) (Ok items).

Definition attachment (file_name : string) (btn : element)
    (items : list menu_item) : attachment_entry :=
  mkAttachmentEntry (Ok 0%nat) (Ok None) (Ok 1%nat) (Ok (Some file_name))
    (Ok 0%nat) (Ok 1%nat) (Ok 1%nat) (Ok (Some "att"))
    (Ok btn) (Ok tt) (Ok tt) (Ok items) (Ok tt).

Definition header (text : string) : attachment_entry :=
  mkAttachmentEntry (Ok 1%nat) (Ok (Some text)) (Ok 0%nat) (Ok None)
    (Ok 0%nat) (Ok 0%nat) (Ok 0%nat) (Ok None)
    (Ok bare_element) (Ok tt) (Ok tt) (Ok []) (Ok tt).

Definition files_page (ps : list primary_entry) (ats : list attachment_entry)
  : page :=
  mkPage (Ok tt) (Ok tt) (Ok ps) (Ok tt) (Ok ats).

Definition agenda_42 : gmap string Py.value :=
  {[ "fileId" := Py.VInt 42; "fileType" := Py.VInt 1;
     "name" := Py.VStr "Agenda" ]}.

Definition exhibit_7 : gmap string Py.value :=
  {[ "fileId" := Py.VInt 7; "fileType" := Py.VInt 3 ]}.

(** One primary file with one menu item and one attachment with two. *)
Definition fixture_page : page :=
  files_page
    [primary "Agenda" (element_with agenda_42)
       [item "PDF" (element_with agenda_42)]]
    [header "Exhibits";
     attachment "Exhibit A" (element_with exhibit_7)
       [item "PDF" (element_with exhibit_7);
        item "Plain Text" (element_with exhibit_7)]].




Definition minutes_43 : gmap string Py.value :=
  {[ "fileId" := Py.VInt 43; "fileType" := Py.VInt 1;
     "name" := Py.VStr "Minutes" ]}.

Definition packet_44 : gmap string Py.value :=
  {[ "fileId" := Py.VInt 44; "fileType" := Py.VInt 1;
     "name" := Py.VStr "Packet" ]}.

Definition first_file : primary_entry :=
  primary "Agenda" (element_with agenda_42) [item "PDF" (element_with agenda_42)].

Definition third_file : primary_entry :=
  primary "Packet" (element_with packet_44) [item "PDF" (element_with packet_44)].

(** Three primary files; reading the display name of the second raises
    (for instance a strict-mode violation of [text_content()]). *)
Definition name_fault_page : page :=
  files_page
    [first_file;
     mkPrimaryEntry (Ok 1%nat) Raise (Ok 1%nat) (Ok (Some "btn"))
       (Ok (element_with minutes_43)) (Ok tt) (Ok tt)
       (Ok [item "PDF" (element_with minutes_43)]);
     third_file]
    [].

(** Three rows of the attachments list; reading the display name of the
    second raises. *)
Definition row_name_fault_page : page :=
  files_page []
    [attachment "Exhibit A" (element_with exhibit_7)
       [item "PDF" (element_with exhibit_7)];
     mkAttachmentEntry (Ok 0%nat) (Ok None) (Ok 1%nat) Raise
       (Ok 0%nat) (Ok 1%nat) (Ok 1%nat) (Ok (Some "att"))
       (Ok (element_with exhibit_7)) (Ok tt) (Ok tt)
       (Ok [item "PDF" (element_with exhibit_7)]) (Ok tt);
     attachment "Exhibit C" (element_with exhibit_7)
       [item "PDF" (element_with exhibit_7)]].



(** A primary file for which taking the element handle of the trigger
    raises. *)
Definition handle_fault_file : primary_entry :=
  mkPrimaryEntry (Ok 1%nat) (Ok (Some "Minutes")) (Ok 1%nat) (Ok (Some "btn"))
    Raise (Ok tt) (Ok tt) (Ok [item "PDF" (element_with minutes_43)]).

Definition handle_fault_page : page :=
  files_page [first_file; handle_fault_file; third_file] [].

(** A primary file on whose trigger and menu item the inspection script
    throws. *)
Definition script_fault_file : primary_entry :=
  primary "Minutes" throwing_element [item "PDF" throwing_element].

Definition script_fault_page : page :=
  files_page [first_file; script_fault_file; third_file] [].

(** The entry of the docstring: an ISO timestamp, a label and a date
    block. *)
Definition dated_link : link :=
  mkLink (Ok (Some "2025-08-13T18:00:00Z"))
    (Ok (Some "Board of Trustees event on Wednesday, Aug. 13, 2025 6:00 PM"))
    (Ok (Some "Aug 13, 2025")).

(** An entry without timestamp whose label names a day that does not
    exist, while its date block is in order. *)
Definition misdated_link : link :=
  mkLink (Ok None)
    (Ok (Some "Budget hearing event on Sunday, Feb. 30, 2025 6:00 PM"))
    (Ok (Some "Mar 2, 2025")).

(** Four meetings, one of them without a date. *)
Definition m1 : Data.meeting :=
  Data.mkMeeting (Some "101") "Board of Trustees" "https://p/event/101"
    "/event/101" (Some (Datetime.mkDate 2025 8 13)).

Definition m2 : Data.meeting :=
  Data.mkMeeting (Some "102") "Planning Commission" "https://p/event/102"
    "/event/102" (Some (Datetime.mkDate 2025 9 3)).

Definition m3 : Data.meeting :=
  Data.mkMeeting (Some "103") "Work Session" "https://p/event/103"
    "/event/103" None.

Definition m4 : Data.meeting :=
  Data.mkMeeting (Some "104") "Retreat" "https://p/event/104"
    "/event/104" (Some (Datetime.mkDate 2025 12 1)).

(** Fibers without payload below a fiber that carries one. *)
Definition plain_node : node := mkNode None (Some (mkProps None true)) None.

Definition payload_node (o : gmap string Py.value) : node :=
  mkNode (Some "DownloadFileButton") (Some (mkProps (Some (JObject o)) true)) None.

Fixpoint tower (k : nat) (top : fiber) : fiber :=
  match k with
  | O => top
  | S k' => Child plain_node (tower k' top)
  end.

Definition file_42 : gmap string Py.value :=
  {[ "fileId" := Py.VInt 42; "fileType" := Py.VInt 1 ]}.

(** A trigger whose payload sits three levels above its own fiber. *)
Definition button_42 : element :=
  mkElement false [("data-testid", "files"); ("id", "btn-1")] None
    [("__reactProps$x", None);
     ("__reactFiber$x", Some (tower 3 (Root (payload_node file_42))))].

(** A record whose name ends in white space once the punctuation is
    removed. *)
Definition draft_minutes : Data.file_info :=
  Data.mkFileInfo (Py.VStr "Minutes (Draft) *") "PDF"
    (Py.VStr "https://firestoneco.api.civicclerk.com/v1/Meetings/GetMeetingFileStream(fileId=43,plainText=false)")
    None (Some (Py.VInt 43)) (Some false) (Some false)
    None None None None None.

(** The rows of the attachments list of [fixture_page]. *)
Definition exhibit_rows : list attachment_entry :=
  [header "Exhibits";
   attachment "Exhibit A" (element_with exhibit_7)
     [item "PDF" (element_with exhibit_7);
      item "Plain Text" (element_with exhibit_7)]].

(** A page whose attachments list never appears. *)
Definition primary_only_page : page :=
  mkPage (Ok tt) (Ok tt)
    (Ok [primary "Agenda" (element_with agenda_42)
           [item "PDF" (element_with agenda_42)]])
    Raise (Ok exhibit_rows).

(** A record whose name is made of punctuation and white space. *)
Definition starred_record : Data.file_info :=
  Data.mkFileInfo (Py.VStr "(***) ") "PDF"
    (Py.VStr "https://firestoneco.api.civicclerk.com/v1/Meetings/GetMeetingFileStream(fileId=45,plainText=false)")
    None (Some (Py.VInt 45)) (Some false) (Some false)
    None None None None None.

(** A record with a usable URL whose payload gave [None] as its name. *)
Definition unnamed_record : Data.file_info :=
  Data.mkFileInfo Py.VNone "PDF"
    (Py.VStr "https://firestoneco.api.civicclerk.com/v1/Meetings/GetMeetingFileStream(fileId=46,plainText=false)")
    None (Some (Py.VInt 46)) (Some false) (Some false)
    None None None None None.

(** A stand-in for [os.path.join] on relative paths. *)
Definition join (a b : string) : string := a +:+ "/" +:+ b.

(** A stand-in for [urljoin] on absolute paths of the portal. *)
Definition join_url (base href : string) : string := base +:+ href.

(** A turn of the pipeline in which nothing but, possibly, the scraping of
    the files raises, and every download succeeds. *)
Definition quiet_visit (found : res (list Data.file_info)) : Pipeline.visit :=
  Pipeline.mkVisit found (Ok tt) (Ok tt) (fun _ _ => true) (fun _ => Ok tt).

(** A browser session: the files of the second meeting cannot be
    scraped. *)
Definition second_fails : Pipeline.session :=
  Pipeline.mkSession (Ok tt)
    (fun i =>
       match i with
       | 0%nat => quiet_visit (Ok [draft_minutes])
       | 1%nat => quiet_visit Raise
       | _ => quiet_visit (Ok [starred_record])
       end)
    (Ok tt).

(** A browser session: the first meeting has a record without a name. *)
Definition first_unnamed : Pipeline.session :=
  Pipeline.mkSession (Ok tt)
    (fun i =>
       match i with
       | 0%nat => quiet_visit (Ok [draft_minutes; unnamed_record])
       | _ => quiet_visit (Ok [draft_minutes])
       end)
    (Ok tt).

(** Entries of the event list: a meeting, an entry whose address cannot be
    read, a subheader without anchor, an entry whose anchors cannot be
    counted. *)
Definition meeting_entry : Listing.entry :=
  Listing.mkEntry (Ok 1%nat) (Ok 1%nat) (Ok (Some "/event/101/files"))
    (Ok (Some "101")) (Ok 1%nat) (Ok (Some " Board of Trustees "))
    (Ok None) (Ok None) dated_link.

Definition broken_entry : Listing.entry :=
  Listing.mkEntry (Ok 1%nat) (Ok 1%nat) Raise
    (Ok (Some "102")) (Ok 1%nat) (Ok (Some "Planning Commission"))
    (Ok None) (Ok None) dated_link.

Definition subheader_entry : Listing.entry :=
  Listing.mkEntry (Ok 0%nat) (Ok 0%nat) (Ok None)
    (Ok None) (Ok 0%nat) (Ok None) (Ok None) (Ok None) dated_link.

Definition uncounted_entry : Listing.entry :=
  Listing.mkEntry Raise (Ok 1%nat) (Ok (Some "/event/103/files"))
    (Ok (Some "103")) (Ok 1%nat) (Ok (Some "Work Session"))
    (Ok None) (Ok None) dated_link.

Definition portal_with (items : list Listing.entry) : Listing.portal :=
  Listing.mkPortal (Ok tt) (Ok tt) (Ok tt) (Ok tt) (Ok tt) (Ok items) (Ok tt).

(** The meeting that [meeting_entry] gives when the library reads no
    timestamp: its date is the one of the label. *)
Definition listed_meeting : Data.meeting :=
  Data.mkMeeting (Some "101") "Board of Trustees"
    "https://firestoneco.portal.civicclerk.com/event/101/files"
    "/event/101/files" (Some (Datetime.mkDate 2025 8 13)).

(** Primary files as the Selenium driver reports them: one with a menu,
    one whose name element is missing, one without download button. *)
Definition selenium_item (label : string) (el : element)
  : SeleniumWalk.menu_item :=
  SeleniumWalk.mkMenuItem (Ok label) (Ok el)
    (SeleniumWalk.mkProbe Raise (Ok None) (Ok 0%nat) (Ok None)) (Ok tt).

Definition selenium_file (file_name : string) (o : gmap string Py.value)
  : SeleniumWalk.primary_entry :=
  SeleniumWalk.mkPrimaryEntry (Ok file_name) (Ok (element_with o))
    (Ok (Some "btn")) (Ok tt) (Ok tt)
    (Ok [selenium_item "PDF" (element_with o)]).

Definition selenium_nameless : SeleniumWalk.primary_entry :=
  SeleniumWalk.mkPrimaryEntry Raise (Ok (element_with minutes_43))
    (Ok (Some "btn")) (Ok tt) (Ok tt)
    (Ok [selenium_item "PDF" (element_with minutes_43)]).

Definition selenium_no_button : SeleniumWalk.primary_entry :=
  SeleniumWalk.mkPrimaryEntry (Ok " Minutes ") Raise
    (Ok None) (Ok tt) (Ok tt) (Ok []).

(** A payload without [fileType] and a payload without [fileId]. *)
Definition untyped_9 : gmap string Py.value :=
  {[ "fileId" := Py.VInt 9 ]}.

Definition idless : gmap string Py.value :=
  {[ "name" := Py.VStr "Exhibit B" ]}.

(** Download buttons for the click downloader: one that works and one
    whose menu does not become visible. *)
Definition working_button : ClickDownload.button :=
  ClickDownload.mkButton (Ok tt) (Ok tt) (Ok (Some "btn")) (Ok tt)
    (Ok 2%nat) (Ok 1%nat) (Ok tt).

Definition stuck_button : ClickDownload.button :=
  ClickDownload.mkButton (Ok tt) (Ok tt) (Ok (Some "btn")) Raise
    (Ok 2%nat) (Ok 1%nat) (Ok tt).

(** A files page for the click downloader: one main file, and an
    attachments list with a header, a placeholder row and a file. *)
Definition click_page : ClickDownload.files_page :=
  ClickDownload.mkFilesPage (Ok tt) (Ok tt) (Ok tt)
    (Ok [ClickDownload.mkMainItem (Ok 1%nat) (Ok (Some "Agenda")) (Ok 1%nat)
           stuck_button])
    (Ok [ClickDownload.mkRow (Ok 1%nat) (Ok 1%nat) (Ok (Some "Exhibits"))
           (Ok 0%nat) working_button (Ok 0%nat) working_button;
         ClickDownload.mkRow (Ok 0%nat) (Ok 1%nat)
           (Ok (Some "No Attachment File")) (Ok 1%nat) working_button
           (Ok 0%nat) working_button;
         ClickDownload.mkRow (Ok 0%nat) (Ok 1%nat) (Ok (Some " Exhibit A "))
           (Ok 0%nat) stuck_button (Ok 1%nat) working_button]).

(** A stand-in for [datetime.fromisoformat] that accepts nothing. *)
(** The alphanumeric code points of the Latin-1 supplement: the letters
    but for the two signs of multiplication and division, the ordinal
    indicators, the micro sign, and the superscripts and fractions. *)
Definition latin_alnum (c : N) : bool :=
  (c =? 170)%N || (c =? 178)%N || (c =? 179)%N || (c =? 181)%N
  || (c =? 185)%N || (c =? 186)%N || Py.between 188 190 c
  || Py.between 192 214 c || Py.between 216 246 c || Py.between 248 255 c.

Definition no_iso (s : string) : option Datetime.date := None.

(** A stand-in for the [urllib.parse] calls: the query has no [file]. *)
Definition no_query (src : string) : res (option string) := Ok None.

End Fixtures.

(** ** Vocabulary for the properties of the further code *)

(** *** File names *)

Module NameSpec.

(** A character that is neither a word character nor a hyphen: the first
    substitution removes it or, when it is white space, leaves it to the
    trimming and to the second substitution. *)
Definition dropped (isalnum : N -> bool) (c : N) : bool :=
  negb (FilenameRules.word_or_hyphen isalnum c).

(** A word character or a hyphen that is no white space.  No white space
    of Unicode is alphanumeric, so with the table of the runtime these are
    the word characters and the hyphen. *)
Definition solid (isalnum : N -> bool) (c : N) : bool :=
  FilenameRules.word_or_hyphen isalnum c && negb (Py.is_space c).

End NameSpec.

(** *** Sections of the attachments list *)

Module Tagging.

Import Exn Playwright.

(** A computation that only appends records with the property [P] and
    leaves the current section [s] as it is, whether it returns or
    raises. *)
Definition adds {A} (s : option string) (P : Data.file_info -> Prop)
    (m : M walk A) : Prop :=
  forall w, current_section w = s ->
    exists rs, snd (m w) = WalkSpec.extend w rs /\ Forall P rs.

(** A turn of a loop that, when it returns, goes on with the next
    element. *)
Definition goes_on (m : M walk ctl) : Prop :=
  forall w, fst (m w) = Ok Next \/ fst (m w) = Raise.

(** The text that a row sets as the current section, if the row is a
    header with a text that is not blank (l. 613-617). *)
Definition header_text (e : attachment_entry) : option string :=
  match ae_header_count e, ae_header_text e with
  | Ok (S _), Ok (Some t) =>
      if negb (String.eqb t "") && negb (String.eqb (Py.strip t) "")
      then Some (Py.strip t) else None
  | _, _ => None
  end.

(** The current section after a row. *)
Definition section_after (s : option string) (e : attachment_entry)
  : option string :=
  match header_text e with
  | Some t => Some t
  | None => s
  end.

(** The current section when the [i]-th row is reached. *)
Definition section_at (rows : list attachment_entry) (i : nat)
  : option string :=
  fold_left section_after (take i rows) None.

(** A record that carries the section [s]. *)
Definition tagged (s : option string) (f : Data.file_info) : Prop :=
  Data.section f = Some s.

(** The walk with the records [pre] before its own. *)
Definition shift (pre : list Data.file_info) (w : walk) : walk :=
  mkWalk (pre ++ files w) (current_section w).

(** A computation that does not look at the records made so far: with
    more records before, it ends in the same way and appends the same. *)
Definition framed {A} (m : M walk A) : Prop :=
  forall pre w, m (shift pre w) = (fst (m w), shift pre (snd (m w))).

(** The records of one row of the attachments list, when the row is
    reached with the current section [s]. *)
Definition row_records (e : attachment_entry) (s : option string)
  : list Data.file_info :=
  files (snd (attachment_row e (mkWalk [] s))).

End Tagging.

(** *** Invariants of a loop over a state *)

Module Invariants.

Import Exn.

(** A computation that keeps a property of the state, whether it returns
    or raises. *)
Definition preserves {S A} (I : S -> Prop) (m : M S A) : Prop :=
  forall st, I st -> I (snd (m st)).

End Invariants.

(** *** The meetings that are processed and the files that are fetched *)

Module PipelineSpec.

Import Pipeline.

(** The meetings among which the most recent are taken: those in the
    range when a bound is given, all of them otherwise. *)
Definition in_scope (meetings : list Data.meeting)
    (start_date end_date : option Datetime.date) : list Data.meeting :=
  if bool_decide (is_Some start_date) || bool_decide (is_Some end_date)
  then filter (DateRange.in_range start_date end_date) meetings
  else meetings.

(** The number of meetings that are left of [n] under a limit. *)
Definition capped (max_meetings : option Z) (n : nat) : nat :=
  match max_meetings with
  | Some k => if (0 <? k)%Z then Nat.min (Z.to_nat k) n else n
  | None => n
  end.

(** A meeting dict as [scrape_meetings] made it. *)
Definition fresh (m : Data.meeting) : scraped := mkScraped m None.

(** The files of the [i]-th meeting: none when scraping them raised. *)
Definition found_at (s : session) (i : nat) : list Data.file_info :=
  Exn.rescue (v_files (visit_at s i)) [].

(** A call of [download_file] that belongs to a record of a selected
    meeting: the record has a name that is a string and a usable URL, and
    the file goes to the directory of the meeting under the sanitized
    name. *)
Definition fetch_of (path_join : string -> string -> string)
    (isalnum : N -> bool) (s : session)
    (download_dir : string) (selected : list Data.meeting)
    (c : Py.value * string) : Prop :=
  exists i m files f name,
    selected !! i = Some m
    /\ v_files (visit_at s i) = Exn.Ok files
    /\ f ∈ files
    /\ Data.name f = Py.VStr name
    /\ Py.truthy (Data.download_url f) = true
    /\ Data.download_url f <> Py.VStr "N/A"
    /\ c = (Data.download_url f,
            path_join
              (path_join download_dir
                 ("event_"
                  +:+ Py.str (Playwright.of_attribute (Data.event_id m))))
              (Playwright.sanitize isalnum name
               +:+ (if default false (Data.plain_text f)
                    then ".txt" else ".pdf"))).

End PipelineSpec.

(** *** The entries of the event list *)

Module ListingSpec.

Import Exn Listing.

(** The anchors of the entry were counted. *)
Definition counted (li : entry) : bool :=
  match li_anchor_count li with
  | Ok _ => true
  | Raise => false
  end.

(** The entry has an anchor. *)
Definition has_anchor (li : entry) : bool :=
  match li_anchor_count li with
  | Ok (S _) => true
  | _ => false
  end.

(** The portal page loads and the browser starts and closes. *)
Definition reachable (p : portal) : Prop :=
  pt_launch p = Ok tt /\ pt_goto p = Ok tt /\ pt_table p = Ok tt
  /\ pt_list p = Ok tt /\ pt_first_item p = Ok tt /\ pt_close p = Ok tt.

(** A meeting with an address: its [href] is not empty and its [url] is
    the [href] itself when that starts with [http], the [href] joined to
    the base address otherwise. *)
Definition wellformed (urljoin : string -> string -> string)
    (m : Data.meeting) : Prop :=
  Data.href m <> ""
  /\ Data.url m
     = if String.prefix "http" (Data.href m) then Data.href m
       else urljoin Playwright.BASE_URL (Data.href m).

End ListingSpec.

(** *** Dates *)

Module DateSpec.

Import Exn.

(** The text of a date block as [text_content()] hands it back. *)
Definition as_content (t : res string) : res (option string) :=
  match t with
  | Ok s => Ok (Some s)
  | Raise => Raise
  end.

(** A day of the calendar. *)
Definition calendar_day (d : Datetime.date) : Prop :=
  (1 <= Datetime.year d <= 9999
   /\ 1 <= Datetime.month d <= 12
   /\ 1 <= Datetime.day d
      <= Datetime.days_in_month (Datetime.year d) (Datetime.month d))%Z.

End DateSpec.

(** *** The scripts of a page *)

Module BundleSpec.

(** A script whose address contains [main.] and ends in [.js]. *)
Definition is_bundle (t : Bundle.script_tag) : bool :=
  Py.contains "main." (Bundle.src t) && Py.endswith (Bundle.src t) ".js".

End BundleSpec.

(** *** The primary files in the Selenium package *)

Module SeleniumSpec.

Import Exn Playwright SeleniumWalk.

(** A computation that appends the same records and ends in the same way
    from every state of the walk. *)
Definition uniform {A} (m : M walk A) : Prop :=
  exists r rs, forall w, m w = (r, WalkSpec.extend w rs).

(** The records that a primary file gives rise to. *)
Definition records_of (query_file : string -> res (option string))
    (e : primary_entry) : list Data.file_info :=
  files (snd (primary_file query_file e (mkWalk [] None))).

(** A call made for the trigger raises before the menu loop. *)
Definition trigger_fails (e : primary_entry) : bool :=
  match se_button e with
  | Raise => true
  | Ok btn =>
      match se_button_id e with
      | Raise => true
      | Ok _ =>
          match primary_reference (inspect_button_handlers btn) Py.VNone with
          | Raise => true
          | Ok _ =>
              match se_click e, se_menu e, se_menu_items e with
              | Ok _, Ok _, Ok _ => false
              | _, _, _ => true
              end
          end
      end
  end.

End SeleniumSpec.

(** *** Downloads by clicks *)

Module ClickSpec.

Import Exn ClickDownload.

(** The clicks that one button gives rise to. *)
Definition events_of (b : string * button) : list event :=
  snd (click_turn b []).

(** The button that a row of the attachments list gives: the row is no
    header, its name is there, is read and does not say that there is no
    attachment file, and the button is the [attachmentFiles] button when
    the row has one, the [reportFiles] button when it has none of the
    first kind and one of the second.  Every call that is named returns. *)
Definition button_of_row (rw : row) (b : string * button) : Prop :=
  rw_header_count rw = Ok 0%nat
  /\ (exists n, rw_name_count rw = Ok (S n))
  /\ (exists t, rw_name_text rw = Ok (Some t) /\ fst b = Py.strip t)
  /\ Py.contains "No Attachment File" (fst b) = false
  /\ ((snd b = rw_attach rw /\ exists k, rw_attach_count rw = Ok (S k))
      \/ (snd b = rw_report rw /\ rw_attach_count rw = Ok 0%nat
          /\ exists k, rw_report_count rw = Ok (S k))).

End ClickSpec.

(** *** The command line *)

Module CliSpec.

(** The text of a bound that was given: an option that is absent or
    empty counts as not given. *)
Definition given (arg : option string) : option string :=
  match arg with
  | Some s => if String.eqb s "" then None else Some s
  | None => None
  end.

(** A bound that was given in a format that the library refuses. *)
Definition malformed (strptime : string -> option Datetime.date)
    (arg : option string) : Prop :=
  exists s, given arg = Some s /\ strptime s = None.

(** The date of a bound. *)
Definition bound_of (strptime : string -> option Datetime.date)
    (arg : option string) : option Datetime.date :=
  match given arg with
  | Some s => strptime s
  | None => None
  end.

End CliSpec.

(* ===================================================================== *)
(** * Part II: properties                                                 *)
(* ===================================================================== *)

(** ** Text and code points *)

Module TextFacts.

Example points_of_a_text :
  Py.points "Café – 😀" = [67; 97; 102; 233; 32; 8211; 32; 128512]%N.
Proof. reflexivity. Qed.

Example text_of_points :
  Py.text [67; 97; 102; 233; 32; 8211; 32; 128512]%N = "Café – 😀".
Proof. reflexivity. Qed.

Example strip_of_a_text : Py.strip "  Café  " = "Café".
Proof. reflexivity. Qed.

Lemma bytes_app a b : Py.bytes (a ++ b) = Py.bytes a +:+ Py.bytes b.
Proof. induction a as [|n a IH]; simpl; [done|]. by rewrite IH. Qed.

Lemma text_cons c l : Py.text (c :: l) = Py.bytes (Py.encode c) +:+ Py.text l.
Proof. unfold Py.text. simpl. by rewrite bytes_app. Qed.

Lemma between_spec lo hi n : Py.between lo hi n = true <-> (lo <= n <= hi)%N.
Proof. unfold Py.between. rewrite andb_true_iff, !N.leb_le. tauto. Qed.

Lemma byte_lt (b : ascii) : (N_of_ascii b < 256)%N.
Proof. apply N_ascii_bounded. Qed.

Lemma encode_escape n : (n < 256)%N -> Py.encode (Py.escape n) = [n].
Proof.
  intros Hn. unfold Py.escape, Py.encode.
  destruct (N.ltb_spec n 128); [destruct (N.ltb_spec n 128); [done|lia]|].
  destruct (N.ltb_spec (56320 + n) 128); [lia|].
  destruct (N.ltb_spec (56320 + n) 2048); [lia|].
  assert (Py.between 56448 56575 (56320 + n) = true) as ->
    by (apply between_spec; lia).
  f_equal. lia.
Qed.

Lemma split_at m q r :
  (r < m)%N -> ((q * m + r) / m = q /\ (q * m + r) mod m = r)%N.
Proof.
  intros Hr. split.
  - rewrite N.div_add_l by lia. rewrite N.div_small by lia. lia.
  - rewrite N.add_comm, N.Div0.mod_add. by apply N.mod_small.
Qed.

Lemma point2_encode n0 n1 c :
  Py.point2 n0 n1 = Some c -> Py.encode c = [n0; n1].
Proof.
  unfold Py.point2, Py.continuation.
  destruct (Py.between 194 223 n0) eqn:H0; [|done].
  destruct (Py.between 128 191 n1) eqn:H1; [|done].
  apply between_spec in H0, H1. simpl. intros [= <-].
  unfold Py.encode.
  destruct (split_at 64 (n0 - 192) (n1 - 128)) as [Hd Hm]; [lia|].
  destruct (N.ltb_spec ((n0 - 192) * 64 + (n1 - 128)) 128); [lia|].
  destruct (N.ltb_spec ((n0 - 192) * 64 + (n1 - 128)) 2048); [|lia].
  rewrite Hd, Hm. f_equal; [lia|]. f_equal. lia.
Qed.

Lemma point3_encode n0 n1 n2 c :
  Py.point3 n0 n1 n2 = Some c -> Py.encode c = [n0; n1; n2].
Proof.
  unfold Py.point3, Py.continuation.
  destruct (Py.between 224 239 n0) eqn:H0; [|done].
  destruct (Py.between 128 191 n1) eqn:H1; [|done].
  destruct (Py.between 128 191 n2) eqn:H2; [|done].
  apply between_spec in H0, H1, H2. cbn [andb].
  set (a := (n0 - 224)%N). set (b := (n1 - 128)%N). set (d := (n2 - 128)%N).
  assert (a <= 15 /\ b < 64 /\ d < 64)%N as (Ha & Hb & Hd) by lia.
  destruct (N.leb_spec 2048 (a * 4096 + b * 64 + d)) as [Hlo|]; [|done].
  destruct (Py.between 55296 57343 (a * 4096 + b * 64 + d)) eqn:Hs; [done|].
  simpl. intros [= <-]. unfold Py.encode.
  destruct (N.ltb_spec (a * 4096 + b * 64 + d) 128); [lia|].
  destruct (N.ltb_spec (a * 4096 + b * 64 + d) 2048); [lia|].
  assert (Py.between 56448 56575 (a * 4096 + b * 64 + d) = false) as ->.
  { apply not_true_is_false. intros Hx. apply between_spec in Hx.
    apply not_true_iff_false in Hs. apply Hs. apply between_spec. lia. }
  destruct (N.ltb_spec (a * 4096 + b * 64 + d) 65536); [|lia].
  destruct (split_at 4096 a (b * 64 + d)) as [Hq1 _]; [lia|].
  destruct (split_at 64 (a * 64 + b) d) as [Hq2 Hm2]; [lia|].
  destruct (split_at 64 a b) as [_ Hm3]; [lia|].
  replace (a * 4096 + b * 64 + d)%N with (a * 4096 + (b * 64 + d))%N at 1 by lia.
  rewrite Hq1.
  replace (a * 4096 + b * 64 + d)%N with ((a * 64 + b) * 64 + d)%N by lia.
  rewrite Hq2, Hm2, Hm3.
  f_equal; [lia|]. f_equal; [lia|]. f_equal. lia.
Qed.

Lemma point4_encode n0 n1 n2 n3 c :
  Py.point4 n0 n1 n2 n3 = Some c -> Py.encode c = [n0; n1; n2; n3].
Proof.
  unfold Py.point4, Py.continuation.
  destruct (Py.between 240 244 n0) eqn:H0; [|done].
  destruct (Py.between 128 191 n1) eqn:H1; [|done].
  destruct (Py.between 128 191 n2) eqn:H2; [|done].
  destruct (Py.between 128 191 n3) eqn:H3; [|done].
  apply between_spec in H0, H1, H2, H3. cbn [andb].
  set (a := (n0 - 240)%N). set (b := (n1 - 128)%N).
  set (e := (n2 - 128)%N). set (d := (n3 - 128)%N).
  assert (a <= 4 /\ b < 64 /\ e < 64 /\ d < 64)%N as (Ha & Hb & He & Hd) by lia.
  destruct (Py.between 65536 1114111 (a * 262144 + b * 4096 + e * 64 + d))
    eqn:Hr; [|done].
  apply between_spec in Hr.
  intros [= <-]. unfold Py.encode.
  destruct (N.ltb_spec (a * 262144 + b * 4096 + e * 64 + d) 128); [lia|].
  destruct (N.ltb_spec (a * 262144 + b * 4096 + e * 64 + d) 2048); [lia|].
  assert (Py.between 56448 56575 (a * 262144 + b * 4096 + e * 64 + d) = false)
    as ->.
  { apply not_true_is_false. intros Hx. apply between_spec in Hx. lia. }
  destruct (N.ltb_spec (a * 262144 + b * 4096 + e * 64 + d) 65536); [lia|].
  destruct (split_at 262144 a (b * 4096 + e * 64 + d)) as [Hq1 _]; [lia|].
  destruct (split_at 4096 (a * 64 + b) (e * 64 + d)) as [Hq2 _]; [lia|].
  destruct (split_at 64 a b) as [_ Hm2]; [lia|].
  destruct (split_at 64 ((a * 64 + b) * 64 + e) d) as [Hq3 Hm4]; [lia|].
  destruct (split_at 64 (a * 64 + b) e) as [_ Hm3]; [lia|].
  replace (a * 262144 + b * 4096 + e * 64 + d)%N
    with (a * 262144 + (b * 4096 + e * 64 + d))%N at 1 by lia.
  rewrite Hq1.
  replace (a * 262144 + b * 4096 + e * 64 + d)%N
    with ((a * 64 + b) * 4096 + (e * 64 + d))%N at 1 by lia.
  rewrite Hq2, Hm2.
  replace (a * 262144 + b * 4096 + e * 64 + d)%N
    with (((a * 64 + b) * 64 + e) * 64 + d)%N by lia.
  rewrite Hq3, Hm4, Hm3.
  f_equal; [lia|]. f_equal; [lia|]. f_equal; [lia|]. f_equal. lia.
Qed.

Lemma bytes_of_ascii (b : ascii) s :
  String (ascii_of_N (N_of_ascii b)) s = String b s.
Proof. by rewrite ascii_N_embedding. Qed.

Lemma text_points_bounded n s :
  (String.length s <= n)%nat -> Py.text (Py.points s) = s.
Proof.
  revert s. induction n as [|n IH]; intros s Hn.
  - destruct s; [done|simpl in Hn; lia].
  - destruct s as [|b0 s0]; [done|]. simpl in Hn.
    assert (forall t, (String.length t <= String.length s0)%nat ->
                      Py.text (Py.points t) = t) as IH'.
    { intros t Ht. apply IH. lia. }
    assert (Py.text (Py.escape (N_of_ascii b0) :: Py.points s0) = String b0 s0)
      as Hesc.
    { rewrite text_cons, encode_escape by apply byte_lt. simpl.
      by rewrite ascii_N_embedding, IH'. }
    cbn [Py.points].
    destruct s0 as [|b1 s1].
    { rewrite text_cons, encode_escape by apply byte_lt. simpl.
      by rewrite ascii_N_embedding. }
    destruct (Py.point2 (N_of_ascii b0) (N_of_ascii b1)) as [c|] eqn:E2.
    { rewrite text_cons, (point2_encode _ _ _ E2). simpl.
      rewrite !ascii_N_embedding, IH'; [done|simpl; lia]. }
    destruct s1 as [|b2 s2]; [exact Hesc|].
    destruct (Py.point3 (N_of_ascii b0) (N_of_ascii b1) (N_of_ascii b2))
      as [c|] eqn:E3.
    { rewrite text_cons, (point3_encode _ _ _ _ E3). simpl.
      rewrite !ascii_N_embedding, IH'; [done|simpl; lia]. }
    destruct s2 as [|b3 s3]; [exact Hesc|].
    destruct (Py.point4 (N_of_ascii b0) (N_of_ascii b1) (N_of_ascii b2)
                (N_of_ascii b3)) as [c|] eqn:E4; [|exact Hesc].
    rewrite text_cons, (point4_encode _ _ _ _ _ E4). simpl.
    rewrite !ascii_N_embedding, IH'; [done|simpl; lia].
Qed.

(** No byte is lost: the string of the code points of a string is that
    string. *)
Lemma text_points s : Py.text (Py.points s) = s.
Proof. by apply (text_points_bounded (String.length s)). Qed.

End TextFacts.

(** ** URL builder *)

Module UrlBuilderFacts.

Import Py.

Example build_attachment_123 :
  Playwright.build_download_url
    (Some {[ "fileId" := VInt 123 ]}) true false
  = VStr "https://firestoneco.api.civicclerk.com/v1/Meetings/GetAttachmentFile(fileId=123)".
Proof. vm_compute. reflexivity. Qed.

Example build_stream_123 :
  Playwright.build_download_url
    (Some {[ "fileId" := VInt 123 ]}) false true
  = VStr "https://firestoneco.api.civicclerk.com/v1/Meetings/GetMeetingFileStream(fileId=123,plainText=true)".
Proof. vm_compute. reflexivity. Qed.

Lemma truthy_dict_lookup (rf : gmap string value) k v :
  rf !! k = Some v -> truthy_dict (Some rf) = true.
Proof.
  intros H. unfold truthy_dict. rewrite bool_decide_eq_false_2; [done|].
  intros ->. by rewrite lookup_empty in H.
Qed.

Lemma truthy_get_lookup (rf : gmap string value) k :
  truthy (get rf k) = true -> rf !! k = Some (get rf k).
Proof.
  unfold get. destruct (rf !! k) as [v|]; simpl; [done|discriminate].
Qed.

(** C1, as stated, fails: a reference that carries a [streamUrl] but no
    [fileId] yields no value, because the missing-id test comes first. *)
Lemma stream_url_without_file_id_counterexample :
  let rf : gmap string value :=
    {[ "streamUrl" := VStr "https://blob.example/agenda.pdf?sig=1" ]} in
  get rf "streamUrl" = VStr "https://blob.example/agenda.pdf?sig=1"
  /\ Playwright.build_download_url (Some rf) false false = VNone
  /\ Playwright.build_download_url (Some rf) false false
     <> get rf "streamUrl".
Proof. vm_compute. repeat split; discriminate. Qed.

(** C1 (amended): for every reference whose [fileId] and [streamUrl] are
    both present (non-empty), both backends' [build_download_url] return
    that [streamUrl] exactly, whatever the [is_attachment] and
    [plain_text] flags are. *)
Theorem stream_url_precedence
    (rf : gmap string value) (is_attachment plain_text : bool) :
  truthy (get rf "fileId") = true ->
  truthy (get rf "streamUrl") = true ->
  Playwright.build_download_url (Some rf) is_attachment plain_text
    = get rf "streamUrl"
  /\ Selenium.build_download_url (Some rf) is_attachment plain_text
    = get rf "streamUrl".
Proof.
  intros Hid Hurl.
  pose proof (truthy_dict_lookup _ _ _ (truthy_get_lookup _ _ Hid)) as Hd.
  unfold Playwright.build_download_url, Selenium.build_download_url.
  rewrite Hd, Hid, Hurl. simpl. split; reflexivity.
Qed.

Lemma stream_url_precedence_witness :
  let rf : gmap string value :=
    {[ "fileId" := VInt 42;
       "streamUrl" := VStr "https://blob.example/agenda.pdf?sig=1" ]} in
  Playwright.build_download_url (Some rf) true false
    = VStr "https://blob.example/agenda.pdf?sig=1"
  /\ Selenium.build_download_url (Some rf) false true
    = VStr "https://blob.example/agenda.pdf?sig=1".
Proof.
  intros rf.
  destruct (stream_url_precedence rf true false) as [H1 _];
    [vm_compute; reflexivity | vm_compute; reflexivity |].
  destruct (stream_url_precedence rf false true) as [_ H2];
    [vm_compute; reflexivity | vm_compute; reflexivity |].
  split; [rewrite H1 | rewrite H2]; vm_compute; reflexivity.
Defined.

(** C2: [build_download_url] coincides, on every input, with the three
    rules of the specification applied in order: no [fileId] gives no
    value; otherwise a present [streamUrl] is returned verbatim; otherwise
    the API base is followed by [Meetings/GetAttachmentFile(fileId=<id>)]
    for an attachment and by
    [Meetings/GetMeetingFileStream(fileId=<id>,plainText=<true|false>)]
    with the boolean in lower case.  The function is a total pure
    function: it has a value on every input. *)
Theorem build_download_url_follows_rules
    (ref : option (gmap string value)) (is_attachment is_plain_text : bool) :
  Playwright.build_download_url ref is_attachment is_plain_text
  = UrlRules.url_rules ref is_attachment is_plain_text.
Proof.
  unfold Playwright.build_download_url, UrlRules.url_rules, UrlRules.present.
  destruct ref as [rf|]; [|reflexivity].
  unfold truthy_dict.
  destruct (decide (rf = ∅)) as [->|Hne].
  - rewrite bool_decide_eq_true_2 by done. simpl.
    by rewrite lookup_empty.
  - rewrite bool_decide_eq_false_2 by done. simpl.
    unfold get.
    destruct (rf !! "fileId") as [fid|]; simpl; [|reflexivity].
    destruct (truthy fid); simpl; [|reflexivity].
    destruct (rf !! "streamUrl") as [u|]; simpl.
    + destruct (truthy u); simpl; [reflexivity|].
      destruct is_attachment; [reflexivity|].
      by destruct is_plain_text.
    + destruct is_attachment; [reflexivity|].
      by destruct is_plain_text.
Qed.

(** C9: the Selenium and the Playwright URL builders are extensionally
    equal, and they use the same API base prefix. *)
Theorem backends_build_same_url
    (ref : option (gmap string value)) (is_attachment is_plain_text : bool) :
  Selenium.build_download_url ref is_attachment is_plain_text
  = Playwright.build_download_url ref is_attachment is_plain_text
  /\ Selenium.API_BASE_URL = Playwright.API_BASE_URL.
Proof. split; reflexivity. Qed.

End UrlBuilderFacts.

(** ** Date-range filter *)

Module DateRangeFacts.

Import Datetime DateRange Fixtures.

Lemma date_ltb_not_le (a b : date) :
  date_ltb a b = true <-> ~ date_le b a.
Proof.
  unfold date_ltb, date_le. destruct a as [ya ma da], b as [yb mb db]. simpl.
  rewrite orb_true_iff, andb_true_iff, orb_true_iff, andb_true_iff.
  rewrite !Z.ltb_lt, !Z.eqb_eq. lia.
Qed.

Lemma keep_filter start stop acc m :
  keep start stop acc m = acc ++ filter (in_range start stop) [m].
Proof.
  unfold keep. rewrite filter_cons, filter_nil.
  destruct (decide (in_range start stop m)) as [Hin|Hout];
    unfold in_range, in_bound_below, in_bound_above in *;
    destruct (Data.date m) as [d|]; try done; try by rewrite app_nil_r.
  - destruct Hin as [Hs He].
    destruct start as [s|].
    + destruct (date_ltb d s) eqn:E; [apply date_ltb_not_le in E; done|].
      destruct stop as [e|]; [|done].
      destruct (date_ltb e d) eqn:E'; [apply date_ltb_not_le in E'; done|done].
    + destruct stop as [e|]; [|done].
      destruct (date_ltb e d) eqn:E'; [apply date_ltb_not_le in E'; done|done].
  - rewrite app_nil_r.
    destruct start as [s|].
    + destruct (date_ltb d s) eqn:E; [done|].
      assert (date_le s d) as Hs.
      { destruct (decide (date_le s d)); [done|].
        apply date_ltb_not_le in n. congruence. }
      destruct stop as [e|]; [|tauto].
      destruct (date_ltb e d) eqn:E'; [done|].
      exfalso. apply Hout. split; [done|].
      destruct (decide (date_le d e)); [done|].
      apply date_ltb_not_le in n. congruence.
    + destruct stop as [e|]; [|tauto].
      destruct (date_ltb e d) eqn:E'; [done|].
      exfalso. apply Hout. split; [done|].
      destruct (decide (date_le d e)); [done|].
      apply date_ltb_not_le in n. congruence.
Qed.

Lemma fold_keep_filter start stop ms acc :
  fold_left (keep start stop) ms acc = acc ++ filter (in_range start stop) ms.
Proof.
  revert acc. induction ms as [|m ms IH]; intros acc; simpl.
  - by rewrite filter_nil, app_nil_r.
  - rewrite IH, keep_filter, <- app_assoc. f_equal.
    by rewrite <- filter_app.
Qed.

Lemma playwright_filter_unfold ms start stop :
  Playwright.filter_meetings_by_date_range ms start stop
  = if negb (bool_decide (is_Some start)) && negb (bool_decide (is_Some stop))
    then ms else fold_left (keep start stop) ms [].
Proof. reflexivity. Qed.

Example filter_fixture :
  Playwright.filter_meetings_by_date_range [m1; m3; m4; m2]
    (Some (mkDate 2025 8 13)) (Some (mkDate 2025 9 30)) = [m1; m2].
Proof. reflexivity. Qed.

Example filter_no_bounds :
  Playwright.filter_meetings_by_date_range [m1; m3; m4; m2] None None
  = [m1; m3; m4; m2].
Proof. reflexivity. Qed.

(** C10: [filter_meetings_by_date_range] returns its input unchanged
    when neither bound is given.  When at least one bound is given it
    returns, in the original order, exactly the meetings that have a date
    [d] with [start_date <= d] (if a start bound is given) and
    [d <= end_date] (if an end bound is given); so the result is a
    subsequence of the input and contains no meeting without a date.  The
    Selenium base class computes the same function. *)
Theorem filter_meetings_by_date_range_correct
    (meetings : list Data.meeting) (start_date end_date : option date) :
  Playwright.filter_meetings_by_date_range meetings None None = meetings
  /\ (is_Some start_date \/ is_Some end_date ->
      Playwright.filter_meetings_by_date_range meetings start_date end_date
        = filter (in_range start_date end_date) meetings
      /\ Playwright.filter_meetings_by_date_range meetings start_date end_date
           `sublist_of` meetings
      /\ forall m,
           m ∈ Playwright.filter_meetings_by_date_range
                 meetings start_date end_date ->
           Data.date m <> None)
  /\ Selenium.filter_meetings_by_date_range meetings start_date end_date
     = Playwright.filter_meetings_by_date_range meetings start_date end_date.
Proof.
  split; [reflexivity|]. split; [|reflexivity].
  intros Hbound.
  assert (Playwright.filter_meetings_by_date_range meetings start_date end_date
          = filter (in_range start_date end_date) meetings) as Heq.
  { rewrite playwright_filter_unfold.
    destruct Hbound as [[s ->]|[e ->]].
    - rewrite (bool_decide_eq_true_2 (is_Some (Some s))) by eauto. simpl.
      by rewrite fold_keep_filter.
    - rewrite (bool_decide_eq_true_2 (is_Some (Some e))) by eauto.
      rewrite andb_false_r.
      by rewrite fold_keep_filter. }
  rewrite Heq. split; [reflexivity|]. split.
  - apply sublist_filter.
  - intros m Hm. apply list_elem_of_filter in Hm as [Hin _].
    unfold in_range in Hin. by destruct (Data.date m).
Qed.

Lemma filter_meetings_by_date_range_correct_witness :
  Playwright.filter_meetings_by_date_range [m1; m3; m4; m2]
    (Some (mkDate 2025 8 13)) None
  = filter (in_range (Some (mkDate 2025 8 13)) None) [m1; m3; m4; m2].
Proof.
  destruct (filter_meetings_by_date_range_correct [m1; m3; m4; m2]
              (Some (mkDate 2025 8 13)) None) as (_ & H & _).
  destruct H as (Heq & _ & _); [left; eexists; reflexivity|].
  exact Heq.
Defined.

End DateRangeFacts.

(** ** Component inspector *)

Module InspectorFacts.

Import React Fixtures.

Lemma find_from_depth (f : fiber) (depth : nat) :
  findComponentWithRemoteFile f depth
  = head (omap memoized_remoteFile (take (11 - depth) (chain f))).
Proof.
  revert depth. induction f as [n|n parent IH]; intros depth; simpl.
  - destruct (10 <? depth)%nat eqn:E.
    + apply Nat.ltb_lt in E. by replace (11 - depth)%nat with 0%nat by lia.
    + apply Nat.ltb_ge in E.
      destruct (11 - depth)%nat as [|k] eqn:Ek; [lia|]. simpl.
      case_bool_decide; destruct (memoized_remoteFile n); try done;
        by rewrite take_nil.
  - destruct (10 <? depth)%nat eqn:E.
    + apply Nat.ltb_lt in E. by replace (11 - depth)%nat with 0%nat by lia.
    + apply Nat.ltb_ge in E.
      destruct (11 - depth)%nat as [|k] eqn:Ek; [lia|]. simpl.
      replace k with (11 - S depth)%nat by lia.
      case_bool_decide; destruct (memoized_remoteFile n); simpl; try done;
        apply IH.
Qed.

Lemma head_omap_first {A B} (g : A -> option B) (l : list A) d n rf :
  l !! d = Some n ->
  g n = Some rf ->
  (forall j m, (j < d)%nat -> l !! j = Some m -> g m = None) ->
  head (omap g l) = Some rf.
Proof.
  revert d. induction l as [|x l IH]; intros d Hd Hg Hbefore; [done|].
  destruct d as [|d]; simpl in *.
  - injection Hd as ->. by rewrite Hg.
  - rewrite (Hbefore 0%nat x) by (done || lia).
    apply (IH d); [done..|].
    intros j m Hj Hm. apply (Hbefore (S j) m); [lia|done].
Qed.

Lemma head_omap_none {A B} (g : A -> option B) (l : list A) :
  (forall j m, l !! j = Some m -> g m = None) ->
  head (omap g l) = None.
Proof.
  induction l as [|x l IH]; intros Hall; [done|]. simpl.
  rewrite (Hall 0%nat x) by done.
  apply IH. intros j m Hm. by apply (Hall (S j) m).
Qed.

Example found_at_depth_10 :
  findComponentWithRemoteFile (tower 10 (Root (payload_node file_42))) 0
  = Some file_42.
Proof. reflexivity. Qed.

Example not_found_at_depth_11 :
  findComponentWithRemoteFile (tower 11 (Root (payload_node file_42))) 0
  = None.
Proof. reflexivity. Qed.

(** C6: for every element whose fiber is located (and on which the script
    runs), the inspector's upward walk returns the first [remoteFile]
    payload along the parent chain, looking at the element's own fiber
    (depth 0) and at most ten ancestors (depths 1 to 10).  If none of these
    carries a payload the result is no value, not an error; and the result
    does not depend on any ancestor beyond depth 10. *)
Theorem ancestor_walk_capped (el : element) (f : fiber) :
  evaluate_throws el = false ->
  findReactFiber el = Some f ->
  exists h,
    Playwright.inspect_button_handlers el = Some h
    /\ h_remoteFile h = findComponentWithRemoteFile f 0
    /\ (forall d n rf,
          (d <= 10)%nat ->
          chain f !! d = Some n ->
          memoized_remoteFile n = Some rf ->
          (forall j m, (j < d)%nat -> chain f !! j = Some m ->
                       memoized_remoteFile m = None) ->
          h_remoteFile h = Some rf)
    /\ ((forall j m, (j <= 10)%nat -> chain f !! j = Some m ->
                     memoized_remoteFile m = None) ->
        h_remoteFile h = None)
    /\ (forall f',
          take 11 (chain f') = take 11 (chain f) ->
          findComponentWithRemoteFile f' 0 = h_remoteFile h).
Proof.
  intros Hev Hfib.
  unfold Playwright.inspect_button_handlers. rewrite Hev.
  eexists. split; [reflexivity|].
  unfold script. rewrite Hfib. simpl.
  rewrite !find_from_depth. simpl (11 - 0)%nat.
  split; [reflexivity|]. split; [|split].
  - intros d n rf Hd Hn Hrf Hbefore.
    apply (head_omap_first _ _ d n); [|done|].
    + rewrite lookup_take_lt by lia. done.
    + intros j m Hj Hm. apply lookup_take_Some in Hm as [Hm _].
      by apply (Hbefore j).
  - intros Hnone. apply head_omap_none.
    intros j m Hm. apply lookup_take_Some in Hm as [Hm Hj].
    apply (Hnone j); [lia|done].
  - intros f' Heq. rewrite find_from_depth.
    change (11 - 0)%nat with 11%nat. by rewrite Heq.
Qed.

Lemma ancestor_walk_capped_witness :
  exists h,
    Playwright.inspect_button_handlers button_42 = Some h
    /\ h_remoteFile h = Some file_42.
Proof.
  destruct (ancestor_walk_capped button_42
              (tower 3 (Root (payload_node file_42))))
    as (h & Hh & _ & Hfirst & _); [reflexivity | reflexivity |].
  exists h. split; [exact Hh|].
  apply (Hfirst 3%nat (payload_node file_42) file_42); [lia | reflexivity | reflexivity |].
  intros j m Hj Hm.
  destruct j as [|[|[|j]]]; [injection Hm as <-; reflexivity .. | lia].
Defined.

End InspectorFacts.

(** ** File page walker *)

Module WalkerFacts.

Import Exn Playwright WalkSpec.

(** *** Rules for [keeps] *)

Section Keeps.

Context (P : Data.file_info -> Prop).

Lemma keeps_ret {A} (a : A) : keeps P (mret a).
Proof. intros w Hw. exact Hw. Qed.

Lemma keeps_lift {A} (r : res A) : keeps P (lift r).
Proof. intros w Hw. exact Hw. Qed.

Lemma keeps_bind {A B} (m : M walk A) (f : A -> M walk B) :
  keeps P m -> (forall a, keeps P (f a)) -> keeps P (m ≫= f).
Proof.
  intros Hm Hf w Hw. unfold mbind, M_bind.
  specialize (Hm w Hw). destruct (m w) as [[a|] w']; simpl in *.
  - by apply Hf.
  - done.
Qed.

Lemma keeps_catch {A} (m h : M walk A) :
  keeps P m -> keeps P h -> keeps P (catch m h).
Proof.
  intros Hm Hh w Hw. unfold catch.
  specialize (Hm w Hw). destruct (m w) as [[a|] w']; simpl in *.
  - done.
  - by apply Hh.
Qed.

Lemma keeps_for {A} (l : list A) (body : A -> M walk ctl) :
  (forall x, keeps P (body x)) -> keeps P (for_ l body).
Proof.
  intros Hbody. induction l as [|x l IH]; simpl.
  - apply keeps_ret.
  - apply keeps_bind; [apply Hbody|]. intros [|]; [exact IH | apply keeps_ret].
Qed.

Lemma keeps_append (f : Data.file_info) : P f -> keeps P (append f).
Proof.
  intros Hf w Hw. simpl. apply Forall_app. split; [done|]. by constructor.
Qed.

Lemma keeps_set_section (s : option string) : keeps P (set_section s).
Proof. intros w Hw. exact Hw. Qed.

Lemma keeps_get_section : keeps P get_section.
Proof. intros w Hw. exact Hw. Qed.

End Keeps.

Ltac keeps_step :=
  lazymatch goal with
  | |- keeps _ (mret _) => apply keeps_ret
  | |- keeps _ (lift _) => apply keeps_lift
  | |- keeps _ (set_section _) => apply keeps_set_section
  | |- keeps _ get_section => apply keeps_get_section
  | |- keeps _ (catch _ _) => apply keeps_catch
  | |- keeps _ (for_ _ _) => apply keeps_for; intros ?
  | |- keeps _ (_ ≫= _) => apply keeps_bind; [|intros ?]
  | |- keeps _ (append _) => apply keeps_append
  | |- keeps _ (if ?b then _ else _) => destruct b
  | |- keeps _ (match ?x with _ => _ end) => destruct x
  end.

Lemma or_str_truthy (v : Py.value) (s : string) :
  s <> "" -> Py.truthy (Py.or_str v s) = true.
Proof.
  intros Hs. unfold Py.or_str. destruct (Py.truthy v) eqn:E; [done|].
  simpl. by destruct s.
Qed.


(** *** The invariant of the records *)





Section Provenance.

Variable query_file : string -> res (option string).









End Provenance.




(** *** The walk over a calm page *)






Lemma extend_nil w : extend w [] = w.
Proof. destruct w. unfold extend. simpl. by rewrite app_nil_r. Qed.

Lemma extend_app w rs1 rs2 : extend (extend w rs1) rs2 = extend w (rs1 ++ rs2).
Proof. unfold extend. simpl. by rewrite app_assoc. Qed.













(** *** Exceptions inside the walk *)

Lemma catch_returns {A} (m h : M walk A) : returns h -> returns (catch m h).
Proof.
  intros Hh w. unfold catch. destruct (m w) as [[a|] w']; [by eexists _, _|].
  apply Hh.
Qed.

Lemma ret_returns {A} (a : A) : returns (mret a : M walk A).
Proof. intros w. by eexists _, _. Qed.

(** What is raised inside the handlers of l. 591, 595, 756, 763 and 779
    does not leave the turn of the loop. *)
Lemma guarded_turns_return qf :
  (forall rf fn mi, returns (primary_menu_item qf rf fn mi))
  /\ (forall e fn, returns (primary_trigger qf e fn))
  /\ (forall rf fn id ty mi, returns (attachment_menu_item rf fn id ty mi))
  /\ (forall e, returns (attachment_row e))
  /\ (forall p, returns (primary_section qf p))
  /\ (forall p, returns (attachments_section p)).
Proof.
  repeat split; intros; apply catch_returns, ret_returns.
Qed.

(** The walk returns a list unless the navigation itself raises. *)
Lemma scrape_returns qf p :
  goto p = Ok tt -> exists fs, scrape_meeting_files qf p = Ok fs.
Proof.
  unfold scrape_meeting_files. intros ->.
  destruct (files_selector p); by eexists.
Qed.

(** A turn that changes nothing can be left out of the loop. *)
Lemma for_skip {A} (body : A -> M walk ctl) pre x post w :
  (forall w', body x w' = (Ok Next, w')) ->
  for_ (pre ++ x :: post) body w = for_ (pre ++ post) body w.
Proof.
  intros Hx. revert w. induction pre as [|y pre IH]; intros w; simpl.
  - unfold mbind, M_bind. by rewrite Hx.
  - unfold mbind, M_bind. destruct (body y w) as [[[|]|] w']; [apply IH|done..].
Qed.

(** A primary file whose name is read and whose trigger handling raises
    before the menu loop is skipped. *)
Lemma primary_trigger_failure_skips qf e n t :
  pe_name_count e = Ok (S n) ->
  pe_name_text e = Ok (Some t) ->
  trigger_fails e = true ->
  skipped (primary_file qf e).
Proof.
  unfold primary_file, primary_trigger, trigger_fails. intros -> -> H w.
  unfold mbind, M_bind, catch, lift. simpl.
  destruct (pe_button_count e) as [[|b]|]; [discriminate| |reflexivity]. simpl.
  destruct (pe_button_id e); [|reflexivity].
  destruct (pe_button_handle e); [|reflexivity].
  destruct (primary_reference _ _); [|reflexivity].
  destruct (pe_click e); [|reflexivity].
  destruct (pe_menu_visible e); [|reflexivity].
  destruct (pe_menu_items e); [discriminate|reflexivity].
Qed.

Lemma item_failure_skips_primary qf rf fn mi :
  item_fails mi = true -> skipped (primary_menu_item qf rf fn mi).
Proof.
  unfold item_fails, primary_menu_item. intros H w.
  unfold mbind, M_bind, catch, lift.
  destruct (label_count mi) as [[|n]|]; [discriminate| |reflexivity]. simpl.
  destruct (label_text mi) as [[t|]|]; [|reflexivity..]. simpl.
  destruct (download_count mi) as [[|d]|]; [discriminate| |reflexivity]. simpl.
  destruct (download_handle mi); [discriminate|reflexivity].
Qed.

Lemma item_failure_skips_attachment rf fn id ty mi :
  item_fails mi = true -> skipped (attachment_menu_item rf fn id ty mi).
Proof.
  unfold item_fails, attachment_menu_item. intros H w.
  unfold mbind, M_bind, catch, lift.
  destruct (label_count mi) as [[|n]|]; [discriminate| |reflexivity]. simpl.
  destruct (label_text mi) as [[t|]|]; [|reflexivity..]. simpl.
  destruct (download_count mi) as [[|d]|]; [discriminate| |reflexivity]. simpl.
  destruct (download_handle mi); [discriminate|reflexivity].
Qed.

Lemma row_trigger_failure e t ty w :
  row_trigger_fails e = true ->
  attachment_with_button e t ty w = (Raise, w)
  \/ attachment_with_button e t ty w = (Ok Next, w).
Proof.
  unfold row_trigger_fails, attachment_with_button, attachment_trigger.
  unfold mbind, M_bind, catch, lift.
  destruct (ae_button_recount e) as [[|c]|]; [discriminate| |by left]. simpl.
  destruct (ae_button_id e); [|by left].
  destruct (ae_button_handle e); [|by left].
  destruct (ae_click e); [|by left].
  destruct (ae_menu_visible e); [|by right].
  destruct (ae_menu_items e); [discriminate|by right].
Qed.

Lemma file_row_failure e w :
  file_row_fails e = true ->
  attachment_file e w = (Raise, w) \/ attachment_file e w = (Ok Next, w).
Proof.
  unfold file_row_fails, attachment_file.
  destruct (ae_name_count e) as [[|n]|]; [discriminate| |by left].
  destruct (ae_name_text e) as [[t|]|]; [|by left..].
  destruct (ae_report_count e) as [[|r]|]; [| |by left].
  - destruct (ae_attach_count e) as [[|a]|]; [discriminate| |by left].
    intros H. exact (row_trigger_failure e (Py.strip t) "attachmentFiles" w H).
  - intros H. exact (row_trigger_failure e (Py.strip t) "reportFiles" w H).
Qed.

Lemma row_failure_skips e : row_fails e = true -> skipped (attachment_row e).
Proof.
  unfold row_fails, attachment_row. intros H w.
  assert (file_row_fails e = true ->
          catch (attachment_file e) (mret Next) w = (Ok Next, w)) as Hfile.
  { intros Hf. unfold catch.
    by destruct (file_row_failure e w Hf) as [-> | ->]. }
  destruct (ae_header_count e) as [[|h]|]; [exact (Hfile H)| |reflexivity].
  destruct (ae_header_text e) as [[t|]|]; [| |reflexivity].
  - unfold mbind, M_bind, catch, lift in *. simpl.
    destruct (negb (t =? "") && negb (Py.strip t =? ""))%string;
      [discriminate|]. simpl. exact (Hfile H).
  - exact (Hfile H).
Qed.

(** The inspector reports no data when its script throws, and the file is
    recorded all the same. *)
Lemma inspection_failure_keeps_file qf n t b id btn k lbl d el pr rest w :
  React.evaluate_throws btn = true ->
  React.evaluate_throws el = true ->
  iframe_count pr = Ok 0%nat ->
  primary_file qf
    (mkPrimaryEntry (Ok (S n)) (Ok (Some t)) (Ok (S b)) (Ok id) (Ok btn)
       (Ok tt) (Ok tt)
       (Ok (mkMenuItem (Ok (S k)) (Ok (Some lbl)) (Ok (S d)) (Ok el) pr (Ok tt)
            :: rest))) w
  = (Ok Next, extend w [unresolved_record (Py.strip t) (Py.strip lbl)]).
Proof.
  intros Hbtn Hel Hpr.
  unfold primary_file, primary_trigger, primary_menu_item,
    inspect_button_handlers, fallbacks, iframe_fallback.
  unfold mbind, M_bind, catch, lift, res_bind. simpl.
  rewrite Hbtn, Hel. simpl. rewrite Hpr. reflexivity.
Qed.

(** The element handle of the second trigger cannot be taken: the first and
    the third file are recorded. *)
Example handle_fault_skips_second :
  exists f1 f3,
    scrape_meeting_files Fixtures.no_query Fixtures.handle_fault_page
      = Ok [f1; f3]
    /\ Data.name f1 = Py.VStr "Agenda" /\ Data.name f3 = Py.VStr "Packet".
Proof. eexists _, _. split; [vm_compute; reflexivity|]. split; reflexivity. Qed.

(** The inspection script throws on the trigger and on the menu item of
    the second of three files: the inspector catches the exception and
    reports no data, nothing is raised in the walk, and the second file is
    recorded with the sentinel. *)
Example script_fault_keeps_second :
  exists f1 f2 f3,
    scrape_meeting_files Fixtures.no_query Fixtures.script_fault_page
      = Ok [f1; f2; f3]
    /\ Data.name f2 = Py.VStr "Minutes"
    /\ Data.download_url f2 = Py.VStr "N/A".
Proof.
  eexists _, _, _. split; [vm_compute; reflexivity|].
  split; reflexivity.
Qed.

(** X29: the walk returns a list whenever the navigation succeeds.  In
    the attachments section, and in the primary section once the name of
    the entry is read, an exception raised while the trigger and the menu
    of an entry are handled leaves the walk as it was and the loop goes on
    with the next entry; an exception raised while a menu item is read does
    the same for that item; a loop with such a turn yields what it yields
    without it. *)
Theorem guarded_failures_skip_one_item
    (query_file : string -> res (option string)) :
  (forall p, goto p = Ok tt ->
     exists fs, scrape_meeting_files query_file p = Ok fs)
  /\ (forall e n t,
        pe_name_count e = Ok (S n) -> pe_name_text e = Ok (Some t) ->
        trigger_fails e = true -> skipped (primary_file query_file e))
  /\ (forall e, row_fails e = true -> skipped (attachment_row e))
  /\ (forall rf fn mi,
        item_fails mi = true ->
        skipped (primary_menu_item query_file rf fn mi))
  /\ (forall rf fn id ty mi,
        item_fails mi = true ->
        skipped (attachment_menu_item rf fn id ty mi))
  /\ (forall (A : Type) (body : A -> M walk ctl) pre x post w,
        skipped (body x) ->
        for_ (pre ++ x :: post) body w = for_ (pre ++ post) body w).
Proof.
  split; [apply scrape_returns|].
  split; [apply primary_trigger_failure_skips|].
  split; [apply row_failure_skips|].
  split; [apply item_failure_skips_primary|].
  split; [apply item_failure_skips_attachment|].
  intros A body pre x post w Hx; by apply for_skip.
Qed.

Lemma guarded_failures_skip_one_item_witness :
  (exists fs,
     scrape_meeting_files Fixtures.no_query Fixtures.handle_fault_page = Ok fs)
  /\ for_ [Fixtures.first_file; Fixtures.handle_fault_file; Fixtures.third_file]
       (primary_file Fixtures.no_query) (mkWalk [] None)
     = for_ [Fixtures.first_file; Fixtures.third_file]
         (primary_file Fixtures.no_query) (mkWalk [] None).
Proof.
  destruct (guarded_failures_skip_one_item Fixtures.no_query)
    as (Hret & Hprim & _ & _ & _ & Hloop).
  split; [apply Hret; reflexivity|].
  apply (Hloop _ _ [Fixtures.first_file] Fixtures.handle_fault_file
           [Fixtures.third_file]).
  apply (Hprim _ 0%nat "Minutes"); reflexivity.
Defined.

(** C5: an exception raised while one file entry is processed should
    skip that entry only; the primary section does not keep to this.  The
    [try] that opens the turn of a primary file (l. 417) has no handler of
    its own: when reading the display name of the second of three files
    raises, the exception reaches the handler of the section (l. 598), and
    the walk, which still returns, has recorded the first file only; the
    third file, which is in order, is never visited.  The sibling paths
    skip the entry at fault and nothing else: the same fault in a row of
    the attachments list, whose [try] has its handler (l. 779), skips that
    row only, and a fault inside the inner [try] of the second primary file
    (l. 427, handler l. 595), such as taking the element handle for the
    inspection, leaves the first and the third record. *)
Theorem name_fault_ends_primary_section :
  (exists f1,
     scrape_meeting_files Fixtures.no_query Fixtures.name_fault_page = Ok [f1]
     /\ Data.name f1 = Py.VStr "Agenda"
     /\ primary_file Fixtures.no_query Fixtures.third_file (mkWalk [f1] None)
        = (Ok Next,
           mkWalk [f1;
                   Data.mkFileInfo (Py.VStr "Packet") "PDF"
                     (Py.VStr "https://firestoneco.api.civicclerk.com/v1/Meetings/GetMeetingFileStream(fileId=44,plainText=false)")
                     None (Some (Py.VInt 44)) (Some false) (Some false)
                     None None None None None] None))
  /\ (exists a c,
        scrape_meeting_files Fixtures.no_query Fixtures.row_name_fault_page
        = Ok [a; c]
        /\ Data.name a = Py.VStr "Exhibit A"
        /\ Data.name c = Py.VStr "Exhibit C")
  /\ (exists f1 f3,
        scrape_meeting_files Fixtures.no_query Fixtures.handle_fault_page
        = Ok [f1; f3]
        /\ Data.name f1 = Py.VStr "Agenda"
        /\ Data.name f3 = Py.VStr "Packet").
Proof.
  split; [|split].
  - eexists. split; [vm_compute; reflexivity|]. split; [reflexivity|].
    vm_compute. reflexivity.
  - eexists _, _. split; [vm_compute; reflexivity|]. split; reflexivity.
  - eexists _, _. split; [vm_compute; reflexivity|]. split; reflexivity.
Qed.

End WalkerFacts.

(** ** Saved file names *)

Module FilenameFacts.

Import Exn FilenameRules Fixtures.

Example sanitize_agenda_packet (isalnum : N -> bool) :
  Playwright.sanitize isalnum "Agenda: Packet #1 (Final)"
  = "Agenda-Packet-1-Final".
Proof. vm_compute. reflexivity. Qed.

Example sanitize_keeps_outer_hyphens (isalnum : N -> bool) :
  Playwright.sanitize isalnum "- Item  --  7 -" = "-Item-7-".
Proof. vm_compute. reflexivity. Qed.

(** Letters beyond ASCII are word characters; the dash is none and is
    removed. *)
Example sanitize_accented_name :
  Playwright.sanitize latin_alnum "Café Menu (été) – Página 2"
  = "Café-Menu-été-Página-2".
Proof. vm_compute. reflexivity. Qed.

Section Classes.

Variable p : N -> bool.

Lemma drop_class_length s : (length (drop_class p s) <= length s)%nat.
Proof.
  induction s as [|c s IH]; simpl; [lia|]. destruct (p c); simpl; lia.
Qed.

Lemma star_total {R} (k : list N -> R) s :
  Re.star p s (fun rest => Some (k rest)) = Some (k (drop_class p s)).
Proof.
  induction s as [|c s IH]; simpl; [reflexivity|].
  destruct (p c); [|reflexivity]. by rewrite IH.
Qed.

Lemma match_at_cls c s :
  Re.match_at (Re.Cls p) (c :: s) = if p c then Some ([], s) else None.
Proof. reflexivity. Qed.

Lemma match_at_plus c s :
  Re.match_at (Re.Plus p) (c :: s)
  = if p c then Some ([], drop_class p s) else None.
Proof.
  unfold Re.match_at. simpl. destruct (p c); [|reflexivity].
  apply (star_total (fun rest => ([], rest))).
Qed.

Lemma sub_from_cls fuel s :
  (length s < fuel)%nat ->
  Re.sub_from fuel (Re.Cls p) [] s = keep_only (fun c => negb (p c)) s.
Proof.
  revert fuel. induction s as [|c s IH]; intros fuel Hlen.
  - destruct fuel; reflexivity.
  - destruct fuel as [|fuel]; [simpl in Hlen; lia|].
    cbn [Re.sub_from]. rewrite match_at_cls.
    simpl in Hlen. cbn [keep_only].
    destruct (p c); simpl.
    + replace (length s <? S (length s))%nat
        with true by (symmetry; apply Nat.ltb_lt; lia).
      apply IH. lia.
    + f_equal. apply IH. lia.
Qed.

Lemma collapse_run r c s :
  p c = true ->
  collapse_runs p r (c :: s) = r :: collapse_runs p r (drop_class p s).
Proof.
  intros Hc. revert c Hc. induction s as [|c' s IH]; intros c Hc.
  - simpl. by rewrite Hc.
  - specialize (IH c'). cbn [collapse_runs drop_class] in *. rewrite Hc.
    destruct (p c') eqn:Hc'.
    + exact (IH eq_refl).
    + cbn [collapse_runs]. by rewrite Hc'.
Qed.

Lemma sub_from_plus r fuel s :
  (length s < fuel)%nat ->
  Re.sub_from fuel (Re.Plus p) [r] s = collapse_runs p r s.
Proof.
  revert s. induction fuel as [|fuel IH]; intros s Hlen; [lia|].
  destruct s as [|c s]; [reflexivity|].
  cbn [Re.sub_from]. rewrite match_at_plus. simpl in Hlen.
  destruct (p c) eqn:Hc.
  - pose proof (drop_class_length s) as Hd.
    replace (length (drop_class p s) <? length (c :: s))%nat
      with true by (symmetry; apply Nat.ltb_lt; simpl; lia).
    rewrite collapse_run by done. simpl. f_equal. apply IH. lia.
  - cbn [collapse_runs]. rewrite Hc. f_equal. apply IH. lia.
Qed.

Lemma doubled_collapse r s :
  p r = true -> doubled r (collapse_runs p r s) = false.
Proof.
  intros Hr. induction s as [|c s IH]; [reflexivity|].
  cbn [collapse_runs]. destruct (p c) eqn:Hc.
  - destruct s as [|c' s]; [reflexivity|].
    destruct (p c') eqn:Hc'; [exact IH|].
    cbn [collapse_runs] in *. rewrite Hc' in *.
    change (((r =? r)%N && (c' =? r)%N)
            || doubled r (c' :: collapse_runs p r s) = false).
    rewrite IH, orb_false_r.
    destruct (N.eqb_spec c' r) as [->|]; [congruence|].
    by rewrite andb_false_r.
  - destruct (collapse_runs p r s) as [|c' s'] eqn:E; [reflexivity|].
    change (((c =? r)%N && (c' =? r)%N) || doubled r (c' :: s') = false).
    rewrite IH, orb_false_r.
    destruct (N.eqb_spec c r) as [->|]; [congruence|done].
Qed.

Lemma all_chars_collapse (q q' : N -> bool) r s :
  (forall c, q c = true -> p c = false -> q' c = true) ->
  q' r = true ->
  all_chars q s = true ->
  all_chars q' (collapse_runs p r s) = true.
Proof.
  intros Hq Hr. induction s as [|c s IH]; [reflexivity|].
  cbn [all_chars collapse_runs]. intros [Hc Hs]%andb_true_iff.
  specialize (IH Hs). destruct (p c) eqn:Hpc.
  - destruct s as [|c' s]; [cbn; by rewrite Hr|].
    destruct (p c'); [exact IH|]. cbn [all_chars]. by rewrite Hr, IH.
  - cbn [all_chars]. by rewrite (Hq c Hc Hpc), IH.
Qed.

End Classes.

Lemma keep_only_ext (p q : N -> bool) s :
  (forall c, p c = q c) -> keep_only p s = keep_only q s.
Proof.
  intros H. induction s as [|c s IH]; [reflexivity|].
  simpl. by rewrite H, IH.
Qed.

Lemma all_chars_keep_only (q : N -> bool) s :
  all_chars q (keep_only q s) = true.
Proof.
  induction s as [|c s IH]; [reflexivity|]. simpl.
  destruct (q c) eqn:Hc; [|exact IH]. simpl. by rewrite Hc, IH.
Qed.

Lemma all_chars_lstrip (q : N -> bool) s :
  all_chars q s = true -> all_chars q (Py.lstrip s) = true.
Proof.
  induction s as [|c s IH]; [done|]. simpl.
  intros [Hc Hs]%andb_true_iff.
  destruct (Py.is_space c); [by apply IH|]. simpl. by rewrite Hc, Hs.
Qed.

Lemma all_chars_rstrip (q : N -> bool) s :
  all_chars q s = true -> all_chars q (Py.rstrip s) = true.
Proof.
  induction s as [|c s IH]; [done|]. simpl.
  intros [Hc Hs]%andb_true_iff. specialize (IH Hs).
  destruct (Py.rstrip s) as [|c' r].
  - destruct (Py.is_space c); [done|]. simpl. by rewrite Hc.
  - simpl in *. by rewrite Hc, IH.
Qed.

(** The two substitutions of the source compute what the rules say. *)
Lemma sanitize_steps (isalnum : N -> bool) (file_name : list N) :
  Playwright.sanitize_points isalnum file_name
  = strip_trim_collapse isalnum file_name.
Proof.
  unfold Playwright.sanitize_points, strip_trim_collapse,
    Playwright.unsafe_char, Playwright.separators, Re.sub.
  rewrite sub_from_cls by lia.
  rewrite (sub_from_plus _ hyphen) by lia.
  f_equal. f_equal. apply keep_only_ext. intros c.
  unfold kept. by rewrite negb_involutive.
Qed.

(** What the rules yield: word characters and single hyphens. *)
Lemma strip_trim_collapse_shape (isalnum : N -> bool) (file_name : list N) :
  all_chars (word_or_hyphen isalnum) (strip_trim_collapse isalnum file_name)
  = true
  /\ doubled hyphen (strip_trim_collapse isalnum file_name) = false.
Proof.
  unfold strip_trim_collapse. split.
  - apply (all_chars_collapse separator (kept isalnum) (word_or_hyphen isalnum)).
    + intros c. unfold kept, separator, word_or_hyphen.
      destruct (Py.is_word isalnum c), (Py.is_space c), (c =? hyphen)%N; done.
    + reflexivity.
    + unfold Py.strip_points. apply all_chars_rstrip, all_chars_lstrip,
        all_chars_keep_only.
  - by apply (doubled_collapse separator hyphen).
Qed.

Lemma extension_cases (f : Data.file_info) :
  Playwright.extension f
  = if default false (Data.plain_text f) then ".txt" else ".pdf".
Proof.
  unfold Playwright.extension.
  destruct (default false (Data.plain_text f)); [reflexivity|].
  by destruct (Py.endswith _ _).
Qed.

(** The name below ends in white space once the punctuation is removed;
    the code trims it before the runs are collapsed, so no hyphen stands
    for it.  The name is in ASCII: this holds whatever the table of the
    runtime says beyond ASCII. *)
Example trailing_space_is_trimmed (isalnum : N -> bool) :
  Playwright.sanitize isalnum "Minutes (Draft) *" = "Minutes-Draft"
  /\ Py.text (strip_and_collapse isalnum (Py.points "Minutes (Draft) *"))
     = "Minutes-Draft-".
Proof. vm_compute. by split. Qed.

(** C8, as stated, fails: for the record below, whose name is the one of
    the example above, the rules as stated give [Minutes-Draft-] and the
    code saves [Minutes-Draft.pdf]. *)
Lemma trailing_space_counterexample :
  Playwright.saved_filename latin_alnum draft_minutes
  = Ok (Some "Minutes-Draft.pdf")
  /\ Py.text (strip_and_collapse latin_alnum (Py.points "Minutes (Draft) *"))
     = "Minutes-Draft-"
  /\ Playwright.sanitize latin_alnum "Minutes (Draft) *"
     <> Py.text (strip_and_collapse latin_alnum
                   (Py.points "Minutes (Draft) *")).
Proof. vm_compute. repeat split. discriminate. Qed.

(** C8 (amended): for every file record that the direct fetch downloads,
    the saved file name is the record's name with every character other
    than word characters, white space and hyphens removed, then white space
    trimmed at both ends, then every run of hyphens and white space
    collapsed into one hyphen; it contains only word characters and
    hyphens and no two hyphens in a row; the extension appended to it is
    [.txt] when the record is plain text and [.pdf] otherwise.  The
    characters are those of Unicode: a letter or digit beyond ASCII is a
    word character, as the table of the runtime says. *)
Theorem saved_filename_is_sanitized
    (isalnum : N -> bool) (f : Data.file_info) (file_name : string) :
  Data.name f = Py.VStr file_name ->
  Py.truthy (Data.download_url f) = true ->
  Data.download_url f <> Py.VStr "N/A" ->
  Playwright.saved_filename isalnum f
    = Ok (Some (Playwright.sanitize isalnum file_name
                +:+ (if default false (Data.plain_text f)
                     then ".txt" else ".pdf")))
  /\ Playwright.sanitize isalnum file_name
     = Py.text (strip_trim_collapse isalnum (Py.points file_name))
  /\ all_chars (word_or_hyphen isalnum)
       (strip_trim_collapse isalnum (Py.points file_name)) = true
  /\ doubled hyphen (strip_trim_collapse isalnum (Py.points file_name))
     = false.
Proof.
  intros Hname Hurl Hna. split; [|split].
  - unfold Playwright.saved_filename. rewrite Hname, Hurl.
    rewrite bool_decide_eq_false_2 by done. simpl.
    by rewrite extension_cases.
  - unfold Playwright.sanitize. by rewrite sanitize_steps.
  - apply strip_trim_collapse_shape.
Qed.

Lemma saved_filename_is_sanitized_witness :
  Playwright.saved_filename latin_alnum draft_minutes
  = Ok (Some "Minutes-Draft.pdf")
  /\ Playwright.sanitize latin_alnum "Minutes (Draft) *" = "Minutes-Draft"
  /\ all_chars (word_or_hyphen latin_alnum) (Py.points "Minutes-Draft") = true
  /\ doubled hyphen (Py.points "Minutes-Draft") = false.
Proof.
  destruct (saved_filename_is_sanitized latin_alnum draft_minutes
              "Minutes (Draft) *")
    as (Hsaved & Hname & Hchars & Hruns);
    [reflexivity | reflexivity | discriminate |].
  split; [exact Hsaved|]. split; [reflexivity|].
  split; [exact Hchars | exact Hruns].
Defined.

End FilenameFacts.

(** ** Date extractor *)

Module DateFacts.

Import Exn Playwright.

Example aria_label_of_docstring :
  date_of_aria_label
    "Board of Trustees event on Wednesday, Aug. 13, 2025 6:00 PM"
  = Ok (Some (Datetime.mkDate 2025 8 13)).
Proof. vm_compute. reflexivity. Qed.

Example h2_of_docstring :
  extract_meeting_date Fixtures.no_iso
    (mkLink (Ok None) (Ok None) (Ok (Some "Aug 13, 2025")))
  = Some (Datetime.mkDate 2025 8 13).
Proof. vm_compute. reflexivity. Qed.

Section Sources.

Variable fromisoformat : string -> option Datetime.date.

(** A timestamp that the library parses wins over the other sources, and
    the date that the library reads from it is returned as it is. *)
Lemma timestamp_wins (l : link) (s : option string) (d : Datetime.date) :
  data_date l = Ok s ->
  date_of_timestamp fromisoformat s = Some d ->
  extract_meeting_date fromisoformat l = Some d.
Proof.
  unfold extract_meeting_date, extract_meeting_date_body.
  intros -> Hd. simpl. by rewrite Hd.
Qed.

(** When the attributes are readable and the date of the label exists, the
    sources are tried in order and the first that parses wins; the date
    block is the last resort and its failures give no value. *)
Lemma sources_in_order (l : link) (s a : option string)
    (from_label : option Datetime.date) :
  data_date l = Ok s ->
  aria_label l = Ok a ->
  date_of_label a = Ok from_label ->
  extract_meeting_date fromisoformat l
  = match date_of_timestamp fromisoformat s with
    | Some d => Some d
    | None =>
        match from_label with
        | Some d => Some d
        | None => rescue (date_of_h2 l) None
        end
    end.
Proof.
  unfold extract_meeting_date, extract_meeting_date_body.
  intros -> Ha Hlabel. simpl.
  destruct (date_of_timestamp fromisoformat s); [reflexivity|].
  rewrite Ha. simpl. rewrite Hlabel. simpl.
  by destruct from_label.
Qed.

(** The entry of the docstring: the [Z] of the timestamp is rewritten to
    [+00:00] before the library reads it, and the date it reads is the
    result, whatever the label and the date block say. *)
Example timestamp_of_docstring (d : Datetime.date) :
  fromisoformat "2025-08-13T18:00:00+00:00" = Some d ->
  extract_meeting_date fromisoformat Fixtures.dated_link = Some d.
Proof.
  intros Hd. apply (timestamp_wins _ (Some "2025-08-13T18:00:00Z"));
    [reflexivity | exact Hd].
Qed.

End Sources.

(** C3 (defect): the label of this entry matches the pattern but names the
    30th of February.  [datetime(2025, 2, 30)] raises outside any inner
    [try], the outer handler returns [None], and the date block, which
    parses to 2025-03-02, is never read. *)
Theorem impossible_label_date_hides_date_block
    (fromisoformat : string -> option Datetime.date) :
  date_of_label (Some "Budget hearing event on Sunday, Feb. 30, 2025 6:00 PM")
    = Raise
  /\ date_of_h2 Fixtures.misdated_link = Ok (Some (Datetime.mkDate 2025 3 2))
  /\ extract_meeting_date fromisoformat Fixtures.misdated_link = None.
Proof. repeat split; vm_compute; reflexivity. Qed.

End DateFacts.

(** ** File names, further properties *)

Module NameFacts.

Import Exn FilenameRules NameSpec.

Lemma keep_only_all (p : N -> bool) s :
  all_chars p s = true -> keep_only p s = s.
Proof.
  induction s as [|c s IH]; simpl; [done|].
  intros [Hc Hs]%andb_true_iff. rewrite Hc. by rewrite IH.
Qed.

Lemma keep_only_app p a b :
  keep_only p (a ++ b) = keep_only p a ++ keep_only p b.
Proof.
  induction a as [|c a IH]; simpl; [done|].
  destruct (p c); simpl; by rewrite IH.
Qed.

Lemma all_chars_impl (p q : N -> bool) s :
  (forall c, p c = true -> q c = true) ->
  all_chars p s = true -> all_chars q s = true.
Proof.
  intros Hpq. induction s as [|c s IH]; simpl; [done|].
  intros [Hc Hs]%andb_true_iff. by rewrite (Hpq c Hc), IH.
Qed.

Lemma lstrip_no_space s :
  all_chars (fun c => negb (Py.is_space c)) s = true -> Py.lstrip s = s.
Proof.
  destruct s as [|c s]; simpl; [done|].
  intros [Hc _]%andb_true_iff. by destruct (Py.is_space c).
Qed.

Lemma rstrip_no_space s :
  all_chars (fun c => negb (Py.is_space c)) s = true -> Py.rstrip s = s.
Proof.
  induction s as [|c s IH]; simpl; [done|].
  intros [Hc Hs]%andb_true_iff. rewrite (IH Hs).
  destruct s; [|done]. by destruct (Py.is_space c).
Qed.

Lemma lstrip_spaces s : all_chars Py.is_space s = true -> Py.lstrip s = [].
Proof.
  induction s as [|c s IH]; simpl; [done|].
  intros [Hc Hs]%andb_true_iff. rewrite Hc. by apply IH.
Qed.

Section Table.

Variable isalnum : N -> bool.

Lemma separator_hyphen c :
  solid isalnum c = true -> separator c = true -> c = hyphen.
Proof.
  unfold solid, separator. intros [_ Hc]%andb_true_iff Hsep.
  destruct (Py.is_space c); [done|]. rewrite orb_false_r in Hsep.
  by apply N.eqb_eq.
Qed.

(** A text of solid characters without two hyphens in a row has no run to
    collapse. *)
Lemma collapse_fixed s :
  all_chars (solid isalnum) s = true ->
  doubled hyphen s = false ->
  collapse_runs separator hyphen s = s.
Proof.
  induction s as [|c s IH]; [done|].
  intros Hall Hno.
  pose proof Hall as Hall'. simpl in Hall'.
  apply andb_true_iff in Hall' as [Hc Hs].
  assert (doubled hyphen s = false) as Hno'.
  { destruct s as [|c' s]; [done|].
    change (((c =? hyphen)%N && (c' =? hyphen)%N)
            || doubled hyphen (c' :: s) = false) in Hno.
    by apply orb_false_iff in Hno as [_ Hno]. }
  cbn [collapse_runs]. rewrite (IH Hs Hno').
  destruct (separator c) eqn:Hsep; [|done].
  apply (separator_hyphen c Hc) in Hsep as ->.
  destruct s as [|c' s]; [done|].
  destruct (separator c') eqn:Hsep'; [|done].
  exfalso.
  assert (c' = hyphen) as ->.
  { simpl in Hs. apply andb_true_iff in Hs as [Hc' _].
    by apply separator_hyphen. }
  done.
Qed.

(** The characters that the second substitution leaves or writes are no
    white space. *)
Lemma collapse_solid s :
  all_chars (kept isalnum) s = true ->
  all_chars (solid isalnum) (collapse_runs separator hyphen s) = true.
Proof.
  apply FilenameFacts.all_chars_collapse; [|reflexivity].
  intros c. unfold kept, separator, solid, word_or_hyphen.
  destruct (Py.is_word isalnum c), (Py.is_space c), (c =? hyphen)%N; done.
Qed.

(** What [sanitize] returns: solid characters, no two hyphens in a row. *)
Lemma sanitize_shape (file_name : list N) :
  all_chars (solid isalnum) (Playwright.sanitize_points isalnum file_name)
  = true
  /\ doubled hyphen (Playwright.sanitize_points isalnum file_name) = false.
Proof.
  rewrite FilenameFacts.sanitize_steps. split.
  - unfold strip_trim_collapse, Py.strip_points.
    apply collapse_solid, FilenameFacts.all_chars_rstrip,
      FilenameFacts.all_chars_lstrip, FilenameFacts.all_chars_keep_only.
  - apply FilenameFacts.strip_trim_collapse_shape.
Qed.

Lemma sanitize_clean (s : list N) :
  all_chars (solid isalnum) s = true ->
  doubled hyphen s = false ->
  Playwright.sanitize_points isalnum s = s.
Proof.
  intros Hall Hno. rewrite FilenameFacts.sanitize_steps.
  unfold strip_trim_collapse.
  rewrite keep_only_all.
  2:{ eapply all_chars_impl; [|exact Hall]. intros c.
      unfold kept, solid, word_or_hyphen.
      destruct (Py.is_word isalnum c), (Py.is_space c), (c =? hyphen)%N; done. }
  assert (all_chars (fun c => negb (Py.is_space c)) s = true) as Hns.
  { eapply all_chars_impl; [|exact Hall]. intros c.
    unfold solid. by intros [_ ?]%andb_true_iff. }
  unfold Py.strip_points.
  rewrite (lstrip_no_space _ Hns), (rstrip_no_space _ Hns).
  by apply collapse_fixed.
Qed.

Lemma keep_only_spaces s :
  all_chars (dropped isalnum) s = true ->
  all_chars Py.is_space (keep_only (kept isalnum) s) = true.
Proof.
  induction s as [|c s IH]; simpl; [done|].
  intros [Hc Hs]%andb_true_iff.
  unfold dropped, kept, word_or_hyphen in *.
  destruct (Py.is_word isalnum c), (c =? hyphen)%N, (Py.is_space c) eqn:E;
    simpl in *; try done; try by apply IH.
  rewrite E. by apply IH.
Qed.

Lemma sanitize_nothing_left s :
  all_chars (dropped isalnum) s = true ->
  Playwright.sanitize_points isalnum s = [].
Proof.
  intros H. rewrite FilenameFacts.sanitize_steps.
  unfold strip_trim_collapse, Py.strip_points.
  by rewrite (lstrip_spaces _ (keep_only_spaces _ H)).
Qed.

End Table.

(** X1: sanitizing the characters of a file name twice gives what
    sanitizing them once gives, and the names that the sanitizer leaves as
    they are are exactly those made of word characters and hyphens, none of
    them white space, without two hyphens in a row; such a name is saved as
    it is.  This holds for every name, in ASCII or not, and whatever the
    runtime counts as alphanumeric beyond ASCII. *)
Theorem sanitize_fixed_points (isalnum : N -> bool) (file_name : list N) :
  Playwright.sanitize_points isalnum
    (Playwright.sanitize_points isalnum file_name)
  = Playwright.sanitize_points isalnum file_name
  /\ (Playwright.sanitize_points isalnum file_name = file_name <->
      all_chars (solid isalnum) file_name = true
      /\ doubled hyphen file_name = false)
  /\ (forall name : string,
        all_chars (solid isalnum) (Py.points name) = true ->
        doubled hyphen (Py.points name) = false ->
        Playwright.sanitize isalnum name = name).
Proof.
  split; [|split].
  - destruct (sanitize_shape isalnum file_name) as [Hall Hno].
    by apply sanitize_clean.
  - split.
    + intros Heq. rewrite <- Heq. apply sanitize_shape.
    + intros [Hall Hno]. by apply sanitize_clean.
  - intros name Hall Hno. unfold Playwright.sanitize.
    by rewrite sanitize_clean, TextFacts.text_points.
Qed.

Example accented_name_is_kept :
  Playwright.sanitize Fixtures.latin_alnum "Café-Menú_2" = "Café-Menú_2".
Proof. reflexivity. Qed.

(** X2: a character other than a word character, white space or a hyphen
    plays no part in the saved name: a name with such a character and the
    name without it are sanitized to the same text, so two records that
    differ only in this way are written to the same file. *)
Theorem sanitize_ignores_removed_character
    (isalnum : N -> bool) (a b : list N) (c : N) :
  kept isalnum c = false ->
  Playwright.sanitize_points isalnum (a ++ c :: b)
  = Playwright.sanitize_points isalnum (a ++ b).
Proof.
  intros Hc. rewrite !FilenameFacts.sanitize_steps. unfold strip_trim_collapse.
  rewrite !keep_only_app. simpl. by rewrite Hc.
Qed.

Lemma sanitize_ignores_removed_character_witness :
  Playwright.sanitize_points Fixtures.latin_alnum
    (Py.points "Menú" ++ 8212%N :: Py.points " Café")
  = Playwright.sanitize_points Fixtures.latin_alnum
      (Py.points "Menú" ++ Py.points " Café").
Proof.
  apply (sanitize_ignores_removed_character Fixtures.latin_alnum
           (Py.points "Menú") (Py.points " Café") 8212%N).
  reflexivity.
Defined.

(** X3: a record with a usable URL whose name holds no word character and
    no hyphen is written to a file whose name is the bare extension,
    [.txt] for plain text and [.pdf] otherwise. *)
Theorem nameless_record_is_saved_as_extension
    (isalnum : N -> bool) (f : Data.file_info) (file_name : string) :
  Data.name f = Py.VStr file_name ->
  Py.truthy (Data.download_url f) = true ->
  Data.download_url f <> Py.VStr "N/A" ->
  all_chars (dropped isalnum) (Py.points file_name) = true ->
  Playwright.saved_filename isalnum f
  = Ok (Some (if default false (Data.plain_text f) then ".txt" else ".pdf")).
Proof.
  intros Hname Hurl Hna Hdropped.
  unfold Playwright.saved_filename. rewrite Hname, Hurl.
  rewrite bool_decide_eq_false_2 by done. simpl.
  unfold Playwright.sanitize.
  by rewrite (sanitize_nothing_left _ _ Hdropped), FilenameFacts.extension_cases.
Qed.

Lemma nameless_record_is_saved_as_extension_witness :
  Playwright.saved_filename Fixtures.latin_alnum Fixtures.starred_record
  = Ok (Some ".pdf").
Proof.
  apply (nameless_record_is_saved_as_extension Fixtures.latin_alnum
           Fixtures.starred_record "(***) ");
    [reflexivity | reflexivity | discriminate | reflexivity].
Defined.

End NameFacts.

(** ** URL builder, further properties *)

Module UrlFacts.

Import Py.

Lemma app_inv_head_str s a b : s +:+ a = s +:+ b -> a = b.
Proof. induction s as [|c s IH]; simpl; [done|]. intros [= H]. by apply IH. Qed.

Lemma length_append_str a b :
  String.length (a +:+ b) = (String.length a + String.length b)%nat.
Proof. induction a as [|c a IH]; simpl; [done|]. by rewrite IH. Qed.

Lemma app_inv_tail_str s a b : a +:+ s = b +:+ s -> a = b.
Proof.
  intros H.
  assert (String.length a = String.length b) as Hlen.
  { apply (f_equal String.length) in H. rewrite !length_append_str in H. lia. }
  revert b H Hlen. induction a as [|c a IH]; intros [|c' b] H Hlen; simpl in *;
    try done.
  injection H as -> H. f_equal. apply IH; [done|lia].
Qed.

(** X4: the URL builder returns [None] or a true value, never the empty
    string or another false value; so [download_url or "N/A"] replaces
    nothing but [None]. *)
Theorem built_url_is_none_or_true
    (remote_file : option (gmap string value)) (is_attachment plain_text : bool) :
  Playwright.build_download_url remote_file is_attachment plain_text = VNone
  \/ (truthy (Playwright.build_download_url remote_file is_attachment plain_text)
      = true
      /\ or_str (Playwright.build_download_url remote_file is_attachment plain_text)
           "N/A"
         = Playwright.build_download_url remote_file is_attachment plain_text).
Proof.
  assert (forall v, truthy v = true -> truthy v = true /\ or_str v "N/A" = v)
    as Hor.
  { intros v Hv. split; [done|]. unfold or_str. by rewrite Hv. }
  unfold Playwright.build_download_url.
  destruct (truthy_dict remote_file); simpl; [|by left].
  destruct remote_file as [rf|]; [|by left].
  destruct (truthy (get rf "fileId")); simpl; [|by left].
  destruct (truthy (get rf "streamUrl")) eqn:E; [right; by apply Hor|].
  destruct is_attachment; right; by apply Hor.
Qed.

Lemma built_injective (rf1 rf2 : gmap string value) (n m : Z) a p :
  get rf1 "fileId" = VInt n ->
  get rf2 "fileId" = VInt m ->
  n <> 0%Z -> m <> 0%Z ->
  truthy (get rf1 "streamUrl") = false ->
  truthy (get rf2 "streamUrl") = false ->
  Playwright.build_download_url (Some rf1) a p
  = Playwright.build_download_url (Some rf2) a p ->
  n = m.
Proof.
  intros H1 H2 Hn Hm Hs1 Hs2.
  unfold Playwright.build_download_url.
  assert (truthy (VInt n) = true) as Tn by (by apply negb_true_iff, Z.eqb_neq).
  assert (truthy (VInt m) = true) as Tm by (by apply negb_true_iff, Z.eqb_neq).
  rewrite (UrlBuilderFacts.truthy_dict_lookup rf1 "fileId" (VInt n))
    by (rewrite <- H1; apply UrlBuilderFacts.truthy_get_lookup; by rewrite H1).
  rewrite (UrlBuilderFacts.truthy_dict_lookup rf2 "fileId" (VInt m))
    by (rewrite <- H2; apply UrlBuilderFacts.truthy_get_lookup; by rewrite H2).
  simpl. rewrite H1, H2, Hs1, Hs2. simpl.
  simpl in Tn, Tm. rewrite Tn, Tm. simpl.
  destruct a; intros [= H]; apply (app_inv_head_str "") in H.
  - apply app_inv_tail_str in H. by apply pretty_Z_inj in H.
  - apply (app_inv_tail_str _ (pretty n) (pretty m)) in H.
    by apply pretty_Z_inj in H.
Qed.

(** X5: two references with different integer file ids and without a
    [streamUrl] never get the same URL from the builder (called with the
    same flags): the constructed URL determines the file id. *)
Theorem distinct_ids_distinct_urls
    (rf1 rf2 : gmap string value) (n m : Z) (is_attachment plain_text : bool) :
  get rf1 "fileId" = VInt n ->
  get rf2 "fileId" = VInt m ->
  n <> 0%Z -> m <> 0%Z ->
  truthy (get rf1 "streamUrl") = false ->
  truthy (get rf2 "streamUrl") = false ->
  n <> m ->
  Playwright.build_download_url (Some rf1) is_attachment plain_text
  <> Playwright.build_download_url (Some rf2) is_attachment plain_text.
Proof.
  intros H1 H2 Hn Hm Hs1 Hs2 Hne Heq. apply Hne.
  by apply (built_injective rf1 rf2 n m is_attachment plain_text).
Qed.

Lemma distinct_ids_distinct_urls_witness :
  Playwright.build_download_url (Some Fixtures.file_42) false false
  <> Playwright.build_download_url (Some Fixtures.exhibit_7) false false.
Proof.
  apply (distinct_ids_distinct_urls Fixtures.file_42 Fixtures.exhibit_7 42 7);
    [reflexivity | reflexivity | lia | lia | reflexivity | reflexivity | lia].
Defined.

End UrlFacts.

(** ** Date range, further properties *)

Module RangeFacts.

Import Datetime DateRange.

(** With a bound, the filter keeps the meetings in the range. *)
Lemma filter_is_filter ms start stop :
  is_Some start \/ is_Some stop ->
  Playwright.filter_meetings_by_date_range ms start stop
  = filter (in_range start stop) ms.
Proof.
  intros Hbound. rewrite DateRangeFacts.playwright_filter_unfold.
  destruct Hbound as [[s ->]|[e ->]].
  - rewrite (bool_decide_eq_true_2 (is_Some (Some s))) by eauto. simpl.
    by rewrite DateRangeFacts.fold_keep_filter.
  - rewrite (bool_decide_eq_true_2 (is_Some (Some e))) by eauto.
    rewrite andb_false_r. by rewrite DateRangeFacts.fold_keep_filter.
Qed.

Lemma date_le_trans a b c : date_le a b -> date_le b c -> date_le a c.
Proof. unfold date_le. destruct a, b, c. simpl. lia. Qed.

(** X6: when the end of the range lies before its start, the filter
    returns no meeting, whatever the list; the check of the command line
    that refuses such a range loses no meeting. *)
Theorem inverted_range_selects_nothing
    (meetings : list Data.meeting) (start_date end_date : date) :
  date_ltb end_date start_date = true ->
  Playwright.filter_meetings_by_date_range meetings
    (Some start_date) (Some end_date) = [].
Proof.
  intros Hinv. rewrite filter_is_filter by (left; eauto).
  apply DateRangeFacts.date_ltb_not_le in Hinv.
  induction meetings as [|m ms IH]; [done|].
  rewrite filter_cons, IH. destruct (decide _) as [Hin|]; [|done].
  exfalso. apply Hinv. unfold in_range in Hin.
  destruct (Data.date m) as [d|]; [|done]. destruct Hin as [Hs He].
  by apply (date_le_trans _ d).
Qed.

Lemma inverted_range_selects_nothing_witness :
  Playwright.filter_meetings_by_date_range
    [Fixtures.m1; Fixtures.m3; Fixtures.m4; Fixtures.m2]
    (Some (mkDate 2025 10 1)) (Some (mkDate 2025 8 1)) = [].
Proof.
  apply (inverted_range_selects_nothing
           [Fixtures.m1; Fixtures.m3; Fixtures.m4; Fixtures.m2]
           (mkDate 2025 10 1) (mkDate 2025 8 1)).
  reflexivity.
Defined.

End RangeFacts.

(** ** Sections of the attachments list *)

Module SectionFacts.

Import Exn Playwright WalkSpec Tagging.

(** *** Rules for [adds] *)

Section Adds.

Context (s : option string) (P : Data.file_info -> Prop).

Lemma adds_ret {A} (a : A) : adds s P (mret a).
Proof.
  intros w _. exists []. split; [by rewrite WalkerFacts.extend_nil|constructor].
Qed.

Lemma adds_lift {A} (r : res A) : adds s P (lift r).
Proof.
  intros w _. exists []. split; [by rewrite WalkerFacts.extend_nil|constructor].
Qed.

Lemma adds_bind {A B} (m : M walk A) (f : A -> M walk B) :
  adds s P m -> (forall a, adds s P (f a)) -> adds s P (m ≫= f).
Proof.
  intros Hm Hf w Hw. unfold mbind, M_bind.
  destruct (Hm w Hw) as (rs & Hrs & HP).
  destruct (m w) as [[a|] w']; simpl in *; subst w'.
  - destruct (Hf a (extend w rs) Hw) as (rs' & Hrs' & HP').
    exists (rs ++ rs'). rewrite Hrs', WalkerFacts.extend_app. split; [done|].
    by apply Forall_app.
  - by exists rs.
Qed.

Lemma adds_catch {A} (m h : M walk A) :
  adds s P m -> adds s P h -> adds s P (catch m h).
Proof.
  intros Hm Hh w Hw. unfold catch.
  destruct (Hm w Hw) as (rs & Hrs & HP).
  destruct (m w) as [[a|] w']; simpl in *; subst w'.
  - by exists rs.
  - destruct (Hh (extend w rs) Hw) as (rs' & Hrs' & HP').
    exists (rs ++ rs'). rewrite Hrs', WalkerFacts.extend_app. split; [done|].
    by apply Forall_app.
Qed.

Lemma adds_for {A} (l : list A) (body : A -> M walk ctl) :
  (forall x, adds s P (body x)) -> adds s P (for_ l body).
Proof.
  intros Hbody. induction l as [|x l IH]; simpl.
  - apply adds_ret.
  - apply adds_bind; [apply Hbody|]. intros [|]; [exact IH | apply adds_ret].
Qed.

Lemma adds_append (f : Data.file_info) : P f -> adds s P (append f).
Proof. intros Hf w _. exists [f]. split; [done|]. by constructor. Qed.

Lemma adds_get_section {A} (k : option string -> M walk A) :
  adds s P (k s) -> adds s P (get_section ≫= k).
Proof.
  intros Hk w Hw. unfold mbind, M_bind, get_section. rewrite Hw. by apply Hk.
Qed.

End Adds.

Ltac adds_step :=
  lazymatch goal with
  | |- adds _ _ (mret _) => apply adds_ret
  | |- adds _ _ (lift _) => apply adds_lift
  | |- adds _ _ (catch _ _) => apply adds_catch
  | |- adds _ _ (for_ _ _) => apply adds_for; intros ?
  | |- adds _ _ (get_section ≫= _) => apply adds_get_section
  | |- adds _ _ (_ ≫= _) => apply adds_bind; [|intros ?]
  | |- adds _ _ (append _) => apply adds_append
  | |- adds _ _ (if ?b then _ else _) => destruct b
  | |- adds _ _ (match ?x with _ => _ end) => destruct x
  end.

Lemma goes_on_ret : goes_on (mret Next).
Proof. intros w. by left. Qed.

Lemma goes_on_bind {A} (m : M walk A) (f : A -> M walk ctl) :
  (forall a, goes_on (f a)) -> goes_on (m ≫= f).
Proof.
  intros Hf w. unfold mbind, M_bind.
  destruct (m w) as [[a|] w']; [apply Hf|by right].
Qed.

Ltac goes_on_step :=
  lazymatch goal with
  | |- goes_on (mret Next) => apply goes_on_ret
  | |- goes_on (_ ≫= _) => apply goes_on_bind; intros ?
  | |- goes_on (if ?b then _ else _) => destruct b
  | |- goes_on (match ?x with _ => _ end) => destruct x
  end.

(** *** The rows *)

(** Every record of a row that is no header carries the current section,
    also on the paths that raise. *)
Lemma attachment_file_tags s e : adds s (tagged s) (attachment_file e).
Proof.
  unfold attachment_file, attachment_with_button, attachment_without_trigger,
    attachment_trigger, attachment_menu_item.
  repeat adds_step; reflexivity.
Qed.

Lemma attachment_file_goes_on e : goes_on (attachment_file e).
Proof.
  unfold attachment_file, attachment_with_button, attachment_without_trigger.
  repeat goes_on_step.
Qed.

Lemma file_row w e :
  exists rs,
    catch (attachment_file e) (mret Next) w = (Ok Next, extend w rs)
    /\ Forall (tagged (current_section w)) rs.
Proof.
  destruct (attachment_file_tags (current_section w) e w eq_refl)
    as (rs & Hrs & HP).
  exists rs. split; [|done]. unfold catch.
  destruct (attachment_file_goes_on e w) as [H|H];
    destruct (attachment_file e w) as [[c|] w']; simpl in *; subst; try done.
  by injection H as ->.
Qed.

(** One row: its records carry the section in force when the row is
    reached; only a header changes the section, and it yields no record. *)
Lemma row_tags (e : attachment_entry) (w : walk) :
  exists rs,
    attachment_row e w
    = (Ok Next, mkWalk (files w ++ rs) (section_after (current_section w) e))
    /\ Forall (tagged (current_section w)) rs
    /\ (is_Some (header_text e) -> rs = []).
Proof.
  unfold section_after.
  destruct (header_text e) as [t|] eqn:Hh.
  - exists []. split; [|split; [constructor|done]].
    unfold header_text in Hh. unfold attachment_row.
    destruct (ae_header_count e) as [[|n]|]; try done.
    destruct (ae_header_text e) as [[t'|]|]; try done.
    destruct (negb (String.eqb t' "") && negb (String.eqb (Py.strip t') ""))
      eqn:E; [|done].
    injection Hh as <-.
    unfold catch, mbind, M_bind, lift, set_section, modify. simpl.
    rewrite E. simpl. by rewrite app_nil_r.
  - destruct (file_row w e) as (rs & Hrun & HP).
    assert (attachment_row e w = (Ok Next, w)
            \/ attachment_row e w = catch (attachment_file e) (mret Next) w)
      as [H|H].
    { unfold header_text in Hh. unfold attachment_row.
      destruct (ae_header_count e) as [[|n]|]; try (by left); try (by right).
      destruct (ae_header_text e) as [[t'|]|]; try (by left); try (by right).
      destruct (negb (String.eqb t' "") && negb (String.eqb (Py.strip t') ""))
        eqn:E; [done|].
      right. unfold catch, mbind, M_bind, lift. simpl. by rewrite E. }
    + exists []. rewrite H. split; [|split; [constructor|done]].
      destruct w. simpl. by rewrite app_nil_r.
    + exists rs. rewrite H, Hrun. split; [done|]. split; [done|].
      by intros [? ?].
Qed.

Lemma rows_loop (es : list attachment_entry) (w : walk) :
  exists rss,
    for_ es attachment_row w
    = (Ok tt, mkWalk (files w ++ concat rss)
                (fold_left section_after es (current_section w)))
    /\ length rss = length es
    /\ forall i e rs, es !! i = Some e -> rss !! i = Some rs ->
         Forall (tagged (fold_left section_after (take i es) (current_section w)))
           rs
         /\ (is_Some (header_text e) -> rs = []).
Proof.
  revert w. induction es as [|e es IH]; intros w.
  - exists []. simpl. rewrite app_nil_r. destruct w.
    split; [done|]. split; [done|].
    intros i e rs Hi. by rewrite lookup_nil in Hi.
  - destruct (row_tags e w) as (rs & Hrow & Htag & Hhead).
    destruct (IH (mkWalk (files w ++ rs) (section_after (current_section w) e)))
      as (rss & Hloop & Hlen & Hrest).
    exists (rs :: rss). split; [|split].
    + cbn [for_]. unfold mbind, M_bind. rewrite Hrow, Hloop. simpl.
      by rewrite app_assoc.
    + simpl. by rewrite Hlen.
    + intros [|i] e' rs' He' Hrs'; simpl in *.
      * injection He' as <-. injection Hrs' as <-. done.
      * by apply Hrest.
Qed.

(** The primary section leaves the current section alone. *)
Lemma primary_section_adds qf p s :
  adds s (fun _ => True) (primary_section qf p).
Proof.
  unfold primary_section, primary_file, primary_trigger, primary_menu_item.
  repeat adds_step; done.
Qed.

(** What the walk holds after the primary section. *)
Lemma after_primary_section qf p :
  exists prim,
    primary_section qf p (mkWalk [] None) = (Ok tt, mkWalk prim None).
Proof.
  destruct (primary_section_adds qf p None (mkWalk [] None) eq_refl)
    as (prim & Hprim & _).
  destruct (WalkerFacts.guarded_turns_return qf) as (_ & _ & _ & _ & Hret & _).
  destruct (Hret p (mkWalk [] None)) as ([] & w1 & Hrun).
  rewrite Hrun in Hprim. simpl in Hprim. subst w1.
  by exists prim.
Qed.

(** *** Rules for [framed] *)

Lemma framed_ret {A} (a : A) : framed (mret a).
Proof. done. Qed.

Lemma framed_lift {A} (r : res A) : framed (lift r).
Proof. done. Qed.

Lemma framed_bind {A B} (m : M walk A) (f : A -> M walk B) :
  framed m -> (forall a, framed (f a)) -> framed (m ≫= f).
Proof.
  intros Hm Hf pre w. unfold mbind, M_bind. rewrite Hm.
  destruct (m w) as [[a|] w']; simpl; [apply Hf|done].
Qed.

Lemma framed_catch {A} (m h : M walk A) :
  framed m -> framed h -> framed (catch m h).
Proof.
  intros Hm Hh pre w. unfold catch. rewrite Hm.
  destruct (m w) as [[a|] w']; simpl; [done|apply Hh].
Qed.

Lemma framed_for {A} (l : list A) (body : A -> M walk ctl) :
  (forall x, framed (body x)) -> framed (for_ l body).
Proof.
  intros Hbody. induction l as [|x l IH]; simpl.
  - apply framed_ret.
  - apply framed_bind; [apply Hbody|].
    intros [|]; [exact IH | apply framed_ret].
Qed.

Lemma framed_append (f : Data.file_info) : framed (append f).
Proof.
  intros pre w. unfold append, modify, shift. simpl. by rewrite app_assoc.
Qed.

Lemma framed_set_section s : framed (set_section s).
Proof. done. Qed.

Lemma framed_get_section : framed get_section.
Proof. done. Qed.

Ltac framed_step :=
  lazymatch goal with
  | |- framed (mret _) => apply framed_ret
  | |- framed (lift _) => apply framed_lift
  | |- framed (set_section _) => apply framed_set_section
  | |- framed get_section => apply framed_get_section
  | |- framed (catch _ _) => apply framed_catch
  | |- framed (for_ _ _) => apply framed_for; intros ?
  | |- framed (_ ≫= _) => apply framed_bind; [|intros ?]
  | |- framed (append _) => apply framed_append
  | |- framed (if ?b then _ else _) => destruct b
  | |- framed (match ?x with _ => _ end) => destruct x
  end.

Lemma attachment_row_framed e : framed (attachment_row e).
Proof.
  unfold attachment_row, attachment_file, attachment_with_button,
    attachment_without_trigger, attachment_trigger, attachment_menu_item.
  repeat framed_step.
Qed.

(** One row, whatever was recorded before it: it appends its own records,
    which carry the section in force, and only a header changes the
    section. *)
Lemma row_alone (e : attachment_entry) (w : walk) :
  attachment_row e w
  = (Ok Next, mkWalk (files w ++ row_records e (current_section w))
                (section_after (current_section w) e))
  /\ Forall (tagged (current_section w)) (row_records e (current_section w))
  /\ (is_Some (header_text e) -> row_records e (current_section w) = []).
Proof.
  unfold row_records.
  destruct (row_tags e (mkWalk [] (current_section w)))
    as (rs & Hrow & Ht & Hh).
  pose proof (attachment_row_framed e (files w) (mkWalk [] (current_section w)))
    as Hf.
  rewrite Hrow in *. simpl in *.
  unfold shift in Hf. simpl in Hf. rewrite app_nil_r in Hf.
  destruct w as [fs s]. simpl in *. by rewrite Hf.
Qed.

Lemma rows_alone (es : list attachment_entry) (w : walk) :
  for_ es attachment_row w
  = (Ok tt,
     mkWalk (files w
             ++ concat (imap (fun i e =>
                  row_records e
                    (fold_left section_after (take i es) (current_section w)))
                  es))
       (fold_left section_after es (current_section w))).
Proof.
  revert w. induction es as [|e es IH]; intros w.
  - simpl. rewrite app_nil_r. by destruct w.
  - destruct (row_alone e w) as (Hrow & _).
    cbn [for_]. unfold mbind, M_bind. rewrite Hrow. rewrite IH. simpl.
    by rewrite app_assoc.
Qed.

(** X18: when the attachments list is found, the result is the records of
    the primary section followed, row by row and in the order of the rows,
    by the records that each row of the attachments list yields by itself
    under the text of the last header row above it ([None] above the first
    header), whatever raises while the rows are read.  Each of these
    records carries that text as its [section], and a header row with a
    text yields no record. *)
Theorem sections_follow_headers
    (query_file : string -> res (option string)) (p : page)
    (rows : list attachment_entry) :
  goto p = Ok tt ->
  files_selector p = Ok tt ->
  attachments_selector p = Ok tt ->
  all_items p = Ok rows ->
  scrape_meeting_files query_file p
  = Ok (files (snd (primary_section query_file p (mkWalk [] None)))
        ++ concat (imap (fun i row => row_records row (section_at rows i))
                     rows))
  /\ forall i row, rows !! i = Some row ->
       Forall (fun f => Data.section f = Some (section_at rows i))
         (row_records row (section_at rows i))
       /\ (is_Some (header_text row) ->
           row_records row (section_at rows i) = []).
Proof.
  intros Hgoto Hsel Hasel Hrows. split.
  - destruct (after_primary_section query_file p) as (prim & Hrun).
    unfold scrape_meeting_files. rewrite Hgoto, Hsel. f_equal.
    unfold mbind at 1. unfold M_bind at 1. rewrite Hrun.
    unfold attachments_section. rewrite Hasel, Hrows.
    unfold catch, mbind, M_bind, lift, set_section, modify. simpl.
    by rewrite rows_alone.
  - intros i row Hrow.
    destruct (row_alone row (mkWalk [] (section_at rows i))) as (_ & Ht & Hh).
    done.
Qed.

Lemma sections_follow_headers_witness :
  scrape_meeting_files Fixtures.no_query Fixtures.fixture_page
  = Ok (files (snd (primary_section Fixtures.no_query Fixtures.fixture_page
                      (mkWalk [] None)))
        ++ concat (imap (fun i row =>
                           row_records row
                             (section_at Fixtures.exhibit_rows i))
                     Fixtures.exhibit_rows))
  /\ forall i row, Fixtures.exhibit_rows !! i = Some row ->
       Forall (fun f => Data.section f
                        = Some (section_at Fixtures.exhibit_rows i))
         (row_records row (section_at Fixtures.exhibit_rows i))
       /\ (is_Some (header_text row) ->
           row_records row (section_at Fixtures.exhibit_rows i) = []).
Proof.
  apply (sections_follow_headers Fixtures.no_query Fixtures.fixture_page
           Fixtures.exhibit_rows); reflexivity.
Defined.

(** X19: once the files list is found, the records of the primary files
    are returned whatever happens in the attachments section: the result
    is these records followed by records that all carry a [section] key,
    and by nothing when the attachments list does not appear or its rows
    cannot be read. *)
Theorem primary_records_survive
    (query_file : string -> res (option string)) (p : page) :
  goto p = Ok tt ->
  files_selector p = Ok tt ->
  exists att,
    scrape_meeting_files query_file p
    = Ok (files (snd (primary_section query_file p (mkWalk [] None))) ++ att)
    /\ Forall (fun f => is_Some (Data.section f)) att
    /\ (attachments_selector p = Raise \/ all_items p = Raise -> att = []).
Proof.
  intros Hgoto Hsel.
  destruct (after_primary_section query_file p) as (prim & Hrun).
  unfold scrape_meeting_files. rewrite Hgoto, Hsel.
  unfold mbind at 1. unfold M_bind at 1. rewrite Hrun. cbn [snd files].
  unfold attachments_section.
  destruct (attachments_selector p) as [[]|] eqn:Ha.
  - destruct (all_items p) as [rows|] eqn:Hrows.
    + destruct (rows_loop rows (mkWalk prim None))
        as (rss & Hloop & Hlen & Htags).
      exists (concat rss). split; [|split].
      * unfold catch, mbind, M_bind, lift, set_section, modify. simpl.
        by rewrite Hloop.
      * apply Forall_concat. apply Forall_forall. intros rs Hrs.
        apply list_elem_of_lookup in Hrs as [i Hi].
        destruct (rows !! i) as [row|] eqn:Hrow.
        -- destruct (Htags i row rs Hrow Hi) as [Ht _].
           eapply Forall_impl; [exact Ht|]. intros f Hf. unfold tagged in Hf.
           rewrite Hf. by eexists.
        -- apply lookup_ge_None in Hrow. apply lookup_lt_Some in Hi. lia.
      * intros [?|?]; done.
    + exists []. split; [|split; [constructor|done]].
      unfold catch, mbind, M_bind, lift. simpl. by rewrite app_nil_r.
  - exists []. split; [|split; [constructor|done]].
    unfold catch, mbind, M_bind, lift. simpl. by rewrite app_nil_r.
Qed.

Lemma primary_records_survive_witness :
  exists att,
    scrape_meeting_files Fixtures.no_query Fixtures.primary_only_page
    = Ok (files (snd (primary_section Fixtures.no_query
                        Fixtures.primary_only_page (mkWalk [] None))) ++ att)
    /\ Forall (fun f => is_Some (Data.section f)) att
    /\ (attachments_selector Fixtures.primary_only_page = Raise
        \/ all_items Fixtures.primary_only_page = Raise -> att = []).
Proof.
  apply (primary_records_survive Fixtures.no_query Fixtures.primary_only_page);
    reflexivity.
Defined.

End SectionFacts.

(** ** Meetings with their files *)

Module PipelineFacts.

Import Exn Pipeline Invariants PipelineSpec.

(** *** Rules for [preserves] *)

Section Preserves.

Context {S : Type} (I : S -> Prop).

Lemma preserves_ret {A} (a : A) : preserves I (mret a : M S A).
Proof. intros st Hst. exact Hst. Qed.

Lemma preserves_lift {A} (r : res A) : preserves I (lift r : M S A).
Proof. intros st Hst. exact Hst. Qed.

Lemma preserves_bind {A B} (m : M S A) (f : A -> M S B) :
  preserves I m -> (forall a, preserves I (f a)) -> preserves I (m ≫= f).
Proof.
  intros Hm Hf st Hst. unfold mbind, M_bind.
  specialize (Hm st Hst). destruct (m st) as [[a|] st']; simpl in *.
  - by apply Hf.
  - done.
Qed.

Lemma preserves_catch {A} (m h : M S A) :
  preserves I m -> preserves I h -> preserves I (catch m h).
Proof.
  intros Hm Hh st Hst. unfold catch.
  specialize (Hm st Hst). destruct (m st) as [[a|] st']; simpl in *.
  - done.
  - by apply Hh.
Qed.

Lemma preserves_for {A} (l : list A) (body : A -> M S ctl) :
  (forall x, x ∈ l -> preserves I (body x)) -> preserves I (for_ l body).
Proof.
  induction l as [|x l IH]; intros Hbody; simpl.
  - apply preserves_ret.
  - apply preserves_bind; [apply Hbody; left|].
    intros [|]; [|apply preserves_ret].
    apply IH. intros y Hy. apply Hbody. by right.
Qed.

Lemma preserves_modify (f : S -> S) :
  (forall st, I st -> I (f st)) -> preserves I (modify f).
Proof. intros Hf st Hst. by apply Hf. Qed.

End Preserves.

Ltac preserves_step :=
  lazymatch goal with
  | |- preserves _ (mret _) => apply preserves_ret
  | |- preserves _ (lift _) => apply preserves_lift
  | |- preserves _ (catch _ _) => apply preserves_catch
  | |- preserves _ (_ ≫= _) => apply preserves_bind; [|intros ?]
  | |- preserves _ (if ?b then _ else _) => destruct b
  | |- preserves _ (match ?x with _ => _ end) => destruct x
  end.

(** *** Loops that raise *)

Section Loops.

Context {S A : Type} (body : A -> M S ctl).

(** A turn that raises ends the loop. *)
Lemma for_raise_at pre x post st :
  (forall st', fst (body x st') = Raise) ->
  for_ (pre ++ x :: post) body st = for_ (pre ++ [x]) body st.
Proof.
  intros Hx. revert st. induction pre as [|y pre IH]; intros st; simpl.
  - unfold mbind, M_bind. specialize (Hx st).
    destruct (body x st) as [[c|] st']; simpl in Hx; [done|done].
  - unfold mbind, M_bind.
    destruct (body y st) as [[[|]|] st']; [apply IH|done..].
Qed.

Lemma for_raises l x st :
  x ∈ l ->
  (forall st', fst (body x st') = Raise) ->
  (forall y st', fst (body y st') <> Ok Break) ->
  fst (for_ l body st) = Raise.
Proof.
  intros Hin Hx Hnb. revert st. induction l as [|y l IH]; intros st.
  - by apply elem_of_nil in Hin.
  - simpl. unfold mbind, M_bind.
    apply elem_of_cons in Hin as [<-|Hin].
    + specialize (Hx st). by destruct (body x st) as [[c|] st'].
    + specialize (Hnb y st). destruct (body y st) as [[[|]|] st']; simpl in *;
        [by apply IH|done|done].
Qed.

End Loops.

(** *** Lists with their positions *)

Lemma zip_seq_split {A} (l : list A) i x k :
  l !! i = Some x ->
  zip (seq k (length l)) l
  = zip (seq k i) (take i l)
    ++ (k + i, x) :: zip (seq (k + S i) (length l - S i)) (drop (S i) l).
Proof.
  revert i k. induction l as [|y l IH]; intros i k Hi; [done|].
  destruct i as [|i]; simpl in *.
  - injection Hi as ->. rewrite Nat.add_0_r, Nat.sub_0_r, drop_0.
    by rewrite Nat.add_1_r.
  - rewrite (IH i (S k) Hi). by rewrite !Nat.add_succ_r.
Qed.

Lemma zip_seq_elem {A} (l : list A) k n i x :
  (i, x) ∈ zip (seq k n) l -> k <= i /\ l !! (i - k) = Some x.
Proof.
  intros Hin. apply list_elem_of_lookup in Hin as [j Hj].
  apply lookup_zip_Some in Hj as [Hs Hl].
  apply lookup_seq in Hs as [-> Hlt]. split; [lia|].
  by replace (k + j - k) with j by lia.
Qed.

(** *** The selection *)

Lemma pool_in_scope ms s e :
  (if bool_decide (is_Some s) || bool_decide (is_Some e)
   then Playwright.filter_meetings_by_date_range ms s e else ms)
  = in_scope ms s e.
Proof.
  unfold in_scope.
  destruct (bool_decide (is_Some s) || bool_decide (is_Some e)) eqn:E; [|done].
  apply RangeFacts.filter_is_filter. apply orb_true_iff in E as [E|E];
    apply bool_decide_eq_true in E; auto.
Qed.

Lemma last_meetings_suffix {A} n (l : list A) :
  last_meetings n l `suffix_of` l.
Proof.
  exists (take (length l - Z.to_nat n) l). unfold last_meetings.
  by rewrite take_drop.
Qed.

Lemma last_meetings_length {A} n (l : list A) :
  length (last_meetings n l) = Nat.min (Z.to_nat n) (length l).
Proof. unfold last_meetings. rewrite length_drop. lia. Qed.

(** X7: the meetings that [scrape_meetings_with_files] goes on to process
    are never an empty list: they are the last meetings (the bottom of
    the list) among those in the date range, or among all when no bound
    is given, at most [max_meetings] of them when this limit is positive
    and all of them otherwise.  The method returns early with [[]]
    exactly when listing the meetings raised or when none is in scope. *)
Theorem select_meetings_spec
    (listed : res (list Data.meeting)) (max_meetings : option Z)
    (start_date end_date : option Datetime.date) :
  match select_meetings listed max_meetings start_date end_date with
  | Some selected =>
      exists meetings,
        listed = Ok meetings
        /\ selected <> []
        /\ selected `suffix_of` in_scope meetings start_date end_date
        /\ length selected
           = capped max_meetings
               (length (in_scope meetings start_date end_date))
  | None =>
      listed = Raise
      \/ exists meetings,
           listed = Ok meetings
           /\ in_scope meetings start_date end_date = []
  end.
Proof.
  unfold select_meetings.
  destruct listed as [[|m ms]|]; [right; exists []; split; [done|]|..|by left].
  { unfold in_scope. destruct (_ || _); [|done]. by rewrite filter_nil. }
  rewrite pool_in_scope.
  destruct (in_scope (m :: ms) start_date end_date) as [|p pool'] eqn:Hpool.
  - assert (bool_decide (is_Some start_date) || bool_decide (is_Some end_date)
            = true) as ->.
    { unfold in_scope in Hpool. by destruct (_ || _). }
    simpl. right. by exists (m :: ms).
  - rewrite andb_false_r.
    unfold capped.
    destruct max_meetings as [k|]; [destruct (0 <? k)%Z eqn:Hk|]; simpl.
    + exists (m :: ms). rewrite Hpool. split; [done|]. split; [|split].
      * intros Hnil. apply (f_equal length) in Hnil.
        rewrite last_meetings_length in Hnil. simpl in Hnil.
        apply Z.ltb_lt in Hk. lia.
      * apply last_meetings_suffix.
      * apply last_meetings_length.
    + exists (m :: ms). rewrite Hpool. by repeat split.
    + exists (m :: ms). rewrite Hpool. by repeat split.
Qed.

(** X8: with [--meetings-only] and the Selenium backend the command line
    shows the meetings that [scrape_meetings_with_files] would select from
    the same list, and no meeting when that method would return early.
    With the Playwright backend nothing is shown: the import of the
    scraper class raises. *)
Theorem meetings_only_agrees
    (backend : string) (meetings : list Data.meeting)
    (start_date end_date : option Datetime.date) (meeting_count : option Z) :
  Cli.meetings_only backend meetings start_date end_date meeting_count
  = if String.eqb backend "playwright" then Raise
    else Ok (default []
               (select_meetings (Ok meetings) meeting_count
                  start_date end_date)).
Proof.
  unfold Cli.meetings_only, Cli.filter_of, select_meetings.
  destruct (String.eqb backend "playwright"); [reflexivity|]. simpl.
  change Selenium.filter_meetings_by_date_range
    with Playwright.filter_meetings_by_date_range.
  destruct meetings as [|m ms].
  - assert (Playwright.filter_meetings_by_date_range [] start_date end_date
            = []) as ->.
    { unfold Playwright.filter_meetings_by_date_range. by destruct (_ && _). }
    destruct (_ || _); destruct meeting_count as [k|]; try done;
      by destruct (0 <? k)%Z.
  - destruct (if _ || _ then _ else _) as [|p pool'] eqn:Hpool.
    + destruct (bool_decide (is_Some start_date)
                || bool_decide (is_Some end_date)) eqn:E.
      * simpl. destruct meeting_count as [k|]; [|done]. by destruct (0 <? k)%Z.
      * done.
    + rewrite andb_false_r. destruct meeting_count as [k|]; [|done].
      by destruct (0 <? k)%Z.
Qed.

Example two_most_recent_in_range :
  select_meetings
    (Ok [Fixtures.m1; Fixtures.m2; Fixtures.m3; Fixtures.m4])
    (Some 2%Z) (Some (Datetime.mkDate 2025 8 1)) None
  = Some [Fixtures.m2; Fixtures.m4].
Proof. reflexivity. Qed.

Section Processing.

Variable path_join : string -> string -> string.
Variable isalnum : N -> bool.

(** *** Without downloads *)

Lemma turn_without_download s dir click i m r :
  meeting_turn path_join isalnum s false dir click (i, m) r
  = (Ok Next,
     mkRun (alter (fun x => mkScraped (s_meeting x) (Some (found_at s i))) i
              (r_meetings r))
           (r_fetched r)).
Proof.
  unfold meeting_turn, found_at, catch, mbind, M_bind, lift, set_files, modify.
  simpl. by destruct (v_files (visit_at s i)).
Qed.

Lemma loop_without_download s dir click ms :
  forall k past f,
    length past = k ->
    for_ (zip (seq k (length ms)) ms)
      (meeting_turn path_join isalnum s false dir click)
      (mkRun (past ++ map fresh ms) f)
    = (Ok tt,
       mkRun (past
              ++ imap (fun i m => mkScraped m (Some (found_at s (k + i)))) ms)
             f).
Proof.
  induction ms as [|m ms IH]; intros k past f Hk; [done|].
  cbn [length seq zip zip_with for_ map]. unfold mbind at 1. unfold M_bind at 1.
  rewrite turn_without_download. cbn [r_meetings r_fetched].
  replace (alter _ k (past ++ fresh m :: map fresh ms))
    with ((past ++ [mkScraped m (Some (found_at s k))]) ++ map fresh ms).
  2:{ rewrite <- app_assoc. subst k.
      rewrite <- (Nat.add_0_r (length past)). by rewrite alter_app_r. }
  rewrite (IH (S k)) by (rewrite length_app; simpl; lia).
  rewrite <- app_assoc. cbn [imap app]. rewrite Nat.add_0_r.
  do 4 f_equal. apply imap_ext. intros i x _. simpl. by rewrite Nat.add_succ_r.
Qed.

(** X9: without downloads, when the browser starts and closes, the method
    returns the selected meetings in order, each with a [files] list: the
    list that scraping its files page gave, or the empty list when that
    raised.  A failure for one meeting changes nothing for the others, and
    [download_file] is not called. *)
Theorem files_without_download
    (listed : res (list Data.meeting)) (s : session) (download_dir : string)
    (max_meetings : option Z) (start_date end_date : option Datetime.date)
    (use_click_download : bool) (selected : list Data.meeting) :
  select_meetings listed max_meetings start_date end_date = Some selected ->
  launch s = Ok tt ->
  close s = Ok tt ->
  scrape_meetings_with_files path_join isalnum listed s false download_dir
    max_meetings start_date end_date use_click_download
  = Ok (imap (fun i m => mkScraped m (Some (found_at s i))) selected)
  /\ r_fetched (snd (process path_join isalnum s false download_dir
                       use_click_download selected)) = [].
Proof.
  intros Hsel Hlaunch Hclose.
  unfold scrape_meetings_with_files, process. rewrite Hsel, Hlaunch, Hclose.
  pose proof (loop_without_download s download_dir use_click_download
                selected 0 [] [] eq_refl) as H.
  unfold fresh in H. simpl in H. simpl. rewrite H. done.
Qed.

End Processing.

Lemma files_without_download_witness :
  scrape_meetings_with_files Fixtures.join Fixtures.latin_alnum
    (Ok [Fixtures.m1; Fixtures.m2; Fixtures.m4]) Fixtures.second_fails
    false "./downloads" None None None false
  = Ok (imap (fun i m => mkScraped m (Some (found_at Fixtures.second_fails i)))
          [Fixtures.m1; Fixtures.m2; Fixtures.m4])
  /\ r_fetched (snd (process Fixtures.join Fixtures.latin_alnum Fixtures.second_fails false
                       "./downloads" false
                       [Fixtures.m1; Fixtures.m2; Fixtures.m4])) = [].
Proof.
  apply (files_without_download Fixtures.join Fixtures.latin_alnum
           (Ok [Fixtures.m1; Fixtures.m2; Fixtures.m4]) Fixtures.second_fails
           "./downloads" None None None false
           [Fixtures.m1; Fixtures.m2; Fixtures.m4]); reflexivity.
Defined.

Example second_meeting_gets_no_file :
  scrape_meetings_with_files Fixtures.join Fixtures.latin_alnum
    (Ok [Fixtures.m1; Fixtures.m2; Fixtures.m4]) Fixtures.second_fails
    false "./downloads" None None None false
  = Ok [mkScraped Fixtures.m1 (Some [Fixtures.draft_minutes]);
        mkScraped Fixtures.m2 (Some []);
        mkScraped Fixtures.m4 (Some [Fixtures.starred_record])].
Proof. reflexivity. Qed.

(** *** The direct fetch *)

Section Fetching.

Variable path_join : string -> string -> string.
Variable isalnum : N -> bool.

Lemma saved_filename_inv f filename :
  Playwright.saved_filename isalnum f = Ok (Some filename) ->
  exists name,
    Data.name f = Py.VStr name
    /\ Py.truthy (Data.download_url f) = true
    /\ Data.download_url f <> Py.VStr "N/A"
    /\ filename = Playwright.sanitize isalnum name
                  +:+ (if default false (Data.plain_text f)
                       then ".txt" else ".pdf").
Proof.
  unfold Playwright.saved_filename. intros E.
  destruct (Py.truthy (Data.download_url f)) eqn:Ht; [|done].
  destruct (bool_decide (Data.download_url f = Py.VStr "N/A")) eqn:Hna; [done|].
  apply bool_decide_eq_false in Hna. simpl in E.
  destruct (Data.name f) as [| | |name]; try done.
  injection E as <-. exists name. repeat split; try done.
  by rewrite FilenameFacts.extension_cases.
Qed.

Lemma direct_fetch_logs (P : Py.value * string -> Prop) v dir f :
  (forall filename,
     Playwright.saved_filename isalnum f = Ok (Some filename) ->
     P (Data.download_url f, path_join dir filename)) ->
  preserves (fun r => Forall P (r_fetched r)) (direct_fetch path_join isalnum v dir f).
Proof.
  intros HP. unfold direct_fetch.
  destruct (Playwright.saved_filename isalnum f) as [[filename|]|] eqn:E.
  2,3: (intros r Hr; exact Hr).
  intros r Hr. unfold mbind, M_bind, lift, fetch, modify. simpl.
  assert (Forall P (r_fetched r
                    ++ [(Data.download_url f, path_join dir filename)])).
  { apply Forall_app. split; [done|]. constructor; [by apply HP|constructor]. }
  destruct (v_download_file v _ _); simpl; [|done].
  by destruct (v_getsize v _).
Qed.

Lemma turn_logs s dl dir click selected i m :
  selected !! i = Some m ->
  preserves (fun r => Forall (fetch_of path_join isalnum s dir selected) (r_fetched r))
    (meeting_turn path_join isalnum s dl dir click (i, m)).
Proof.
  intros Hi r Hr. unfold meeting_turn. cbn [fst snd].
  unfold mbind at 1. unfold M_bind at 1.
  unfold catch, mbind, M_bind, lift, set_files, modify.
  destruct (v_files (visit_at s i)) as [files|] eqn:Hfiles; cbn [fst snd];
    [|exact Hr].
  destruct dl; [|exact Hr].
  destruct (v_makedirs (visit_at s i)); [|exact Hr].
  destruct click; [by destruct (v_click_download (visit_at s i))|].
  unfold mret, M_ret. cbn [fst snd].
  match goal with
  | |- context [for_ files ?body ?st] =>
      assert (Forall (fetch_of path_join isalnum s dir selected)
                (r_fetched (snd (for_ files body st)))) as Hloop
  end.
  { apply (preserves_for
             (fun r => Forall (fetch_of path_join isalnum s dir selected) (r_fetched r)));
      [|exact Hr].
    intros f Hf. apply direct_fetch_logs. intros filename Hsaved.
    apply saved_filename_inv in Hsaved as (name & Hname & Ht & Hna & ->).
    by exists i, m, files, f, name. }
  match goal with
  | |- context [for_ files ?body ?st] =>
      destruct (for_ files body st) as [[[]|] r']
  end; exact Hloop.
Qed.

(** X10: whatever the flags and whatever raises, every call of
    [download_file] that the loop makes is for a record, among the files
    scraped for a selected meeting, whose name is a string and whose URL
    is a true value other than ["N/A"]; the file is written in the
    directory [event_<id>] of that meeting, under the sanitized name with
    the extension [.txt] or [.pdf].  A record without usable URL is never
    fetched. *)
Theorem fetches_are_usable
    (s : session) (download_files : bool) (download_dir : string)
    (use_click_download : bool) (selected : list Data.meeting) :
  Forall (fetch_of path_join isalnum s download_dir selected)
    (r_fetched (snd (process path_join isalnum s download_files download_dir
                       use_click_download selected))).
Proof.
  unfold process.
  apply (preserves_for
           (fun r => Forall (fetch_of path_join isalnum s download_dir selected)
                       (r_fetched r)));
    [|constructor].
  intros [i m] Him. apply turn_logs.
  apply zip_seq_elem in Him as [_ Him]. by rewrite Nat.sub_0_r in Him.
Qed.

(** *** A record that stops the run *)

Lemma direct_fetch_goes_on v dir f st :
  fst (direct_fetch path_join isalnum v dir f st) <> Ok Break.
Proof.
  unfold direct_fetch, mbind, M_bind, lift, fetch, modify.
  destruct (Playwright.saved_filename isalnum f) as [[filename|]|]; simpl; try done.
  destruct (v_download_file v _ _); simpl; [|done].
  by destruct (v_getsize v _).
Qed.

Lemma direct_fetch_raises v dir f st :
  Playwright.saved_filename isalnum f = Raise ->
  fst (direct_fetch path_join isalnum v dir f st) = Raise.
Proof. intros E. unfold direct_fetch, mbind, M_bind, lift. by rewrite E. Qed.

Lemma turn_raises s dir i m files f r :
  v_files (visit_at s i) = Ok files ->
  v_makedirs (visit_at s i) = Ok tt ->
  f ∈ files ->
  Playwright.saved_filename isalnum f = Raise ->
  fst (meeting_turn path_join isalnum s true dir false (i, m) r) = Raise.
Proof.
  intros Hfiles Hdirs Hf Hraise. unfold meeting_turn. cbn [fst snd].
  unfold mbind at 1. unfold M_bind at 1.
  unfold catch, mbind, M_bind, lift, set_files, modify.
  rewrite Hfiles, Hdirs. unfold mret, M_ret. cbn [fst snd].
  match goal with
  | |- context [for_ files ?body ?st] =>
      pose proof (for_raises body files f st Hf
                    (fun st' => direct_fetch_raises _ _ f st' Hraise)
                    (fun y st' => direct_fetch_goes_on _ _ y st')) as Hloop;
      destruct (for_ files body st) as [[[]|] r']
  end; [done|done].
Qed.

Lemma direct_fetch_keeps_meetings (I : list scraped -> Prop) v d f :
  preserves (fun r => I (r_meetings r)) (direct_fetch path_join isalnum v d f).
Proof.
  unfold direct_fetch. repeat preserves_step;
    try (apply preserves_modify; by intros r).
Qed.

(** A turn changes the [files] key of its meeting and nothing else of the
    meeting dicts. *)
Lemma turn_keeps_meetings s dl dir click selected im :
  preserves (fun r => map s_meeting (r_meetings r) = selected)
    (meeting_turn path_join isalnum s dl dir click im).
Proof.
  assert (forall i fs,
            preserves (fun r => map s_meeting (r_meetings r) = selected)
              (set_files i fs)) as Hset.
  { intros i fs. apply preserves_modify. intros r <-. simpl.
    apply list_eq. intros j. rewrite !list_lookup_fmap.
    destruct (decide (i = j)) as [->|Hne].
    - rewrite list_lookup_alter_eq. by destruct (r_meetings r !! j).
    - by rewrite list_lookup_alter_ne. }
  unfold meeting_turn.
  repeat preserves_step; try apply Hset; try apply preserves_for; intros;
    try apply (direct_fetch_keeps_meetings
                 (fun l => map s_meeting l = selected)).
Qed.

Lemma turn_keeps_others s dl dir click i m j x :
  i <> j ->
  preserves (fun r => r_meetings r !! j = x)
    (meeting_turn path_join isalnum s dl dir click (i, m)).
Proof.
  intros Hne.
  assert (forall fs, preserves (fun r => r_meetings r !! j = x) (set_files i fs))
    as Hset.
  { intros fs. apply preserves_modify. intros r <-. simpl.
    by rewrite list_lookup_alter_ne. }
  unfold meeting_turn. cbn [fst snd].
  repeat preserves_step; try apply Hset; try apply preserves_for; intros;
    try apply (direct_fetch_keeps_meetings (fun l => l !! j = x)).
Qed.

(** X11: in the direct fetch, a record with a usable URL whose name is not
    a string makes [re.sub] raise outside the handler of the meeting: the
    loop over the meetings ends there.  The method still returns the
    selected meetings, but every meeting after the one with that record
    is returned as it was listed, without a [files] key. *)
Theorem unnamed_record_stops_the_run
    (listed : res (list Data.meeting)) (s : session) (download_dir : string)
    (max_meetings : option Z) (start_date end_date : option Datetime.date)
    (selected : list Data.meeting) (i : nat) (m : Data.meeting)
    (files : list Data.file_info) (f : Data.file_info) :
  select_meetings listed max_meetings start_date end_date = Some selected ->
  launch s = Ok tt ->
  close s = Ok tt ->
  selected !! i = Some m ->
  v_files (visit_at s i) = Ok files ->
  v_makedirs (visit_at s i) = Ok tt ->
  f ∈ files ->
  Py.truthy (Data.download_url f) = true ->
  Data.download_url f <> Py.VStr "N/A" ->
  (forall name, Data.name f <> Py.VStr name) ->
  exists out,
    scrape_meetings_with_files path_join isalnum listed s true download_dir
      max_meetings start_date end_date false = Ok out
    /\ map s_meeting out = selected
    /\ forall j mj, i < j -> selected !! j = Some mj ->
         out !! j = Some (mkScraped mj None).
Proof.
  intros Hsel Hlaunch Hclose Hi Hfiles Hdirs Hf Ht Hna Hname.
  assert (Playwright.saved_filename isalnum f = Raise) as Hraise.
  { unfold Playwright.saved_filename. rewrite Ht.
    rewrite bool_decide_eq_false_2 by done. simpl.
    destruct (Data.name f) as [| | |name] eqn:E; try done.
    by destruct (Hname name). }
  unfold scrape_meetings_with_files. rewrite Hsel, Hlaunch, Hclose. simpl.
  eexists. split; [reflexivity|]. split.
  - unfold process.
    apply (preserves_for (fun r => map s_meeting (r_meetings r) = selected)).
    + intros im _. apply turn_keeps_meetings.
    + simpl. rewrite <- list_fmap_compose. apply list_fmap_id.
  - intros j mj Hij Hj. unfold process.
    rewrite (zip_seq_split selected i m 0 Hi).
    rewrite for_raise_at
      by (intros st';
          apply (turn_raises s download_dir i m files f st'
                   Hfiles Hdirs Hf Hraise)).
    apply (preserves_for (fun r => r_meetings r !! j = Some (mkScraped mj None))).
    + intros [i' m'] Hin. apply turn_keeps_others.
      apply elem_of_app in Hin as [Hin|Hin].
      * apply zip_seq_elem in Hin as [_ Hin].
        apply lookup_take_Some in Hin as [_ Hlt]. lia.
      * apply list_elem_of_singleton in Hin. injection Hin as -> _. simpl. lia.
    + simpl. rewrite list_lookup_fmap, Hj. done.
Qed.

End Fetching.

Lemma unnamed_record_stops_the_run_witness :
  exists out,
    scrape_meetings_with_files Fixtures.join Fixtures.latin_alnum
      (Ok [Fixtures.m1; Fixtures.m2]) Fixtures.first_unnamed true "./downloads"
      None None None false = Ok out
    /\ map s_meeting out = [Fixtures.m1; Fixtures.m2]
    /\ forall j mj, 0 < j -> [Fixtures.m1; Fixtures.m2] !! j = Some mj ->
         out !! j = Some (mkScraped mj None).
Proof.
  apply (unnamed_record_stops_the_run Fixtures.join Fixtures.latin_alnum
           (Ok [Fixtures.m1; Fixtures.m2]) Fixtures.first_unnamed "./downloads"
           None None None [Fixtures.m1; Fixtures.m2] 0 Fixtures.m1
           [Fixtures.draft_minutes; Fixtures.unnamed_record]
           Fixtures.unnamed_record);
    try reflexivity.
  - right. left.
  - discriminate.
  - discriminate.
Defined.

(** The first meeting of this run has a record without a name after one
    that is fetched: the file of the first record is written, the second
    meeting is not visited. *)
Example run_stopped_by_unnamed_record :
  scrape_meetings_with_files Fixtures.join Fixtures.latin_alnum
    (Ok [Fixtures.m1; Fixtures.m2]) Fixtures.first_unnamed true "./downloads"
    None None None false
  = Ok [mkScraped Fixtures.m1
          (Some [Fixtures.draft_minutes; Fixtures.unnamed_record]);
        mkScraped Fixtures.m2 None]
  /\ map snd
       (r_fetched (snd (process Fixtures.join Fixtures.latin_alnum Fixtures.first_unnamed true
                          "./downloads" false [Fixtures.m1; Fixtures.m2])))
     = ["./downloads/event_101/Minutes-Draft.pdf"].
Proof. split; vm_compute; reflexivity. Qed.

End PipelineFacts.

(** ** The list of meetings *)

Module ListingFacts.

Import Exn Listing ListingSpec.

Section Lister.

Variable fromisoformat : string -> option Datetime.date.
Variable urljoin : string -> string -> string.

Lemma meeting_of_wellformed li m :
  meeting_of fromisoformat urljoin li = Ok (Some m) -> wellformed urljoin m.
Proof.
  unfold meeting_of. intros H.
  destruct (li_link_count li) as [n|]; [|done]. simpl in H.
  destruct (n =? 0)%nat; [done|].
  destruct (li_href li) as [[href|]|]; try done. simpl in H.
  destruct (String.eqb href "") eqn:E; [done|].
  destruct (li_data_id li) as [id|]; [|done]. simpl in H.
  destruct (title_of li) as [t|]; [|done]. simpl in H.
  injection H as <-. split; simpl.
  - intros ->. done.
  - by destruct (String.prefix "http" href).
Qed.

(** The loop over the entries keeps, in order, the meetings of the
    entries that give one. *)
Lemma add_meetings_omap lis acc :
  fold_left (add_meeting fromisoformat urljoin) lis acc
  = acc ++ omap (fun li => rescue (meeting_of fromisoformat urljoin li) None)
             lis.
Proof.
  revert acc. induction lis as [|li lis IH]; intros acc; simpl.
  - by rewrite app_nil_r.
  - rewrite IH. unfold add_meeting.
    destruct (meeting_of fromisoformat urljoin li) as [[m|]|]; simpl; try done.
    by rewrite <- app_assoc.
Qed.

Lemma with_anchor_raise lis : fold_left with_anchor lis Raise = Raise.
Proof. by induction lis. Qed.

Lemma with_anchor_filter lis acc :
  forallb counted lis = true ->
  fold_left with_anchor lis (Ok acc)
  = Ok (acc ++ filter (fun li => has_anchor li = true) lis).
Proof.
  revert acc. induction lis as [|li lis IH]; intros acc H; simpl.
  - by rewrite app_nil_r.
  - simpl in H. apply andb_true_iff in H as [Hc H].
    unfold counted in Hc. rewrite filter_cons.
    destruct (decide (has_anchor li = true)) as [Ha|Ha]; unfold has_anchor in Ha;
      destruct (li_anchor_count li) as [[|n]|]; try done; simpl;
      rewrite (IH _ H); try done.
    by rewrite <- app_assoc.
Qed.

Lemma with_anchor_fails lis acc :
  forallb counted lis = false ->
  fold_left with_anchor lis (Ok acc) = Raise.
Proof.
  revert acc. induction lis as [|li lis IH]; intros acc H; simpl; [done|].
  simpl in H. unfold counted in H at 1.
  destruct (li_anchor_count li) as [[|n]|]; simpl in *.
  - by apply IH.
  - by apply IH.
  - apply with_anchor_raise.
Qed.

(** X12: every meeting that [scrape_meetings] returns has an [href] that
    is not empty, and its [url] is that [href] when it starts with [http]
    and [urljoin(base_url, href)] otherwise. *)
Theorem listed_meetings_wellformed
    (p : portal) (meetings : list Data.meeting) :
  scrape_meetings fromisoformat urljoin p = Ok meetings ->
  Forall (wellformed urljoin) meetings.
Proof.
  unfold scrape_meetings. intros H.
  destruct (pt_launch p); [|done]. simpl in H.
  destruct (pt_close p); [|done]. simpl in H. injection H as <-.
  destruct (pt_goto p); [|constructor]. destruct (pt_table p); [|constructor].
  destruct (pt_list p); [|constructor].
  destruct (pt_first_item p); [|constructor].
  destruct (pt_items p) as [items|]; [|constructor]. simpl.
  destruct (fold_left with_anchor items (Ok [])) as [lis|]; [|constructor].
  simpl. rewrite add_meetings_omap. simpl.
  apply Forall_forall. intros m Hm.
  apply list_elem_of_omap in Hm as (li & _ & Hli).
  destruct (meeting_of fromisoformat urljoin li) as [[m'|]|] eqn:E;
    simpl in Hli; try done.
  injection Hli as ->. by apply (meeting_of_wellformed li).
Qed.

(** X13: when the portal page loads and the anchors of every entry can be
    counted, [scrape_meetings] returns, in the order of the page, one
    meeting for each entry with an anchor whose reading neither raises
    nor stops at a missing address: an entry for which a call raises is
    left out, and the entries before and after it are not affected. *)
Theorem failing_entry_is_left_out (p : portal) (items : list entry) :
  reachable p ->
  pt_items p = Ok items ->
  forallb counted items = true ->
  scrape_meetings fromisoformat urljoin p
  = Ok (omap (fun li => rescue (meeting_of fromisoformat urljoin li) None)
          (filter (fun li => has_anchor li = true) items)).
Proof.
  intros (Hl & Hg & Ht & Hli & Hf & Hc) Hitems Hcounted.
  unfold scrape_meetings. rewrite Hl, Hg, Ht, Hli, Hf, Hc, Hitems. simpl.
  rewrite (with_anchor_filter _ [] Hcounted). simpl.
  by rewrite add_meetings_omap.
Qed.

(** X14: the loop that keeps the entries with an anchor is outside the
    handler of the entries: when counting the anchors of one entry
    raises, [scrape_meetings] returns the empty list, whatever the other
    entries hold. *)
Theorem anchor_failure_empties_the_list (p : portal) (items : list entry) :
  pt_launch p = Ok tt ->
  pt_close p = Ok tt ->
  pt_items p = Ok items ->
  forallb counted items = false ->
  scrape_meetings fromisoformat urljoin p = Ok [].
Proof.
  intros Hl Hc Hitems Hcounted.
  unfold scrape_meetings. rewrite Hl, Hc, Hitems. simpl.
  destruct (pt_goto p); [|done]. destruct (pt_table p); [|done].
  destruct (pt_list p); [|done]. destruct (pt_first_item p); [|done]. simpl.
  by rewrite (with_anchor_fails _ [] Hcounted).
Qed.

End Lister.

Example listing_with_broken_entry :
  scrape_meetings Fixtures.no_iso Fixtures.join_url
    (Fixtures.portal_with
       [Fixtures.meeting_entry; Fixtures.broken_entry;
        Fixtures.subheader_entry; Fixtures.meeting_entry])
  = Ok [Fixtures.listed_meeting; Fixtures.listed_meeting].
Proof. vm_compute. reflexivity. Qed.

Lemma listed_meetings_wellformed_witness :
  Forall (wellformed Fixtures.join_url)
    [Fixtures.listed_meeting; Fixtures.listed_meeting].
Proof.
  apply (listed_meetings_wellformed Fixtures.no_iso Fixtures.join_url
           (Fixtures.portal_with
              [Fixtures.meeting_entry; Fixtures.broken_entry;
               Fixtures.subheader_entry; Fixtures.meeting_entry])).
  vm_compute. reflexivity.
Defined.

Lemma failing_entry_is_left_out_witness :
  scrape_meetings Fixtures.no_iso Fixtures.join_url
    (Fixtures.portal_with
       [Fixtures.meeting_entry; Fixtures.broken_entry;
        Fixtures.subheader_entry; Fixtures.meeting_entry])
  = Ok (omap (fun li => rescue (meeting_of Fixtures.no_iso Fixtures.join_url li)
                          None)
          (filter (fun li => has_anchor li = true)
             [Fixtures.meeting_entry; Fixtures.broken_entry;
              Fixtures.subheader_entry; Fixtures.meeting_entry])).
Proof.
  apply (failing_entry_is_left_out Fixtures.no_iso Fixtures.join_url);
    [repeat split | reflexivity | reflexivity].
Defined.

Lemma anchor_failure_empties_the_list_witness :
  scrape_meetings Fixtures.no_iso Fixtures.join_url
    (Fixtures.portal_with [Fixtures.meeting_entry; Fixtures.uncounted_entry])
  = Ok [].
Proof.
  apply (anchor_failure_empties_the_list Fixtures.no_iso Fixtures.join_url
           (Fixtures.portal_with
              [Fixtures.meeting_entry; Fixtures.uncounted_entry])
           [Fixtures.meeting_entry; Fixtures.uncounted_entry]);
    reflexivity.
Defined.

End ListingFacts.

(** ** Date extractor, further properties *)

Module ExtractorFacts.

Import Exn DateSpec.

Section Dates.

Variable fromisoformat : string -> option Datetime.date.

(** X15: the date extractors of the two backends return the same date
    for an entry with the same attributes and the same text in its date
    block, although the Selenium one searches the text even when it is
    empty and the Playwright one does not. *)
Theorem backends_extract_same_date
    (data_date aria_label : res (option string)) (text : res string) :
  Selenium.extract_meeting_date fromisoformat
    (Selenium.mkLink data_date aria_label text)
  = Playwright.extract_meeting_date fromisoformat
      (Playwright.mkLink data_date aria_label (as_content text)).
Proof.
  unfold Selenium.extract_meeting_date, Playwright.extract_meeting_date,
    Selenium.extract_meeting_date_body, Playwright.extract_meeting_date_body.
  simpl. destruct data_date as [s|]; [|done]. simpl.
  change (Selenium.date_of_timestamp fromisoformat s)
    with (Playwright.date_of_timestamp fromisoformat s).
  destruct (Playwright.date_of_timestamp fromisoformat s); [done|].
  destruct aria_label as [a|]; [|done]. simpl.
  change (Selenium.date_of_label a) with (Playwright.date_of_label a).
  destruct (Playwright.date_of_label a) as [[d|]|]; try done. simpl.
  do 2 f_equal.
  unfold Selenium.date_of_h2, Playwright.date_of_h2. simpl.
  destruct text as [t|]; [|done]. simpl.
  destruct (String.eqb t "") eqn:E; [|done].
  apply String.eqb_eq in E as ->. reflexivity.
Qed.

Lemma date_of_parts_calendar mn d y dt :
  Playwright.date_of_parts mn d y = Ok (Some dt) -> calendar_day dt.
Proof.
  unfold Playwright.date_of_parts.
  destruct (Playwright.month_map _) as [m|]; [|done].
  unfold Datetime.make_date.
  destruct (_ && _)%Z eqn:E; [|done]. intros [= <-].
  unfold calendar_day. simpl.
  repeat (apply andb_true_iff in E as [E ?]).
  repeat match goal with H : (_ <=? _)%Z = true |- _ => apply Z.leb_le in H end.
  lia.
Qed.

(** X16: a date that the extractor returns is either the one that
    [fromisoformat] read from the [data-date] attribute, or a day of the
    calendar: a year from 1 to 9999, a month from 1 to 12 and a day that
    the month has in that year.  A label or a date block never yields a
    day such as the 30th of February. *)
Theorem label_and_block_dates_exist
    (l : Playwright.link) (d : Datetime.date) :
  Playwright.extract_meeting_date fromisoformat l = Some d ->
  calendar_day d
  \/ exists s, Playwright.data_date l = Ok (Some s)
               /\ fromisoformat (Py.replace_char "Z" "+00:00" s) = Some d.
Proof.
  unfold Playwright.extract_meeting_date, Playwright.extract_meeting_date_body.
  destruct (Playwright.data_date l) as [s|]; [|done]. simpl.
  destruct (Playwright.date_of_timestamp fromisoformat s) as [d'|] eqn:Hts.
  - simpl. intros [= ->]. right.
    unfold Playwright.date_of_timestamp in Hts.
    destruct s as [s|]; [|done]. destruct (negb _); [|done]. by exists s.
  - destruct (Playwright.aria_label l) as [a|]; [|done]. simpl.
    destruct (Playwright.date_of_label a) as [[d'|]|] eqn:Hl; try done; simpl.
    + intros [= ->]. left.
      unfold Playwright.date_of_label in Hl.
      destruct a as [a|]; [|done]. destruct (negb _); [|done].
      unfold Playwright.date_of_aria_label in Hl.
      destruct (Re.search _ _) as [m|]; [|done].
      by apply date_of_parts_calendar in Hl.
    + intros H. left.
      destruct (Playwright.date_of_h2 l) as [[d'|]|] eqn:Hh; try done.
      simpl in H. injection H as ->.
      unfold Playwright.date_of_h2 in Hh.
      destruct (Playwright.h2_text l) as [[t|]|]; try done. simpl in Hh.
      destruct (negb _); [|done].
      destruct (Re.search _ _) as [m|]; [|done].
      by apply date_of_parts_calendar in Hh.
Qed.

End Dates.

Lemma label_and_block_dates_exist_witness :
  calendar_day (Datetime.mkDate 2025 8 13)
  \/ exists s, Playwright.data_date Fixtures.dated_link = Ok (Some s)
               /\ Fixtures.no_iso (Py.replace_char "Z" "+00:00" s)
                  = Some (Datetime.mkDate 2025 8 13).
Proof.
  apply (label_and_block_dates_exist Fixtures.no_iso Fixtures.dated_link
           (Datetime.mkDate 2025 8 13)).
  vm_compute. reflexivity.
Defined.

End ExtractorFacts.

(** ** The scripts of a page *)

Module BundleFacts.

Import Exn Bundle BundleSpec.

Lemma main_script_first scripts :
  match main_script scripts with
  | Some s =>
      exists before tag after,
        scripts = before ++ tag :: after
        /\ src tag = s
        /\ is_bundle tag = true
        /\ Forall (fun t => is_bundle t = false) before
  | None => Forall (fun t => is_bundle t = false) scripts
  end.
Proof.
  induction scripts as [|t scripts IH]; simpl; [constructor|].
  destruct (Py.contains "main." (src t) && Py.endswith (src t) ".js") eqn:E.
  - exists [], t, scripts. repeat split; [done|constructor].
  - destruct (main_script scripts) as [s|].
    + destruct IH as (before & tag & after & -> & Hs & Hb & Hbefore).
      exists (t :: before), tag, after. repeat split; try done.
      by constructor.
    + by constructor.
Qed.

(** X17: [get_js_source] reports as the main bundle the address of the
    first script, in the order of the page, whose address contains
    [main.] and ends in [.js], together with all the scripts; it reports
    no bundle when no script has such an address, and no bundle and no
    script when the page cannot be asked. *)
Theorem main_bundle_is_first_match (scripts : res (list script_tag)) :
  match get_js_source scripts with
  | (Some s, all) =>
      exists before tag after,
        scripts = Ok all
        /\ all = before ++ tag :: after
        /\ src tag = s
        /\ is_bundle tag = true
        /\ Forall (fun t => is_bundle t = false) before
  | (None, all) =>
      (scripts = Raise /\ all = [])
      \/ (scripts = Ok all /\ Forall (fun t => is_bundle t = false) all)
  end.
Proof.
  unfold get_js_source. destruct scripts as [l|]; [|by left].
  pose proof (main_script_first l) as H.
  destruct (main_script l) as [s|].
  - destruct H as (before & tag & after & Hl & Hs & Hb & Hbefore).
    by exists before, tag, after.
  - by right.
Qed.

Example main_bundle_of_a_page :
  get_js_source
    (Ok [mkScriptTag "https://p/static/js/vendor.3c1.js" "" false true;
         mkScriptTag "https://p/static/js/main.8f3a.js.map" "" false true;
         mkScriptTag "https://p/static/js/main.8f3a.js" "" false true;
         mkScriptTag "https://p/static/js/main.0000.js" "" false true])
  = (Some "https://p/static/js/main.8f3a.js",
     [mkScriptTag "https://p/static/js/vendor.3c1.js" "" false true;
      mkScriptTag "https://p/static/js/main.8f3a.js.map" "" false true;
      mkScriptTag "https://p/static/js/main.8f3a.js" "" false true;
      mkScriptTag "https://p/static/js/main.0000.js" "" false true]).
Proof. reflexivity. Qed.

End BundleFacts.

(** ** The primary files in the Selenium package *)

Module SeleniumFacts.

Import Exn Playwright SeleniumWalk WalkSpec SeleniumSpec.

(** *** Rules for [uniform] *)

Lemma uniform_ret {A} (a : A) : uniform (mret a).
Proof. exists (Ok a), []. intros w. by rewrite WalkerFacts.extend_nil. Qed.

Lemma uniform_lift {A} (r : res A) : uniform (lift r).
Proof. exists r, []. intros w. by rewrite WalkerFacts.extend_nil. Qed.

Lemma uniform_bind {A B} (m : M walk A) (f : A -> M walk B) :
  uniform m -> (forall a, uniform (f a)) -> uniform (m ≫= f).
Proof.
  intros (r & rs & Hm) Hf. destruct r as [a|].
  - destruct (Hf a) as (r' & rs' & Hfa). exists r', (rs ++ rs'). intros w.
    unfold mbind, M_bind. rewrite Hm, Hfa. by rewrite WalkerFacts.extend_app.
  - exists Raise, rs. intros w. unfold mbind, M_bind. by rewrite Hm.
Qed.

Lemma uniform_catch {A} (m h : M walk A) :
  uniform m -> uniform h -> uniform (catch m h).
Proof.
  intros (r & rs & Hm) (r' & rs' & Hh). destruct r as [a|].
  - exists (Ok a), rs. intros w. unfold catch. by rewrite Hm.
  - exists r', (rs ++ rs'). intros w. unfold catch. rewrite Hm, Hh.
    by rewrite WalkerFacts.extend_app.
Qed.

Lemma uniform_for {A} (l : list A) (body : A -> M walk ctl) :
  (forall x, uniform (body x)) -> uniform (for_ l body).
Proof.
  intros Hbody. induction l as [|x l IH]; simpl.
  - apply uniform_ret.
  - apply uniform_bind; [apply Hbody|].
    intros [|]; [exact IH|apply uniform_ret].
Qed.

Lemma uniform_append f : uniform (append f).
Proof. exists (Ok tt), [f]. by intros w. Qed.

Ltac uniform_step :=
  lazymatch goal with
  | |- uniform (mret _) => apply uniform_ret
  | |- uniform (lift _) => apply uniform_lift
  | |- uniform (catch _ _) => apply uniform_catch
  | |- uniform (for_ _ _) => apply uniform_for; intros ?
  | |- uniform (_ ≫= _) => apply uniform_bind; [|intros ?]
  | |- uniform (append _) => apply uniform_append
  | |- uniform (unknown _) => apply uniform_append
  | |- uniform (if ?b then _ else _) => destruct b
  | |- uniform (match ?x with _ => _ end) => destruct x
  end.

Section Primary.

Variable query_file : string -> res (option string).

Lemma primary_file_uniform e : uniform (primary_file query_file e).
Proof.
  unfold primary_file, primary_trigger, primary_menu_item.
  repeat uniform_step.
Qed.

(** A turn of the loop always goes on with the next file, and what it
    appends does not depend on the files before it. *)
Lemma primary_file_turn e w :
  primary_file query_file e w = (Ok Next, extend w (records_of query_file e)).
Proof.
  destruct (primary_file_uniform e) as (r & rs & H).
  unfold records_of. rewrite !H. simpl.
  assert (fst (primary_file query_file e w) = Ok Next) as Hn.
  { unfold primary_file, catch, mbind, M_bind, lift.
    destruct (se_name_text e) as [t|]; [|done].
    destruct (primary_trigger query_file e (Py.strip t) w) as [[[]|] w']; done. }
  rewrite H in Hn. simpl in Hn. by subst r.
Qed.

Lemma primary_loop_records (items : list primary_entry) w :
  for_ items (primary_file query_file) w
  = (Ok tt, extend w (concat (map (records_of query_file) items))).
Proof.
  revert w. induction items as [|e items IH]; intros w; simpl.
  - by rewrite WalkerFacts.extend_nil.
  - unfold mbind, M_bind. rewrite primary_file_turn, IH.
    by rewrite WalkerFacts.extend_app.
Qed.

(** X20: in the Selenium package the primary section visits every primary
    file of the list, whatever raises while a file is handled: what it
    appends is the concatenation, in the order of the page, of the
    records of each file, and the records of a file do not depend on the
    other files. *)
Theorem selenium_primary_files_are_independent
    (items : list primary_entry) (w : walk) :
  primary_section query_file (Ok items) w
  = (Ok tt, extend w (concat (map (records_of query_file) items))).
Proof.
  unfold primary_section, catch, mbind, M_bind, lift.
  by rewrite primary_loop_records.
Qed.

(** X21: in the Selenium package a primary file whose name cannot be read
    is skipped and nothing else: the section gives the records that it
    gives for the list without that file. *)
Theorem selenium_name_failure_skips_one_file
    (pre post : list primary_entry) (e : primary_entry) (w : walk) :
  se_name_text e = Raise ->
  primary_section query_file (Ok (pre ++ e :: post)) w
  = primary_section query_file (Ok (pre ++ post)) w.
Proof.
  intros Hname.
  assert (records_of query_file e = []) as He.
  { unfold records_of, primary_file, catch, mbind, M_bind, lift.
    by rewrite Hname. }
  unfold primary_section, catch, mbind, M_bind, lift.
  rewrite !primary_loop_records.
  rewrite !map_app, !concat_app. simpl. by rewrite He.
Qed.

Lemma reference_raises_any h n1 n2 :
  primary_reference h n1 = Raise -> primary_reference h n2 = Raise.
Proof.
  unfold primary_reference. destruct h as [h|]; [|done].
  destruct (Py.truthy_dict _); [by destruct (React.h_remoteFile h)|].
  destruct (React.truthy_props _); [|done].
  destruct (React.h_reactProps h) as [props|]; [|done].
  by destruct (React.remoteFile props) as [[]|].
Qed.

(** X22: in the Selenium package, when the name of a primary file is read
    and a call made for its trigger raises before the menu loop (the
    button is missing, its id cannot be read, the reference of the props
    is [None], the click or the menu fails), the file gives exactly one
    record, of type ["Unknown"] with the URL ["N/A"]; its name is the
    displayed name, or the [name] of the payload when that was read
    before the call that raised. *)
Theorem selenium_trigger_failure_gives_unknown_record
    (e : primary_entry) (t : string) :
  se_name_text e = Ok t ->
  trigger_fails e = true ->
  exists name,
    records_of query_file e
    = [Data.mkFileInfo name "Unknown" (Py.VStr "N/A")
         None None None None None None None None None]
    /\ (name = Py.VStr (Py.strip t)
        \/ exists btn rf,
             se_button e = Ok btn
             /\ reference_of (inspect_button_handlers btn) = Some rf
             /\ name = Py.get rf "name").
Proof.
  intros Hname Hfail. unfold records_of, primary_file, primary_trigger.
  unfold trigger_fails in Hfail.
  unfold catch, mbind, M_bind, lift, unknown, append, modify. rewrite Hname.
  cbn [fst snd].
  destruct (se_button e) as [btn|]; [|by eexists; split; [reflexivity|left]].
  destruct (se_button_id e) as [id|]; [|by eexists; split; [reflexivity|left]].
  destruct (primary_reference (inspect_button_handlers btn) Py.VNone)
    as [r0|] eqn:Hr0.
  2:{ rewrite (reference_raises_any _ _ (Py.VStr (Py.strip t)) Hr0).
      by eexists; split; [reflexivity|left]. }
  destruct (primary_reference (inspect_button_handlers btn)
              (Py.VStr (Py.strip t)))
    as [r|] eqn:Hr; [|by eexists; split; [reflexivity|left]].
  assert (snd r = Py.VStr (Py.strip t)
          \/ exists rf, reference_of (inspect_button_handlers btn) = Some rf
                        /\ snd r = Py.get rf "name") as Hn.
  { unfold primary_reference in Hr. unfold reference_of.
    destruct (inspect_button_handlers btn) as [h|];
      [|injection Hr as <-; by left].
    destruct (Py.truthy_dict (React.h_remoteFile h)).
    - destruct (React.h_remoteFile h) as [rf|]; injection Hr as <-;
        [right; by exists rf|by left].
    - destruct (React.truthy_props _); [|injection Hr as <-; by left].
      destruct (React.h_reactProps h) as [props|];
        [|injection Hr as <-; by left].
      destruct (React.remoteFile props) as [[|o]|]; try done;
        injection Hr as <-; by left. }
  destruct (se_click e); [|eexists; split; [reflexivity|]].
  - destruct (se_menu e); [|eexists; split; [reflexivity|]].
    + destruct (se_menu_items e); [done|]. eexists. split; [reflexivity|].
      destruct Hn as [->|(rf & ? & ->)]; [by left|right; by exists btn, rf].
    + destruct Hn as [->|(rf & ? & ->)]; [by left|right; by exists btn, rf].
  - destruct Hn as [->|(rf & ? & ->)]; [by left|right; by exists btn, rf].
Qed.

(** X23: every record that the primary section of the Selenium package
    appends has a [download_url] that is a true value, whether the list
    of the files can be read or not and whatever raises on the way. *)
Theorem selenium_primary_records_settled
    (file_items : res (list primary_entry)) :
  Forall (fun f => Py.truthy (Data.download_url f) = true)
    (files (snd (primary_section query_file file_items (mkWalk [] None)))).
Proof.
  assert (keeps settled (primary_section query_file file_items)) as Hk.
  { unfold primary_section, primary_file, primary_trigger, primary_menu_item,
      unknown.
    repeat WalkerFacts.keeps_step; try reflexivity.
    unfold settled. simpl. by apply WalkerFacts.or_str_truthy. }
  apply (Hk (mkWalk [] None)). constructor.
Qed.

End Primary.

Lemma selenium_name_failure_skips_one_file_witness :
  primary_section Fixtures.no_query
    (Ok ([Fixtures.selenium_file "Agenda" Fixtures.agenda_42]
         ++ Fixtures.selenium_nameless
         :: [Fixtures.selenium_file "Packet" Fixtures.packet_44]))
    (mkWalk [] None)
  = primary_section Fixtures.no_query
      (Ok ([Fixtures.selenium_file "Agenda" Fixtures.agenda_42]
           ++ [Fixtures.selenium_file "Packet" Fixtures.packet_44]))
      (mkWalk [] None).
Proof.
  apply (selenium_name_failure_skips_one_file Fixtures.no_query
           [Fixtures.selenium_file "Agenda" Fixtures.agenda_42]
           [Fixtures.selenium_file "Packet" Fixtures.packet_44]
           Fixtures.selenium_nameless (mkWalk [] None)).
  reflexivity.
Defined.

Lemma selenium_trigger_failure_gives_unknown_record_witness :
  exists name,
    records_of Fixtures.no_query Fixtures.selenium_no_button
    = [Data.mkFileInfo name "Unknown" (Py.VStr "N/A")
         None None None None None None None None None]
    /\ (name = Py.VStr (Py.strip " Minutes ")
        \/ exists btn rf,
             se_button Fixtures.selenium_no_button = Ok btn
             /\ reference_of (inspect_button_handlers btn) = Some rf
             /\ name = Py.get rf "name").
Proof.
  apply (selenium_trigger_failure_gives_unknown_record Fixtures.no_query
           Fixtures.selenium_no_button " Minutes "); reflexivity.
Defined.

(** Three primary files, the name of the second cannot be read: the
    first and the third give their records. *)
Example selenium_walk_past_nameless_file :
  map Data.name
    (files (snd (primary_section Fixtures.no_query
                   (Ok [Fixtures.selenium_file "Agenda" Fixtures.agenda_42;
                        Fixtures.selenium_nameless;
                        Fixtures.selenium_file "Packet" Fixtures.packet_44])
                   (mkWalk [] None))))
  = [Py.VStr "Agenda"; Py.VStr "Packet"].
Proof. vm_compute. reflexivity. Qed.

End SeleniumFacts.

(** ** Menu items, in the two sections and in the two packages *)

Module MenuItemFacts.

Import Exn Playwright WalkSpec.

Lemma built_stream fd n p :
  Py.truthy_dict (Some fd) = true ->
  Py.get fd "fileId" = Py.VInt n -> n <> 0%Z ->
  Py.truthy (Py.get fd "streamUrl") = false ->
  build_download_url (Some fd) false p
  = Py.VStr (UrlRules.stream_url (Py.VInt n) p).
Proof.
  intros Hne Hid Hn Hs. unfold build_download_url.
  rewrite Hne. simpl. rewrite Hid, Hs. simpl.
  rewrite (proj2 (Z.eqb_neq n 0) Hn). simpl.
  unfold UrlRules.stream_url. by destruct p.
Qed.

Lemma built_attachment fd n p :
  Py.truthy_dict (Some fd) = true ->
  Py.get fd "fileId" = Py.VInt n -> n <> 0%Z ->
  Py.truthy (Py.get fd "streamUrl") = false ->
  build_download_url (Some fd) true p
  = Py.VStr (UrlRules.attachment_url (Py.VInt n)).
Proof.
  intros Hne Hid Hn Hs. unfold build_download_url.
  rewrite Hne. simpl. rewrite Hid, Hs. simpl.
  rewrite (proj2 (Z.eqb_neq n 0) Hn). simpl. reflexivity.
Qed.

(** X24: a reference with a file id, without [streamUrl] and without
    [fileType] is taken for an agenda item under a primary file and for
    an attachment under an attachment row: the record of the primary
    section gets the [GetMeetingFileStream] URL (with the plain-text flag
    of the label), the record of the attachments section gets the
    [GetAttachmentFile] URL and [is_attachment] true. *)
Theorem missing_file_type_depends_on_section
    (query_file : string -> res (option string))
    (remote_file : option (gmap string Py.value)) (file_name : string)
    (download_btn_id : option string) (download_btn_type : string)
    (t : string) (el : React.element) (pr : probe)
    (fd : gmap string Py.value) (n : Z) (w : walk) :
  Py.or_dict (reference_of (inspect_button_handlers el)) remote_file = Some fd ->
  fd !! "fileType" = None ->
  Py.get fd "fileId" = Py.VInt n ->
  n <> 0%Z ->
  Py.truthy (Py.get fd "streamUrl") = false ->
  let mi := mkMenuItem (Ok 1%nat) (Ok (Some t)) (Ok 1%nat) (Ok el) pr (Ok tt) in
  let plain := Py.contains "Plain Text" (Py.strip t) in
  (exists r,
     primary_menu_item query_file remote_file (Py.VStr file_name) mi w
     = (Ok Break, extend w [r])
     /\ Data.download_url r = Py.VStr (UrlRules.stream_url (Py.VInt n) plain))
  /\ (exists r,
        attachment_menu_item remote_file file_name download_btn_id
          download_btn_type mi w
        = (Ok Next, extend w [r])
        /\ Data.download_url r = Py.VStr (UrlRules.attachment_url (Py.VInt n))
        /\ Data.is_attachment r = Some true).
Proof.
  intros Hfd Hty Hid Hn Hs mi plain.
  assert (Py.truthy_dict (Some fd) = true) as Hne.
  { apply (UrlBuilderFacts.truthy_dict_lookup fd "fileId" (Py.VInt n)).
    rewrite <- Hid. apply UrlBuilderFacts.truthy_get_lookup. rewrite Hid.
    simpl. by apply negb_true_iff, Z.eqb_neq. }
  split.
  - unfold primary_menu_item, catch, mbind, M_bind, lift. simpl.
    rewrite Hfd. rewrite Hne.
    unfold Py.get_or. rewrite Hty. simpl.
    rewrite (built_stream fd n _ Hne Hid Hn Hs).
    unfold fallbacks, unresolved. simpl.
    eexists. split; [reflexivity|]. reflexivity.
  - unfold attachment_menu_item, catch, mbind, M_bind, lift. simpl.
    rewrite Hfd. rewrite Hne.
    unfold Py.get_or. rewrite Hty. simpl.
    rewrite (built_attachment fd n _ Hne Hid Hn Hs).
    simpl. eexists. split; [reflexivity|]. by split.
Qed.

Lemma missing_file_type_depends_on_section_witness :
  (exists r,
     primary_menu_item Fixtures.no_query None (Py.VStr "Exhibit")
       (mkMenuItem (Ok 1%nat) (Ok (Some "Plain Text")) (Ok 1%nat)
          (Ok (Fixtures.element_with Fixtures.untyped_9)) Fixtures.no_probe
          (Ok tt))
       (mkWalk [] None)
     = (Ok Break, extend (mkWalk [] None) [r])
     /\ Data.download_url r
        = Py.VStr (UrlRules.stream_url (Py.VInt 9)
                     (Py.contains "Plain Text" (Py.strip "Plain Text"))))
  /\ (exists r,
        attachment_menu_item None "Exhibit" (Some "att") "attachmentFiles"
          (mkMenuItem (Ok 1%nat) (Ok (Some "Plain Text")) (Ok 1%nat)
             (Ok (Fixtures.element_with Fixtures.untyped_9)) Fixtures.no_probe
             (Ok tt))
          (mkWalk [] None)
        = (Ok Next, extend (mkWalk [] None) [r])
        /\ Data.download_url r = Py.VStr (UrlRules.attachment_url (Py.VInt 9))
        /\ Data.is_attachment r = Some true).
Proof.
  apply (missing_file_type_depends_on_section Fixtures.no_query None "Exhibit"
           (Some "att") "attachmentFiles" "Plain Text"
           (Fixtures.element_with Fixtures.untyped_9) Fixtures.no_probe
           Fixtures.untyped_9 9 (mkWalk [] None));
    [reflexivity | reflexivity | reflexivity | lia | reflexivity].
Defined.

(** X25: the two packages differ on an attachment menu item whose
    reference is not empty but has no file id, so that the URL builder
    returns [None]: the Selenium package prints [download_url[:80]]
    without a test, the exception ends the turn and the item gives no
    record, while the Playwright package appends a record with the URL
    ["N/A"]. *)
Theorem backends_differ_on_attachment_without_id
    (remote_file : option (gmap string Py.value)) (file_name : string)
    (download_btn_id : option string) (download_btn_type : string)
    (t : string) (el : React.element) (pr : probe) (cl : res unit)
    (spr : SeleniumWalk.probe) (scl : res unit)
    (fd : gmap string Py.value) (w : walk) :
  Py.or_dict (reference_of (inspect_button_handlers el)) remote_file = Some fd ->
  Py.truthy_dict (Some fd) = true ->
  Py.truthy (Py.get fd "fileId") = false ->
  SeleniumWalk.attachment_menu_item remote_file file_name download_btn_id
    download_btn_type (SeleniumWalk.mkMenuItem (Ok t) (Ok el) spr scl) w
  = (Ok Next, w)
  /\ exists r,
       attachment_menu_item remote_file file_name download_btn_id
         download_btn_type
         (mkMenuItem (Ok 1%nat) (Ok (Some t)) (Ok 1%nat) (Ok el) pr cl) w
       = (Ok Next, extend w [r])
       /\ Data.name r = Py.VStr file_name
       /\ Data.type_ r = Py.strip t
       /\ Data.download_url r = Py.VStr "N/A".
Proof.
  intros Hfd Hne Hid.
  assert (forall a p, build_download_url (Some fd) a p = Py.VNone) as Hb.
  { intros a p. unfold build_download_url. rewrite Hne. simpl. by rewrite Hid. }
  split.
  - unfold SeleniumWalk.attachment_menu_item, catch, mbind, M_bind, lift. simpl.
    change (SeleniumWalk.reference_of (SeleniumWalk.inspect_button_handlers el))
      with (reference_of (inspect_button_handlers el)).
    rewrite Hfd. rewrite Hne.
    change Selenium.build_download_url with build_download_url.
    rewrite Hb. reflexivity.
  - unfold attachment_menu_item, catch, mbind, M_bind, lift. simpl.
    rewrite Hfd. rewrite Hne. rewrite Hb.
    simpl. eexists. split; [reflexivity|]. by repeat split.
Qed.

Lemma backends_differ_on_attachment_without_id_witness :
  SeleniumWalk.attachment_menu_item None "Exhibit B" (Some "att")
    "attachmentFiles"
    (SeleniumWalk.mkMenuItem (Ok "PDF")
       (Ok (Fixtures.element_with Fixtures.idless))
       (SeleniumWalk.mkProbe Raise (Ok None) (Ok 0%nat) (Ok None)) (Ok tt))
    (mkWalk [] None)
  = (Ok Next, mkWalk [] None)
  /\ exists r,
       attachment_menu_item None "Exhibit B" (Some "att") "attachmentFiles"
         (mkMenuItem (Ok 1%nat) (Ok (Some "PDF")) (Ok 1%nat)
            (Ok (Fixtures.element_with Fixtures.idless)) Fixtures.no_probe
            (Ok tt))
         (mkWalk [] None)
       = (Ok Next, extend (mkWalk [] None) [r])
       /\ Data.name r = Py.VStr "Exhibit B"
       /\ Data.type_ r = Py.strip "PDF"
       /\ Data.download_url r = Py.VStr "N/A".
Proof.
  apply (backends_differ_on_attachment_without_id None "Exhibit B" (Some "att")
           "attachmentFiles" "PDF" (Fixtures.element_with Fixtures.idless)
           Fixtures.no_probe (Ok tt)
           (SeleniumWalk.mkProbe Raise (Ok None) (Ok 0%nat) (Ok None)) (Ok tt)
           Fixtures.idless (mkWalk [] None)); reflexivity.
Defined.

End MenuItemFacts.

(** ** Downloads by clicks *)

Module ClickFacts.

Import Exn ClickDownload ClickSpec.

Lemma attachment_button_of_row rw b :
  attachment_button rw = Ok (Some b) <-> button_of_row rw b.
Proof.
  unfold attachment_button, button_of_row. split.
  - intros H.
    destruct (rw_header_count rw) as [[|h]|]; try done. simpl in H.
    destruct (rw_name_count rw) as [[|n]|]; try done. simpl in H.
    destruct (rw_name_text rw) as [[t|]|]; try done. simpl in H.
    destruct (Py.contains "No Attachment File" (Py.strip t)) eqn:Hno; [done|].
    destruct (rw_attach_count rw) as [[|a]|]; try done; simpl in H.
    + destruct (rw_report_count rw) as [[|r]|]; try done. simpl in H.
      injection H as <-. simpl. split; [done|]. split; [by exists n|].
      split; [by exists t|].
      split; [done|]. right. split; [done|]. split; [done|]. by exists r.
    + injection H as <-. simpl. split; [done|]. split; [by exists n|].
      split; [by exists t|].
      split; [done|]. left. split; [done|]. by exists a.
  - intros (-> & [n ->] & (t & -> & Hname) & Hno & Hbtn). simpl.
    rewrite <- Hname, Hno. destruct b as [nm bt]. simpl in *. subst nm.
    destruct Hbtn as [[-> [k ->]]|(-> & -> & [k ->])]; reflexivity.
Qed.

Lemma collect_omap {A} (body : A -> res (option (string * button))) l acc :
  fold_left (collect body) l acc
  = acc ++ omap (fun x => rescue (body x) None) l.
Proof.
  revert acc. induction l as [|x l IH]; intros acc; simpl.
  - by rewrite app_nil_r.
  - rewrite IH. unfold collect.
    destruct (body x) as [[b|]|]; simpl; try done.
    by rewrite <- app_assoc.
Qed.

Lemma omap_id_map {A B} (f : A -> option B) (l : list A) :
  omap id (map f l) = omap f l.
Proof.
  induction l as [|x l IH]; [done|].
  change (omap id (map f (x :: l))) with
    (match f x with
     | Some y => y :: omap id (map f l)
     | None => omap id (map f l)
     end).
  rewrite IH. reflexivity.
Qed.

(** X26: the click downloader takes from the attachments list, in the
    order of the rows, at most one button for each row.  A row gives a
    button exactly when it is no section header, its name is there, is
    read and does not say [No Attachment File], and the row has an
    [attachmentFiles] button, which is then taken, or else a [reportFiles]
    button; a row for which one of these calls raises gives no button, and
    no button at all is taken when the rows cannot be read. *)
Theorem click_buttons_come_from_file_rows (p : files_page) :
  match fp_rows p with
  | Ok rows =>
      exists picks : list (option (string * button)),
        attachment_buttons p = omap id picks
        /\ length picks = length rows
        /\ forall i rw pick, rows !! i = Some rw -> picks !! i = Some pick ->
             forall b, pick = Some b <-> button_of_row rw b
  | Raise => attachment_buttons p = []
  end.
Proof.
  unfold attachment_buttons.
  destruct (fp_rows p) as [rows|]; [|reflexivity]. simpl.
  exists (map (fun rw => rescue (attachment_button rw) None) rows).
  split; [|split].
  - by rewrite collect_omap, omap_id_map.
  - by rewrite length_map.
  - intros i rw pick Hrw Hpick b.
    rewrite list_lookup_fmap, Hrw in Hpick. injection Hpick as <-.
    rewrite <- attachment_button_of_row.
    destruct (attachment_button rw) as [[b'|]|]; simpl; split; congruence.
Qed.

Example buttons_of_a_page :
  map fst (attachment_buttons Fixtures.click_page) = ["Exhibit A"].
Proof. reflexivity. Qed.

(** A turn of the loop of the clicks returns, and what it clicks does not
    depend on the turns before. *)
Lemma click_turn_events b log :
  click_turn b log = (Ok Next, log ++ events_of b)
  /\ (events_of b = []
      \/ events_of b = [Opened (fst b)]
      \/ events_of b = [Opened (fst b); Started (fst b)]).
Proof.
  unfold events_of, click_turn, catch, mbind, M_bind, lift, click, modify.
  destruct (bt_scroll (snd b)); simpl; [|rewrite app_nil_r; auto].
  destruct (bt_click (snd b)); simpl; [|rewrite app_nil_r; auto].
  destruct (bt_id (snd b)) as [[id|]|]; simpl; auto.
  destruct (negb (String.eqb id "")); simpl; auto.
  destruct (bt_menu_visible (snd b)); simpl; auto.
  destruct (bt_menu_count (snd b)) as [n|]; simpl; auto.
  destruct (0 <? n)%nat; simpl; auto.
  destruct (bt_span_count (snd b)) as [c|]; simpl; auto.
  destruct (0 <? c)%nat; simpl; auto.
  destruct (bt_span_click (snd b)); simpl; auto.
  rewrite <- app_assoc. auto.
Qed.

Lemma click_loop bs log :
  for_ bs click_turn log = (Ok tt, log ++ concat (map events_of bs)).
Proof.
  revert log. induction bs as [|b bs IH]; intros log; simpl.
  - by rewrite app_nil_r.
  - unfold mbind, M_bind. destruct (click_turn_events b log) as [-> _].
    rewrite IH. by rewrite app_assoc.
Qed.

(** X27: once the two lists of the files page are there, the click
    downloader tries every button that it collected, those of the files
    list first, whatever raises for a button: the clicks are the
    concatenation of the clicks of each button, and a button gives no
    click, the click that opens its menu, or that click followed by one
    click on the download entry of the menu. *)
Theorem every_button_is_tried (p : files_page) :
  fp_goto p = Ok tt ->
  fp_files p = Ok tt ->
  fp_attachments p = Ok tt ->
  download_files_via_clicks p
  = (Ok tt,
     concat (map events_of (main_files_buttons p ++ attachment_buttons p)))
  /\ Forall (fun b => events_of b = []
                      \/ events_of b = [Opened (fst b)]
                      \/ events_of b = [Opened (fst b); Started (fst b)])
       (main_files_buttons p ++ attachment_buttons p).
Proof.
  intros Hgoto Hfiles Hatt. split.
  - unfold download_files_via_clicks. rewrite Hgoto, Hfiles, Hatt. simpl.
    by rewrite click_loop.
  - apply Forall_forall. intros b _.
    by destruct (click_turn_events b []) as [_ H].
Qed.

Lemma every_button_is_tried_witness :
  download_files_via_clicks Fixtures.click_page
  = (Ok tt,
     concat (map events_of (main_files_buttons Fixtures.click_page
                            ++ attachment_buttons Fixtures.click_page)))
  /\ Forall (fun b => events_of b = []
                      \/ events_of b = [Opened (fst b)]
                      \/ events_of b = [Opened (fst b); Started (fst b)])
       (main_files_buttons Fixtures.click_page
        ++ attachment_buttons Fixtures.click_page).
Proof.
  apply (every_button_is_tried Fixtures.click_page); reflexivity.
Defined.

(** The page of the fixture: the menu of the agenda does not open, the
    placeholder row is passed over, the exhibit is downloaded. *)
Example clicks_of_a_page :
  download_files_via_clicks Fixtures.click_page
  = (Ok tt, [Opened "Agenda"; Opened "Exhibit A"; Started "Exhibit A"]).
Proof. reflexivity. Qed.

End ClickFacts.

(** ** The command line *)

Module CliFacts.

Import Exn Cli CliSpec.

Lemma parse_bound_cases strptime arg :
  match parse_bound strptime arg with
  | Ok d => d = bound_of strptime arg /\ ~ malformed strptime arg
  | Raise => malformed strptime arg
  end.
Proof.
  unfold parse_bound, bound_of, malformed, given.
  destruct arg as [s|]; simpl.
  - destruct (String.eqb s "") eqn:E; simpl.
    + split; [done|]. by intros (x & [=] & _).
    + destruct (strptime s) as [d|] eqn:Hd.
      * split; [done|]. intros (x & [= <-] & Hx). congruence.
      * by exists s.
  - split; [done|]. by intros (x & [=] & _).
Qed.

(** X28: [main] goes on to scrape exactly when no given bound is
    malformed and the start is not after the end; it then uses the dates
    of the bounds that were given, and an option [--start] or [--end]
    with an empty text counts as no bound, not as a format error. *)
Theorem parse_dates_spec
    (strptime : string -> option Datetime.date) (start end_ : option string) :
  match parse_dates strptime start end_ with
  | Some (start_date, end_date) =>
      start_date = bound_of strptime start
      /\ end_date = bound_of strptime end_
      /\ ~ malformed strptime start
      /\ ~ malformed strptime end_
      /\ forall s e, start_date = Some s -> end_date = Some e ->
           DateRange.date_le s e
  | None =>
      malformed strptime start
      \/ malformed strptime end_
      \/ exists s e,
           bound_of strptime start = Some s
           /\ bound_of strptime end_ = Some e
           /\ ~ DateRange.date_le s e
  end.
Proof.
  unfold parse_dates.
  pose proof (parse_bound_cases strptime start) as Hs.
  pose proof (parse_bound_cases strptime end_) as He.
  destruct (parse_bound strptime start) as [sd|]; [|by left].
  destruct (parse_bound strptime end_) as [ed|]; [|right; by left].
  destruct Hs as [-> Hs], He as [-> He].
  destruct (bound_of strptime start) as [s|] eqn:Es;
    destruct (bound_of strptime end_) as [e|] eqn:Ee;
    try (repeat split; try done; intros ? ? [=]; done).
  destruct (Datetime.date_ltb e s) eqn:Hlt.
  - right. right. exists s, e. repeat split.
    by apply DateRangeFacts.date_ltb_not_le.
  - repeat split; try done. intros s' e' [= <-] [= <-].
    destruct (decide (DateRange.date_le s e)) as [|Hn]; [done|].
    apply DateRangeFacts.date_ltb_not_le in Hn. congruence.
Qed.

Example empty_start_is_no_bound :
  parse_dates Fixtures.no_iso (Some "") None = Some (None, None)
  /\ parse_dates Fixtures.no_iso (Some "2025-13-01") None = None.
Proof. split; reflexivity. Qed.

End CliFacts.
